(** * Reporting toolkit: aggregation, metrics and notification rules

  A shallow embedding of the Python modules under [src/reporting]:
  [test_aggregator.py], [metrics.py], [analytics.py] and
  [notification_system.py].

  Conventions of the embedding:
  - Python [int] is [Z]; [len] is [Z.of_nat (length _)].
  - Python [float] is [Q]: the arithmetic of the source ([/], [*], [sum],
    comparisons) is carried out on exact rationals, so rounding is not
    represented.  Where the sum and the quotient of floats are returned as
    they are ([get_test_duration_stats]) the rounded operations are those
    of the class [FloatArith].
  - [str] is the [string] of its UTF-8 bytes; the case mappings of Unicode
    ([str.upper()], [str.lower()]) are the operations of the class
    [Unicode].  [dict] used as a finite map is [gmap].
  - An exception is a value of [exn] returned through [result].
  - The wall clock ([datetime.now()]) is an explicit argument of the
    aggregator and a sequence of readings for the notifier. *)

From Stdlib Require Import ZArith QArith Lqa String Ascii List Lia Permutation Sorted.
From Stdlib Require Import DecimalString.
From stdpp Require Import base gmap strings list.

Close Scope Q_scope.
Local Open Scope string_scope.
Local Open Scope list_scope.

(** ** Python builtins used by the reporting code *)
Module Py.

(** Exceptions that can leave the modelled functions. *)
Inductive exn : Type :=
| TypeError
| ValueError
| StatisticsError.

Inductive result (A : Type) : Type :=
| Ok (a : A)
| Raise (e : exn).
Arguments Ok {A} a.
Arguments Raise {A} e.

Definition bind {A B} (m : result A) (k : A -> result B) : result B :=
  match m with
  | Ok a => k a
  | Raise e => Raise e
  end.

Definition len {A} (l : list A) : Z := Z.of_nat (length l).

(** [d.get(k, dflt)] *)
Definition dict_get {V} (d : gmap string V) (k : string) (dflt : V) : V :=
  default dflt (d !! k).

(** [collections.Counter(keys)]: one increment per element, left to right. *)
Definition Counter_step (m : gmap string Z) (k : string) : gmap string Z :=
  <[k := (dict_get m k 0 + 1)%Z]> m.

Definition Counter (keys : list string) : gmap string Z :=
  foldl Counter_step ∅ keys.

(** [sum(xs)] over floats: starts from 0 and adds left to right.  The sum
    is the exact one: it stands for the float that Python computes only as
    far as the rounding of the additions does not matter. *)
Definition sum (xs : list Q) : Q := foldl Qplus 0%Q xs.

(** [statistics.mean(xs)]: no data raises [StatisticsError]. *)
Definition mean (xs : list Q) : result Q :=
  match xs with
  | [] => Raise StatisticsError
  | _ => Ok (sum xs / inject_Z (len xs))%Q
  end.

(** [a / b] for two ints (true division). *)
Definition truediv (a b : Z) : Q := (inject_Z a / inject_Z b)%Q.

(** [x < y] on floats. *)
Definition Qltb (x y : Q) : bool := negb (Qle_bool y x).

(** [str(n)] for an int, as an f-string prints it. *)
Definition str_of_Z (n : Z) : string := NilZero.string_of_int (Z.to_int n).

(** What [str.upper()] does to a str of ASCII characters: the letters a-z
    are replaced by their capitals. *)
Definition upper_ascii (c : ascii) : ascii :=
  let n := nat_of_ascii c in
  if (97 <=? n)%nat && (n <=? 122)%nat then ascii_of_nat (n - 32) else c.

Fixpoint upper (s : string) : string :=
  match s with
  | EmptyString => EmptyString
  | String c r => String (upper_ascii c) (upper r)
  end.

(** [s.replace('Z', '+00:00')] *)
Fixpoint replace_Z (s : string) : string :=
  match s with
  | EmptyString => EmptyString
  | String c r =>
      if Ascii.eqb c "Z" then String.append "+00:00" (replace_Z r)
      else String c (replace_Z r)
  end.

(** [sorted(l, key=..., reverse=...)].  Python's sort is stable, also with
    [reverse=True]: elements whose keys compare equal keep their input
    order.  A stable sort is determined by that property, so insertion
    from the right computes the same list as the builtin. *)
Section Sorted.
Context {A K : Type}.
Variable key : A -> K.
Variable ltb : K -> K -> bool.
Variable reverse : bool.

(** [goes_first y x]: [y] must stand strictly before [x] in the output. *)
Definition goes_first (y x : A) : bool :=
  if reverse then ltb (key x) (key y) else ltb (key y) (key x).

Fixpoint insert_sorted (x : A) (l : list A) : list A :=
  match l with
  | [] => [x]
  | y :: r => if goes_first y x then y :: insert_sorted x r else x :: y :: r
  end.

Fixpoint sorted (l : list A) : list A :=
  match l with
  | [] => []
  | x :: r => insert_sorted x (sorted r)
  end.
End Sorted.

(** [l[:limit]] *)
Definition slice_to {A} (l : list A) (limit : Z) : list A :=
  if (0 <=? limit)%Z then firstn (Z.to_nat limit) l
  else firstn (Z.to_nat (len l + limit)) l.

(** The part of Python's [datetime] module the code calls.  The module is
    not part of the repository; its operations are the fields of this
    class.  [fromisoformat] returns [None] where Python raises
    [ValueError]; [ge_datetime] and [sub_datetime] (the difference in
    microseconds) return [None] where Python raises [TypeError] (a naive
    value combined with an aware one). *)
Class Datetime := {
  datetime : Type;
  fromisoformat : string -> option datetime;
  isoformat : datetime -> string;
  minus_hours : datetime -> Z -> datetime;
  minus_days : datetime -> Z -> datetime;
  ge_datetime : datetime -> datetime -> option bool;
  sub_datetime : datetime -> datetime -> option Z;
  strftime : datetime -> string -> string;
  weekday : datetime -> Z
}.

(** [l[start:]]: a negative [start] counts from the end, and both ends are
    cut to the list. *)
Definition slice_from {A} (l : list A) (start : Z) : list A :=
  let start := if (start <? 0)%Z then Z.max (start + len l) 0 else Z.min start (len l) in
  skipn (Z.to_nat start) l.

(** [d[k] = v] and [d.update(other)] on a dictionary kept in insertion
    order: a key that is present keeps its place. *)
Fixpoint dict_set {V} (d : list (string * V)) (k : string) (v : V)
  : list (string * V) :=
  match d with
  | [] => [(k, v)]
  | (k', v') :: r =>
      if String.eqb k' k then (k', v) :: r else (k', v') :: dict_set r k v
  end.

Definition dict_update {V} (d other : list (string * V)) : list (string * V) :=
  foldl (fun d kv => dict_set d (fst kv) (snd kv)) d other.

(** What [str.lower()] does to a str of ASCII characters: the letters A-Z
    are replaced by their small letters. *)
Definition lower_ascii (c : ascii) : ascii :=
  let n := nat_of_ascii c in
  if (65 <=? n)%nat && (n <=? 90)%nat then ascii_of_nat (n + 32) else c.

Fixpoint lower (s : string) : string :=
  match s with
  | EmptyString => EmptyString
  | String c r => String (lower_ascii c) (lower r)
  end.

(** A str of ASCII characters: every byte is below 128. *)
Fixpoint ascii_text (s : string) : bool :=
  match s with
  | EmptyString => true
  | String c r => (nat_of_ascii c <? 128)%nat && ascii_text r
  end.

(** [str.upper()] and [str.lower()] are the case mappings of Unicode
    ('straße'.upper() is 'STRASSE').  They belong to Python, not to the
    repository: they are the operations of this class, on the UTF-8 bytes
    of a str. *)
Class Unicode := {
  str_upper : string -> string;
  str_lower : string -> string
}.

(** The two mappings on ASCII text: the letters a-z, respectively A-Z, are
    replaced and nothing else. *)
Definition ascii_case_law `{Unicode} : Prop :=
  forall s : string,
    ascii_text s = true -> str_upper s = upper s /\ str_lower s = lower s.

(** [sum(xs)] of a list of floats and [x / y] round their result (to
    binary64 in CPython, where [sum] adds from the left, with a
    compensation of the rounding errors in recent versions); the rounded
    operations are the fields of this class.  Comparisons of floats are
    exact. *)
Class FloatArith := {
  float_sum : list Q -> Q;
  float_div : Q -> Q -> Q
}.

(** [s.replace('_', ' ')] *)
Fixpoint replace_underscore (s : string) : string :=
  match s with
  | EmptyString => EmptyString
  | String c r =>
      String (if Ascii.eqb c "_" then " "%char else c) (replace_underscore r)
  end.

(** [min(a, b)] and [max(a, b)] on floats: the first argument unless the
    second is strictly smaller, respectively larger. *)
Definition min2 (a b : Q) : Q := if Qltb b a then b else a.

Definition max2 (a b : Q) : Q := if Qltb a b then b else a.

End Py.

(** ** test_aggregator.py *)
Module Aggregator.
Import Py.

(** [class TestResult]: the fields set by [__init__]. *)
Record TestResult := mkTestResult {
  test_id : string;
  name : string;
  suite : string;
  category : string;
  status : string;
  duration : Q;
  timestamp : string;
  message : string;
  error_details : option string;
  tags : list string;
  priority : string;
  browser : string;
  os : string;
  test_type : string;
  retry_count : Z;
  custom_fields : list (string * string)
}.

(** [class TestAggregator]: the attributes set by [__init__]. *)
Record TestAggregator := mkTestAggregator {
  results : list TestResult;
  source_files : list string;
  aggregation_metadata : list (string * string)
}.

Definition init : TestAggregator :=
  {| results := []; source_files := []; aggregation_metadata := [] |}.

(** [add_results] with a list of [TestResult] objects. *)
Definition add_results (self : TestAggregator) (new : list TestResult) : TestAggregator :=
  {| results := results self ++ new;
     source_files := source_files self;
     aggregation_metadata := aggregation_metadata self |}.

Definition clear_results (self : TestAggregator) : TestAggregator := init.

(** The value of the key ['recent_trends']. *)
Inductive RecentTrends : Type :=
| NoData
| Recent (total_recent : Z) (pass_rate_recent : Q)
         (recent_status_breakdown : gmap string Z).

(** The six keys that [get_summary] adds when there are results. *)
Record SummaryDetail := mkSummaryDetail {
  suite_breakdown : gmap string Z;
  category_breakdown : gmap string Z;
  status_breakdown : gmap string Z;
  recent_trends : RecentTrends;
  summary_source_files : list string;
  last_updated : string
}.

(** The dictionary returned by [get_summary]: eight keys always, the other
    six only when the aggregator holds results. *)
Record Summary := mkSummary {
  total : Z;
  passed : Z;
  failed : Z;
  skipped : Z;
  errors : Z;
  pass_rate : Q;
  total_duration : Q;
  avg_duration : Q;
  detail : option SummaryDetail
}.

Section WithDatetime.
Context `{DT : Datetime}.

(** One iteration of the loop of [_get_recent_results]: both the
    [ValueError] of the parse and the [TypeError] of the comparison land in
    the [except] branch, which keeps the record. *)
Definition keep_recent (cutoff_time : datetime) (r : TestResult) : bool :=
  match fromisoformat (replace_Z (timestamp r)) with
  | Some result_time =>
      match ge_datetime result_time cutoff_time with
      | Some b => b
      | None => true
      end
  | None => true
  end.

Definition _get_recent_results (self : TestAggregator) (now : datetime) (hours : Z)
  : list TestResult :=
  List.filter (keep_recent (minus_hours now hours)) (results self).

Definition _calculate_trends (recent_results : list TestResult) : RecentTrends :=
  match recent_results with
  | [] => NoData
  | _ =>
      let status_counts := Counter (map status recent_results) in
      let total_recent := len recent_results in
      let pass_rate_recent :=
        if (0 <? total_recent)%Z
        then (truediv (dict_get status_counts "PASSED" 0%Z) total_recent * 100)%Q
        else 0%Q in
      Recent total_recent pass_rate_recent status_counts
  end.

(** [get_summary].  [now_recent] is the clock read by
    [_get_recent_results], [now_stamp] the one read for ['last_updated']. *)
Definition get_summary (self : TestAggregator) (now_recent now_stamp : datetime)
  : Summary :=
  match results self with
  | [] =>
      {| total := 0; passed := 0; failed := 0; skipped := 0; errors := 0;
         pass_rate := 0; total_duration := 0; avg_duration := 0;
         detail := None |}
  | _ =>
      let status_counts := Counter (map status (results self)) in
      let total := len (results self) in
      let passed := dict_get status_counts "PASSED" 0%Z in
      let failed := dict_get status_counts "FAILED" 0%Z in
      let skipped := dict_get status_counts "SKIPPED" 0%Z in
      let errors := dict_get status_counts "ERROR" 0%Z in
      let total_duration := sum (map duration (results self)) in
      let avg_duration :=
        if (0 <? total)%Z then (total_duration / inject_Z total)%Q else 0%Q in
      let pass_rate :=
        if (0 <? total)%Z then (truediv passed total * 100)%Q else 0%Q in
      let suite_counts := Counter (map suite (results self)) in
      let category_counts := Counter (map category (results self)) in
      let recent_results := _get_recent_results self now_recent 24 in
      {| total := total; passed := passed; failed := failed;
         skipped := skipped; errors := errors;
         pass_rate := pass_rate; total_duration := total_duration;
         avg_duration := avg_duration;
         detail := Some
           {| suite_breakdown := suite_counts;
              category_breakdown := category_counts;
              status_breakdown := status_counts;
              recent_trends := _calculate_trends recent_results;
              summary_source_files := source_files self;
              last_updated := isoformat now_stamp |} |}
  end.

End WithDatetime.

(** *** [get_trends_over_time] *)

(** A value of the [defaultdict]: the four counters of one period. *)
Record PeriodCounts := mkPeriodCounts {
  pc_total : Z;
  pc_passed : Z;
  pc_failed : Z;
  pc_skipped : Z
}.

Definition new_period : PeriodCounts :=
  {| pc_total := 0; pc_passed := 0; pc_failed := 0; pc_skipped := 0 |}.

(** The four statements that follow the computation of [key]. *)
Definition count_status (c : PeriodCounts) (st : string) : PeriodCounts :=
  let c := {| pc_total := pc_total c + 1; pc_passed := pc_passed c;
              pc_failed := pc_failed c; pc_skipped := pc_skipped c |} in
  if String.eqb st "PASSED" then
    {| pc_total := pc_total c; pc_passed := pc_passed c + 1;
       pc_failed := pc_failed c; pc_skipped := pc_skipped c |}
  else if String.eqb st "FAILED" then
    {| pc_total := pc_total c; pc_passed := pc_passed c;
       pc_failed := pc_failed c + 1; pc_skipped := pc_skipped c |}
  else if String.eqb st "SKIPPED" then
    {| pc_total := pc_total c; pc_passed := pc_passed c;
       pc_failed := pc_failed c; pc_skipped := pc_skipped c + 1 |}
  else c.

(** One entry of the list ['trends']. *)
Record TrendRow := mkTrendRow {
  tr_period : string;
  tr_total : Z;
  tr_passed : Z;
  tr_failed : Z;
  tr_skipped : Z;
  tr_pass_rate : Q
}.

(** The value of the key ['summary'] of the trends dictionary. *)
Record TrendSummary := mkTrendSummary {
  periods_analyzed : Z;
  total_executions : Z;
  overall_pass_rate : Q
}.

Inductive Trends : Type :=
| EmptyTrends
| TrendsOf (period : string) (trends : list TrendRow) (summary : TrendSummary).

Definition sum_Z (xs : list Z) : Z := foldl Z.add 0%Z xs.

Section TrendsWithDatetime.
Context `{DT : Datetime}.

Definition period_key (period : string) (result_time : datetime) : string :=
  if String.eqb period "hourly" then strftime result_time "%Y-%m-%d %H:00"
  else if String.eqb period "daily" then strftime result_time "%Y-%m-%d"
  else if String.eqb period "weekly" then
    let monday := minus_days result_time (weekday result_time) in
    strftime monday "%Y-%m-%d"
  else strftime result_time "%Y-%m-%d".

(** The body of the loop over [self.results]: a timestamp that does not
    parse leaves [period_data] as it is ([continue]). *)
Definition tally (period : string) (period_data : gmap string PeriodCounts)
    (r : TestResult) : gmap string PeriodCounts :=
  match fromisoformat (replace_Z (timestamp r)) with
  | Some result_time =>
      let key := period_key period result_time in
      <[key := count_status (dict_get period_data key new_period) (status r)]>
        period_data
  | None => period_data
  end.

Definition period_data_of (period : string) (rs : list TestResult)
  : gmap string PeriodCounts :=
  foldl (tally period) ∅ rs.

Definition trend_row (period_data : gmap string PeriodCounts) (period_key : string)
  : TrendRow :=
  let data := dict_get period_data period_key new_period in
  {| tr_period := period_key;
     tr_total := pc_total data;
     tr_passed := pc_passed data;
     tr_failed := pc_failed data;
     tr_skipped := pc_skipped data;
     tr_pass_rate :=
       if (0 <? pc_total data)%Z
       then (truediv (pc_passed data) (pc_total data) * 100)%Q else 0%Q |}.

Definition trend_rows (period_data : gmap string PeriodCounts) : list TrendRow :=
  let sorted_periods :=
    sorted (fun k : string => k) String.ltb false
           (map fst (map_to_list period_data)) in
  map (trend_row period_data) sorted_periods.

Definition get_trends_over_time (self : TestAggregator) (period : string) : Trends :=
  match results self with
  | [] => EmptyTrends
  | _ =>
      let trends := trend_rows (period_data_of period (results self)) in
      let executions := sum_Z (map tr_total trends) in
      TrendsOf period trends
        {| periods_analyzed := len trends;
           total_executions := executions;
           overall_pass_rate :=
             if (0 <? executions)%Z
             then (truediv (sum_Z (map tr_passed trends)) executions * 100)%Q
             else 0%Q |}
  end.

End TrendsWithDatetime.

(** *** [_load_from_xml] *)

(** An [xml.etree.ElementTree.Element]. *)
#[warnings="-register-all"]
Inductive Element : Type :=
| Elem (tag : string) (attrib : list (string * string)) (text : option string)
       (children : list Element).

Definition tag_of (e : Element) : string :=
  match e with Elem t _ _ _ => t end.
Definition attrib_of (e : Element) : list (string * string) :=
  match e with Elem _ a _ _ => a end.
Definition text_of (e : Element) : option string :=
  match e with Elem _ _ t _ => t end.
Definition children_of (e : Element) : list Element :=
  match e with Elem _ _ _ c => c end.

(** [e.get(k)]: [None] when the attribute is absent. *)
Fixpoint attr_lookup (a : list (string * string)) (k : string) : option string :=
  match a with
  | [] => None
  | (k', v) :: r => if String.eqb k' k then Some v else attr_lookup r k
  end.

Definition get_attr (e : Element) (k : string) : option string :=
  attr_lookup (attrib_of e) k.

(** [e.find(tag)]: the first direct child with that tag. *)
Definition find (e : Element) (t : string) : option Element :=
  List.find (fun c => String.eqb (tag_of c) t) (children_of e).

(** [root.findall('.//testcase')]: every descendant with the tag, in
    document order. *)
Fixpoint descendants (e : Element) : list Element :=
  match e with
  | Elem _ _ _ cs => flat_map (fun c => c :: descendants c) cs
  end.

Definition findall_testcase (root : Element) : list Element :=
  List.filter (fun c => String.eqb (tag_of c) "testcase") (descendants root).

(** The dictionary [result_data] built for one [testcase]: five keys always,
    ['error_details'] and ['message'] only when they were assigned. *)
Record ResultData := mkResultData {
  rd_id : string;
  rd_name : string;
  rd_suite : string;
  rd_duration : Q;
  rd_status : string;
  rd_error_details : option (option string);
  rd_message : option string
}.

Definition set_failure (rd : ResultData) (st : string) (txt : option string)
  : ResultData :=
  {| rd_id := rd_id rd; rd_name := rd_name rd; rd_suite := rd_suite rd;
     rd_duration := rd_duration rd; rd_status := st;
     rd_error_details := Some txt; rd_message := rd_message rd |}.

Definition set_skipped (rd : ResultData) (msg : string) : ResultData :=
  {| rd_id := rd_id rd; rd_name := rd_name rd; rd_suite := rd_suite rd;
     rd_duration := rd_duration rd; rd_status := "SKIPPED";
     rd_error_details := rd_error_details rd; rd_message := Some msg |}.

Section Xml.
(** Python's [float] on a string: [None] stands for [ValueError]. *)
Variable float_of_str : string -> option Q.

(** Lines 168-191 of [_load_from_xml]: the body of the loop up to the
    construction of the [TestResult]. *)
Definition xml_result_data (testcase : Element) : result ResultData :=
  let time :=
    match get_attr testcase "time" with
    | Some s => float_of_str s
    | None => Some 0%Q
    end in
  match time with
  | None => Raise ValueError
  | Some d =>
      let result_data :=
        {| rd_id := default EmptyString (get_attr testcase "name");
           rd_name := default EmptyString (get_attr testcase "name");
           rd_suite := default EmptyString (get_attr testcase "classname");
           rd_duration := d;
           rd_status := "PASSED";
           rd_error_details := None;
           rd_message := None |} in
      let result_data :=
        match find testcase "failure" with
        | Some failure => set_failure result_data "FAILED" (text_of failure)
        | None =>
            match find testcase "error" with
            | Some error => set_failure result_data "ERROR" (text_of error)
            | None => result_data
            end
        end in
      let result_data :=
        match find testcase "skipped" with
        | Some skipped =>
            set_skipped result_data (default EmptyString (get_attr skipped "message"))
        | None => result_data
        end in
      Ok result_data
  end.

(** [TestResult.from_dict(result_data)]: the keys that are absent take the
    defaults of [__init__]; the default timestamp reads the clock. *)
Definition from_result_data (now_iso : string) (rd : ResultData) : TestResult :=
  {| test_id := rd_id rd;
     name := rd_name rd;
     suite := rd_suite rd;
     category := EmptyString;
     status := rd_status rd;
     duration := rd_duration rd;
     timestamp := now_iso;
     message := default EmptyString (rd_message rd);
     error_details := default (Some EmptyString) (rd_error_details rd);
     tags := [];
     priority := "medium";
     browser := EmptyString;
     os := EmptyString;
     test_type := "functional";
     retry_count := 0;
     custom_fields := [] |}.

(** The loop of [_load_from_xml] over the test cases of a parsed document.
    A [ValueError] stops the loop; the records appended before it stay. *)
Fixpoint load_testcases (now_iso : string) (cases : list Element)
    (acc : list TestResult) : list TestResult * option exn :=
  match cases with
  | [] => (acc, None)
  | testcase :: rest =>
      match xml_result_data testcase with
      | Ok rd => load_testcases now_iso rest (acc ++ [from_result_data now_iso rd])
      | Raise e => (acc, Some ValueError)
      end
  end.

Definition _load_from_xml (self : TestAggregator) (now_iso : string) (root : Element)
  : TestAggregator * option exn :=
  let '(rs, e) := load_testcases now_iso (findall_testcase root) (results self) in
  ({| results := rs; source_files := source_files self;
      aggregation_metadata := aggregation_metadata self |}, e).

End Xml.

Definition get_tests_by_status `{Unicode} (self : TestAggregator)
    (status_query : string) : list TestResult :=
  List.filter (fun r => String.eqb (str_upper (status r)) (str_upper status_query))
              (results self).

Definition get_slowest_tests (self : TestAggregator) (limit : Z) : list TestResult :=
  slice_to (sorted duration Qltb true (results self)) limit.

(** *** [TestResult.to_dict] and [TestResult.from_dict] *)

(** A value stored under a key of the dictionary of a result. *)
Inductive field : Type :=
| FStr (s : string)
| FFloat (q : Q)
| FInt (n : Z)
| FNone
| FList (l : list string)
| FDict (d : list (string * string)).

(** [kwargs.get(k, dflt)] on a dictionary kept in insertion order. *)
Fixpoint kwargs_get (kwargs : list (string * field)) (k : string) (dflt : field)
  : field :=
  match kwargs with
  | [] => dflt
  | (k', v) :: r => if String.eqb k' k then v else kwargs_get r k dflt
  end.

(** [to_dict]: the sixteen keys in the order of the dictionary display. *)
Definition to_dict (r : TestResult) : list (string * field) :=
  [("id", FStr (test_id r));
   ("name", FStr (name r));
   ("suite", FStr (suite r));
   ("category", FStr (category r));
   ("status", FStr (status r));
   ("duration", FFloat (duration r));
   ("timestamp", FStr (timestamp r));
   ("message", FStr (message r));
   ("error_details",
     match error_details r with Some s => FStr s | None => FNone end);
   ("tags", FList (tags r));
   ("priority", FStr (priority r));
   ("browser", FStr (browser r));
   ("os", FStr (os r));
   ("test_type", FStr (test_type r));
   ("retry_count", FInt (retry_count r));
   ("custom_fields", FDict (custom_fields r))].

Definition as_str (v : field) : option string :=
  match v with FStr s => Some s | _ => None end.

Definition as_float (v : field) : option Q :=
  match v with FFloat q => Some q | _ => None end.

Definition as_int (v : field) : option Z :=
  match v with FInt n => Some n | _ => None end.

Definition as_optional_str (v : field) : option (option string) :=
  match v with FStr s => Some (Some s) | FNone => Some None | _ => None end.

Definition as_list (v : field) : option (list string) :=
  match v with FList l => Some l | _ => None end.

Definition as_dict (v : field) : option (list (string * string)) :=
  match v with FDict d => Some d | _ => None end.

(** [__init__] of [TestResult] on its keyword arguments: every attribute
    is [kwargs.get(key, default)], and a key that [__init__] does not know
    is ignored.  The Python object takes any value under any key; the
    record has typed fields, and [None] stands for keyword arguments with a
    value that the field of the record cannot hold.  [now_iso] is
    [datetime.now().isoformat()], the default of ['timestamp']. *)
Definition TestResult_init (now_iso : string) (kwargs : list (string * field))
  : option TestResult :=
  let data := kwargs in
  id ← as_str (kwargs_get data "id" (FStr EmptyString));
  nm ← as_str (kwargs_get data "name" (FStr EmptyString));
  su ← as_str (kwargs_get data "suite" (FStr EmptyString));
  ca ← as_str (kwargs_get data "category" (FStr EmptyString));
  st ← as_str (kwargs_get data "status" (FStr "UNKNOWN"));
  du ← as_float (kwargs_get data "duration" (FFloat 0));
  ts ← as_str (kwargs_get data "timestamp" (FStr now_iso));
  ms ← as_str (kwargs_get data "message" (FStr EmptyString));
  ed ← as_optional_str (kwargs_get data "error_details" (FStr EmptyString));
  tg ← as_list (kwargs_get data "tags" (FList []));
  pr ← as_str (kwargs_get data "priority" (FStr "medium"));
  br ← as_str (kwargs_get data "browser" (FStr EmptyString));
  sy ← as_str (kwargs_get data "os" (FStr EmptyString));
  tt ← as_str (kwargs_get data "test_type" (FStr "functional"));
  rc ← as_int (kwargs_get data "retry_count" (FInt 0));
  cf ← as_dict (kwargs_get data "custom_fields" (FDict []));
  Some {| test_id := id; name := nm; suite := su; category := ca; status := st;
          duration := du; timestamp := ts; message := ms; error_details := ed;
          tags := tg; priority := pr; browser := br; os := sy; test_type := tt;
          retry_count := rc; custom_fields := cf |}.

(** [from_dict]: the class is called with the entries of [data] as keyword
    arguments.  The first parameter of [__init__] is [self]: an entry with
    the key ['self'] collides with it, and the call raises [TypeError]
    before [__init__] runs.  [None] is the [None] of [TestResult_init]. *)
Definition from_dict (now_iso : string) (data : list (string * field))
  : option (result TestResult) :=
  if existsb (fun kv => String.eqb (fst kv) "self") data then Some (Raise TypeError)
  else option_map Ok (TestResult_init now_iso data).

(** [get_tests_by_suite] and [get_tests_by_category] *)
Definition get_tests_by_suite `{Unicode} (self : TestAggregator)
    (suite_query : string) : list TestResult :=
  List.filter (fun r => String.eqb (str_lower (suite r)) (str_lower suite_query))
              (results self).


(** [get_failed_tests] *)
Definition get_failed_tests (self : TestAggregator) : list TestResult :=
  List.filter (fun r => String.eqb (status r) "FAILED" || String.eqb (status r) "ERROR")
              (results self).

(** [min(xs)] and [max(xs)] for a list with first element [x]: the first
    smallest, respectively largest, element. *)
Definition py_min (x : Q) (xs : list Q) : Q :=
  foldl (fun m y => if Qltb y m then y else m) x xs.

Definition py_max (x : Q) (xs : list Q) : Q :=
  foldl (fun m y => if Qltb m y then y else m) x xs.

(** The dictionary returned by [get_test_duration_stats]. *)
Record DurationStats := mkDurationStats {
  stat_min : Q;
  stat_max : Q;
  stat_avg : Q;
  stat_median : Q;
  stat_total : Q
}.

(** [get_test_duration_stats]; the guard excludes the empty list, on which
    [min] and [max] would raise.  The total is the rounded sum of the
    durations in ascending order, and the average its rounded quotient. *)
Definition get_test_duration_stats `{FloatArith} (self : TestAggregator)
  : DurationStats :=
  match results self with
  | [] =>
      {| stat_min := 0; stat_max := 0; stat_avg := 0; stat_median := 0;
         stat_total := 0 |}
  | _ =>
      let durations := sorted (fun d : Q => d) Qltb false (map duration (results self)) in
      let total := float_sum durations in
      let avg := float_div total (inject_Z (len durations)) in
      let minimum :=
        match durations with
        | d :: ds => py_min d ds
        | [] => 0%Q
        end in
      let maximum :=
        match durations with
        | d :: ds => py_max d ds
        | [] => 0%Q
        end in
      let median := nth (Z.to_nat (len durations / 2)) durations 0%Q in
      {| stat_min := minimum; stat_max := maximum; stat_avg := avg;
         stat_median := median; stat_total := total |}
  end.

End Aggregator.

(** ** Test results as dictionaries

    [metrics.py], [analytics.py] and [notification_system.py] take the
    results as a list of dictionaries and read them with [get]. *)
Module Dicts.
Import Py.

(** The keys that the modelled functions read, each possibly absent. *)
Record TestDict := mkTestDict {
  d_name : option string;
  d_suite : option string;
  d_category : option string;
  d_status : option string;
  d_duration : option Q;
  d_timestamp : option string
}.

(** [r.get('status') == st] *)
Definition status_is (st : string) (r : TestDict) : bool :=
  match d_status r with
  | Some s => String.eqb s st
  | None => false
  end.

(** [r.get('status') in ['FAILED', 'ERROR']] *)
Definition status_failed_or_error (r : TestDict) : bool :=
  status_is "FAILED" r || status_is "ERROR" r.

(** [r.get('duration', 0)] *)
Definition duration_of (r : TestDict) : Q := default 0%Q (d_duration r).

(** A value built by the metrics and analytics functions: numbers, text,
    lists and dictionaries (in insertion order). *)
#[warnings="-register-all"]
Inductive pyval : Type :=
| PNone
| PNum (q : Q)
| PStr (s : string)
| PList (l : list pyval)
| PDict (d : list (string * pyval)).

(** The histogram of durations that [metrics.py]
    ([_analyze_performance_distribution]) and [analytics.py]
    ([_analyze_duration_distribution]) both build: the dictionary [buckets]
    and the loop over [durations]. *)
Definition empty_buckets : gmap string Z :=
  list_to_map [("0-1s", 0%Z); ("1-5s", 0%Z); ("5-10s", 0%Z);
               ("10-30s", 0%Z); ("30-60s", 0%Z); ("60s+", 0%Z)].

(** The key chosen by the chain of comparisons. *)
Definition bucket_key (duration : Q) : string :=
  if Qle_bool duration 1 then "0-1s"
  else if Qle_bool duration 5 then "1-5s"
  else if Qle_bool duration 10 then "5-10s"
  else if Qle_bool duration 30 then "10-30s"
  else if Qle_bool duration 60 then "30-60s"
  else "60s+".

(** [buckets[key] += 1]; every key the chain chooses is in the dictionary. *)
Definition count_duration (buckets : gmap string Z) (duration : Q) : gmap string Z :=
  let key := bucket_key duration in
  <[key := (dict_get buckets key 0 + 1)%Z]> buckets.

Definition duration_buckets (durations : list Q) : gmap string Z :=
  foldl count_duration empty_buckets durations.

End Dicts.

(** ** notification_system.py *)
Module Notification.
Import Py Dicts.

Inductive NotificationPriority : Type := LOW | MEDIUM | HIGH | CRITICAL.

Inductive NotificationChannel : Type :=
| EMAIL | SLACK | TEAMS | WEBHOOK | CONSOLE | FILE.

Definition channel_value (c : NotificationChannel) : string :=
  match c with
  | EMAIL => "email" | SLACK => "slack" | TEAMS => "teams"
  | WEBHOOK => "webhook" | CONSOLE => "console" | FILE => "file"
  end.

(** The values held by the summary dictionary. *)
Inductive value : Type :=
| VNum (q : Q)
| VStr (s : string)
| VTests (l : list TestDict).

(** [@dataclass NotificationRule]; the thresholds of the trigger
    conditions are numbers, the dictionary keeps its insertion order. *)
Record NotificationRule := mkNotificationRule {
  rule_name : string;
  channel : NotificationChannel;
  priority_threshold : NotificationPriority;
  trigger_conditions : list (string * Q);
  template : string;
  enabled : bool;
  rate_limit_minutes : Z
}.

(** The rules of [_load_default_config]. *)
Definition default_rules : list NotificationRule :=
  [ {| rule_name := "Critical Failures";
       channel := EMAIL;
       priority_threshold := HIGH;
       trigger_conditions := [("failure_rate_threshold", (1 # 10)%Q); ("min_failures", 1%Q)];
       template := "failure_alert";
       enabled := true;
       rate_limit_minutes := 60 |};
    {| rule_name := "Success Notification";
       channel := CONSOLE;
       priority_threshold := LOW;
       trigger_conditions := [("pass_rate_threshold", 100%Q)];
       template := "success_notification";
       enabled := true;
       rate_limit_minutes := 60 |};
    {| rule_name := "Performance Issues";
       channel := CONSOLE;
       priority_threshold := MEDIUM;
       trigger_conditions := [("slow_test_threshold", 30%Q); ("min_slow_tests", 1%Q)];
       template := "performance_alert";
       enabled := true;
       rate_limit_minutes := 60 |} ].

Definition count_status (st : string) (test_results : list TestDict) : Z :=
  len (List.filter (status_is st) test_results).

(** [_calculate_summary]; [now_iso] is [datetime.now().isoformat()]. *)
Definition _calculate_summary (now_iso : string) (test_results : list TestDict)
  : gmap string value :=
  let total := len test_results in
  let passed := count_status "PASSED" test_results in
  let failed := count_status "FAILED" test_results in
  let skipped := count_status "SKIPPED" test_results in
  let total_duration := sum (map duration_of test_results) in
  let pass_rate :=
    if (0 <? total)%Z then (truediv passed total * 100)%Q else 0%Q in
  let failed_tests := List.filter (status_is "FAILED") test_results in
  let slow_tests :=
    List.filter (fun r => Qltb 20 (duration_of r)) test_results in
  list_to_map
    [("total", VNum (inject_Z total));
     ("passed", VNum (inject_Z passed));
     ("failed", VNum (inject_Z failed));
     ("skipped", VNum (inject_Z skipped));
     ("pass_rate", VNum pass_rate);
     ("total_duration", VNum total_duration);
     ("failure_rate",
       VNum (if (0 <? total)%Z then (truediv failed total * 100)%Q else 0%Q));
     ("failed_tests", VTests failed_tests);
     ("slow_tests", VTests slow_tests);
     ("timestamp", VStr now_iso)].

(** [v < q] and [v > q] for a value of the summary and a number: a string
    or a list on the left raises [TypeError]. *)
Definition lt_num (v : value) (q : Q) : result bool :=
  match v with
  | VNum a => Ok (Qltb a q)
  | _ => Raise TypeError
  end.

Definition gt_num (v : value) (q : Q) : result bool :=
  match v with
  | VNum a => Ok (Qltb q a)
  | _ => Raise TypeError
  end.

(** [a or b]: [b] is evaluated only when [a] is false. *)
Definition or_else (a b : result bool) : result bool :=
  bind a (fun x => if x then Ok true else b).

Definition _priority_exceeds_threshold (summary : gmap string value)
    (threshold : NotificationPriority) : result bool :=
  let failure_rate := dict_get summary "failure_rate" (VNum 0) in
  let pass_rate := dict_get summary "pass_rate" (VNum 0) in
  match threshold with
  | CRITICAL => or_else (gt_num failure_rate 30) (lt_num pass_rate 50)
  | HIGH => or_else (gt_num failure_rate 20) (lt_num pass_rate 70)
  | MEDIUM => or_else (gt_num failure_rate 10) (lt_num pass_rate 85)
  | LOW => or_else (gt_num failure_rate 5) (lt_num pass_rate 95)
  end.

(** [s.startswith(p)] and [s.endswith(p)] *)
Definition startswith (s p : string) : bool := String.prefix p s.

Definition endswith (s p : string) : bool :=
  (String.length p <=? String.length s)%nat
  && String.eqb (substring (String.length s - String.length p) (String.length p) s) p.

(** [_check_trigger_conditions]: the summary is looked up under the name of
    the condition itself; a name the summary does not have is skipped. *)
Fixpoint _check_trigger_conditions (summary : gmap string value)
    (conditions : list (string * Q)) : result bool :=
  match conditions with
  | [] => Ok true
  | (condition, threshold) :: rest =>
      match summary !! condition with
      | None => _check_trigger_conditions summary rest
      | Some actual_value =>
          if endswith condition "_threshold" then
            bind (lt_num actual_value threshold) (fun below =>
              if below then Ok false
              else _check_trigger_conditions summary rest)
          else if startswith condition "min_" then
            bind (lt_num actual_value threshold) (fun below =>
              if below then Ok false
              else _check_trigger_conditions summary rest)
          else if startswith condition "max_" then
            bind (gt_num actual_value threshold) (fun above =>
              if above then Ok false
              else _check_trigger_conditions summary rest)
          else _check_trigger_conditions summary rest
      end
  end.

(** *** [class NotificationSystem] *)
Section Stateful.
Context `{DT : Datetime}.

(** [@dataclass NotificationResult]; [message] is the error of the
    transport when the delivery failed. *)
Record NotificationResult := mkNotificationResult {
  success : bool;
  result_channel : string;
  result_message : option string;
  result_timestamp : datetime;
  result_error_details : option string
}.

Definition Config : Type := list (string * list (string * string)).

Record NotificationSystem := mkNotificationSystem {
  config : Config;
  rules : list NotificationRule;
  notification_history : list NotificationResult;
  last_notification_times : gmap string datetime
}.

(** [__init__]: the default rules are loaded, nothing was sent yet. *)
Definition new_system (cfg : Config) : NotificationSystem :=
  {| config := cfg; rules := default_rules;
     notification_history := []; last_notification_times := ∅ |}.

Definition add_rule (sys : NotificationSystem) (rule : NotificationRule)
  : NotificationSystem :=
  {| config := config sys; rules := rules sys ++ [rule];
     notification_history := notification_history sys;
     last_notification_times := last_notification_times sys |}.

(** What a call does besides changing the object: [Evaluated] marks a rule
    whose priority threshold and trigger conditions were looked at (it is
    there for the proofs, the code has no such effect), [Delivery] a message
    handed to the transport of a channel. *)
Inductive event : Type :=
| Evaluated (rule : string)
| Delivery (rule : string) (ch : NotificationChannel) (message : string).

(** The object, the number of reads of the clock so far, and the events. *)
Record State := mkState {
  system : NotificationSystem;
  ticks : nat;
  trace : list event
}.

(** The [k]-th read of [datetime.now()]. *)
Variable clock : nat -> datetime.

(** [_generate_message]: the text of a template, or the text of the
    exception that the formatting raised. *)
Variable render :
  string -> gmap string value -> list TestDict -> datetime -> string + string.

(** The transports ([_send_email], [_send_slack], ...).  A transport is
    given the configuration, the message and the name of the rule, and it
    catches its own exceptions.  It may read the clock: [_send_file] reads
    it for the name of the file and once more for the line ['Generated:']
    when the file was opened, [_send_email] for the subject and
    [_send_webhook] for the payload once they are configured;
    [_send_console], [_send_slack] and [_send_teams] do not read it.
    [deliver cfg ch message name times], where [times k] is the [k]-th read
    of the clock from the call on, is success and error, and the number of
    reads of the clock that the transport made. *)
Variable deliver :
  Config -> NotificationChannel -> string -> string -> (nat -> datetime) ->
  bool * option string * nat.

Definition M (A : Type) : Type := State -> result A * State.

Definition ret {A} (a : A) : M A := fun st => (Ok a, st).

Definition bindM {A B} (m : M A) (k : A -> M B) : M B :=
  fun st =>
    match m st with
    | (Ok a, st') => k a st'
    | (Raise e, st') => (Raise e, st')
    end.

Notation "x <- m ;; k" := (bindM m (fun x => k))
  (at level 100, m at level 99, right associativity).
Notation "m ;;; k" := (bindM m (fun _ => k))
  (at level 100, right associativity).

Definition lift {A} (r : result A) : M A := fun st => (r, st).

Definition now : M datetime :=
  fun st =>
    (Ok (clock (ticks st)),
     {| system := system st; ticks := S (ticks st); trace := trace st |}).

Definition log (e : event) : M unit :=
  fun st =>
    (Ok tt,
     {| system := system st; ticks := ticks st; trace := trace st ++ [e] |}).

Definition self : M NotificationSystem := fun st => (Ok (system st), st).

(** A call of a transport: its reads of the clock are counted. *)
Definition transport (send : (nat -> datetime) -> bool * option string * nat)
  : M (bool * option string) :=
  fun st =>
    let '(outcome, reads) := send (fun k => clock (k + ticks st)) in
    (Ok outcome,
     {| system := system st; ticks := reads + ticks st; trace := trace st |}).

(** [_evaluate_rules]: the loop over [self.rules]. *)
Fixpoint evaluate_loop (summary : gmap string value) (rs : list NotificationRule)
  : M (list NotificationRule) :=
  match rs with
  | [] => ret []
  | rule :: rest =>
      if negb (enabled rule) then evaluate_loop summary rest
      else
        log (Evaluated (rule_name rule)) ;;;
        exceeds <- lift (_priority_exceeds_threshold summary (priority_threshold rule)) ;;
        if exceeds then
          met <- lift (_check_trigger_conditions summary (trigger_conditions rule)) ;;
          applicable <- evaluate_loop summary rest ;;
          ret (if met then rule :: applicable else applicable)
        else evaluate_loop summary rest
  end.

Definition _evaluate_rules (summary : gmap string value)
    (test_results : list TestDict) : M (list NotificationRule) :=
  sys <- self ;;
  evaluate_loop summary (rules sys).

(** [_should_send_notification]: the rate limit. *)
Definition _should_send_notification (rule : NotificationRule) : M bool :=
  current_time <- now ;;
  sys <- self ;;
  match last_notification_times sys !! rule_name rule with
  | Some last_sent =>
      match sub_datetime current_time last_sent with
      | Some time_diff =>
          ret (negb (time_diff <? rate_limit_minutes rule * 60 * 1000000)%Z)
      | None => lift (Raise TypeError)
      end
  | None => ret true
  end.

(** [_send_notification]; the template reads the clock once, the
    transport as often as it does, the result once more. *)
Definition _send_notification (rule : NotificationRule)
    (summary : gmap string value) (test_results : list TestDict)
  : M NotificationResult :=
  t <- now ;;
  match render (template rule) summary test_results t with
  | inl message =>
      log (Delivery (rule_name rule) (channel rule) message) ;;;
      sys <- self ;;
      sent <- transport (deliver (config sys) (channel rule) message (rule_name rule)) ;;
      let '(ok, error) := sent in
      stamp <- now ;;
      ret {| success := ok;
             result_channel := channel_value (channel rule);
             result_message :=
               if ok then Some "Notification sent successfully" else error;
             result_timestamp := stamp;
             result_error_details := if ok then None else error |}
  | inr e =>
      stamp <- now ;;
      ret {| success := false;
             result_channel := channel_value (channel rule);
             result_message := Some e;
             result_timestamp := stamp;
             result_error_details := Some e |}
  end.

Definition _record_notification (name : string) : M unit :=
  t <- now ;;
  fun st =>
    (Ok tt,
     {| system :=
          {| config := config (system st);
             rules := rules (system st);
             notification_history := notification_history (system st);
             last_notification_times :=
               <[name := t]> (last_notification_times (system st)) |};
        ticks := ticks st;
        trace := trace st |}).

(** The loop over [applicable_rules]. *)
Fixpoint send_loop (applicable : list NotificationRule)
    (summary : gmap string value) (test_results : list TestDict)
  : M (list NotificationResult) :=
  match applicable with
  | [] => ret []
  | rule :: rest =>
      send <- _should_send_notification rule ;;
      if send then
        r <- _send_notification rule summary test_results ;;
        (if success r then _record_notification (rule_name rule) else ret tt) ;;;
        rs <- send_loop rest summary test_results ;;
        ret (r :: rs)
      else send_loop rest summary test_results
  end.

(** [send_test_results_notification].  [rules_to_evaluate] is computed and
    never used: the rules evaluated are those of the object. *)
Definition send_test_results_notification (test_results : list TestDict)
    (custom_rules : option (list NotificationRule))
  : M (list NotificationResult) :=
  match test_results with
  | [] => ret []
  | _ =>
      t <- now ;;
      let summary := _calculate_summary (isoformat t) test_results in
      sys <- self ;;
      let rules_to_evaluate :=
        match custom_rules with
        | Some (r :: rs) => r :: rs
        | _ => rules sys
        end in
      applicable_rules <- _evaluate_rules summary test_results ;;
      send_loop applicable_rules summary test_results
  end.

(** [self.config = cfg], and [self.config.update(...)] seen as the
    assignment of the updated dictionary. *)
Definition set_config (cfg : Config) : M unit :=
  fun st =>
    (Ok tt,
     {| system :=
          {| config := cfg;
             rules := rules (system st);
             notification_history := notification_history (system st);
             last_notification_times := last_notification_times (system st) |};
        ticks := ticks st;
        trace := trace st |}).

(** The temporary rule of [send_custom_notification]; [enabled] and
    [rate_limit_minutes] take the defaults of the dataclass. *)
Definition custom_rule (ch : NotificationChannel) : NotificationRule :=
  {| rule_name := "Custom";
     channel := ch;
     priority_threshold := LOW;
     trigger_conditions := [];
     template := "custom";
     enabled := true;
     rate_limit_minutes := 60 |}.

(** [{'custom': True}]; [True] is the number 1. *)
Definition custom_summary : gmap string value := {["custom" := VNum 1]}.

(** [send_custom_notification].  [message] is not used by the body.  An
    empty dictionary is false: an empty [config_override] is not applied, and
    an empty [old_config] is not put back.  Nothing in the [try] block
    raises ([_send_notification] catches its own exceptions), so the
    [except] branch is not reached. *)
Definition send_custom_notification (ch : NotificationChannel) (message : string)
    (config_override : option Config) : M NotificationResult :=
  sys <- self ;;
  let old_config :=
    match config_override with
    | Some (_ :: _) => Some (config sys)
    | _ => None
    end in
  (match config_override with
   | Some (kv :: more) => set_config (dict_update (config sys) (kv :: more))
   | _ => ret tt
   end) ;;;
  let rule := custom_rule ch in
  result <- _send_notification rule custom_summary [] ;;
  (match old_config with
   | Some (kv :: more) => set_config (kv :: more)
   | _ => ret tt
   end) ;;;
  ret result.

(** An entry of the list returned by [get_notification_history]. *)
Record HistoryEntry := mkHistoryEntry {
  h_success : bool;
  h_channel : string;
  h_message : option string;
  h_timestamp : string;
  h_error_details : option string
}.

Definition history_entry (result : NotificationResult) : HistoryEntry :=
  {| h_success := success result;
     h_channel := result_channel result;
     h_message := result_message result;
     h_timestamp := isoformat (result_timestamp result);
     h_error_details := result_error_details result |}.

(** [get_notification_history]: the slice is [[-limit:]]. *)
Definition get_notification_history (limit : Z) : M (list HistoryEntry) :=
  sys <- self ;;
  ret (map history_entry (slice_from (notification_history sys) (- limit))).

Definition clear_history : M unit :=
  fun st =>
    (Ok tt,
     {| system :=
          {| config := config (system st);
             rules := rules (system st);
             notification_history := [];
             last_notification_times := last_notification_times (system st) |};
        ticks := ticks st;
        trace := trace st |}).

End Stateful.

End Notification.

(** ** metrics.py *)
Module Metrics.
Import Py Dicts.

(** [{'error': 'No test results available'}] *)
Definition no_results : pyval :=
  PDict [("error", PStr "No test results available")].

Section MetricsCalculator.
(** The statements of a public method that follow its guard
    [if not self.test_results], by the name of the method. *)
Variable main_path : string -> list TestDict -> result pyval.

Definition calculate_execution_metrics (test_results : list TestDict) : result pyval :=
  match test_results with
  | [] => Ok no_results
  | _ => main_path "calculate_execution_metrics" test_results
  end.

Definition calculate_quality_metrics (test_results : list TestDict) : result pyval :=
  match test_results with
  | [] => Ok no_results
  | _ => main_path "calculate_quality_metrics" test_results
  end.

Definition calculate_performance_metrics (test_results : list TestDict) : result pyval :=
  match test_results with
  | [] => Ok no_results
  | _ => main_path "calculate_performance_metrics" test_results
  end.

Definition calculate_coverage_metrics (test_results : list TestDict) : result pyval :=
  match test_results with
  | [] => Ok no_results
  | _ => main_path "calculate_coverage_metrics" test_results
  end.

Definition calculate_trend_metrics (test_results : list TestDict) : result pyval :=
  match test_results with
  | [] => Ok no_results
  | _ => main_path "calculate_trend_metrics" test_results
  end.

Definition calculate_comparative_metrics (test_results : list TestDict) : result pyval :=
  match test_results with
  | [] => Ok no_results
  | _ => main_path "calculate_comparative_metrics" test_results
  end.

Definition calculate_kpi_summary (test_results : list TestDict) : result pyval :=
  match test_results with
  | [] => Ok no_results
  | _ => main_path "calculate_kpi_summary" test_results
  end.

(** [calculate_all_metrics]: the seven values in the order of the
    dictionary display. *)
Definition calculate_all_metrics (test_results : list TestDict) : result pyval :=
  bind (calculate_execution_metrics test_results) (fun execution =>
  bind (calculate_quality_metrics test_results) (fun quality =>
  bind (calculate_performance_metrics test_results) (fun performance =>
  bind (calculate_coverage_metrics test_results) (fun coverage =>
  bind (calculate_trend_metrics test_results) (fun trend =>
  bind (calculate_comparative_metrics test_results) (fun comparative =>
  bind (calculate_kpi_summary test_results) (fun kpi =>
  Ok (PDict [("execution_metrics", execution);
             ("quality_metrics", quality);
             ("performance_metrics", performance);
             ("coverage_metrics", coverage);
             ("trend_metrics", trend);
             ("comparative_metrics", comparative);
             ("kpi_summary", kpi)])))))))).

End MetricsCalculator.

(** The public methods of [MetricsCalculator] that compute one family of
    metrics. *)
Definition metric_functions (main_path : string -> list TestDict -> result pyval)
  : list (list TestDict -> result pyval) :=
  [calculate_execution_metrics main_path;
   calculate_quality_metrics main_path;
   calculate_performance_metrics main_path;
   calculate_coverage_metrics main_path;
   calculate_trend_metrics main_path;
   calculate_comparative_metrics main_path;
   calculate_kpi_summary main_path].

(** *** Helpers of the metrics *)

(** [_calculate_reliability_score] *)
Definition _calculate_reliability_score (test_results : list TestDict) : Q :=
  match test_results with
  | [] => 0%Q
  | _ =>
      let passed := len (List.filter (status_is "PASSED") test_results) in
      let total := len test_results in
      let base_score :=
        if (0 <? total)%Z then (truediv passed total * 100)%Q else 0%Q in
      let stability_bonus := 5%Q in
      min2 100 (base_score + stability_bonus)
  end.

(** [_analyze_performance_distribution]: no bucket at all for no duration. *)
Definition _analyze_performance_distribution (durations : list Q) : gmap string Z :=
  match durations with
  | [] => ∅
  | _ => duration_buckets durations
  end.

(** The status that [_assess_kpi_status] gives one KPI. *)
Definition kpi_status (kpi : string) (value : Q) : string :=
  if String.eqb kpi "test_pass_rate" then
    if Qle_bool 95 value then "excellent"
    else if Qle_bool 85 value then "good"
    else if Qle_bool 70 value then "needs_improvement"
    else "critical"
  else if String.eqb kpi "test_reliability" then
    if Qle_bool 90 value then "excellent"
    else if Qle_bool 80 value then "good"
    else "needs_improvement"
  else if String.eqb kpi "test_performance" then
    if Qle_bool value 5 then "excellent"
    else if Qle_bool value 10 then "good"
    else if Qle_bool value 20 then "needs_improvement"
    else "critical"
  else if String.eqb kpi "test_coverage" then
    if Qle_bool 80 value then "excellent"
    else if Qle_bool 60 value then "good"
    else "needs_improvement"
  else "good".

(** [_assess_kpi_status]: the dictionaries keep their insertion order. *)
Definition _assess_kpi_status (kpis : list (string * Q)) : list (string * string) :=
  foldl (fun status kv => dict_set status (fst kv) (kpi_status (fst kv) (snd kv)))
        [] kpis.

(** The body of the loop of [_generate_recommendations]: what one entry of
    [status] appends. *)
Definition recommendation_for (kpi kpi_status : string) : list string :=
  if String.eqb kpi_status "critical" then
    if String.eqb kpi "test_pass_rate" then
      ["URGENT: Test pass rate is critically low. Investigate and fix failing tests immediately."]
    else if String.eqb kpi "test_performance" then
      ["URGENT: Test execution time is too high. Optimize slow tests and consider parallel execution."]
    else []
  else if String.eqb kpi_status "needs_improvement" then
    if String.eqb kpi "test_pass_rate" then
      ["Improve test quality by addressing failing tests and improving test design."]
    else if String.eqb kpi "test_coverage" then
      ["Increase test coverage by adding tests for uncovered areas."]
    else if String.eqb kpi "test_performance" then
      ["Optimize test execution time by improving test efficiency."]
    else []
  else [].

Definition all_kpis_well : string :=
  "All KPIs are performing well. Continue monitoring and maintaining current standards.".

(** [_generate_recommendations]; [kpis] is not read. *)
Definition _generate_recommendations (kpis : list (string * Q))
    (status : list (string * string)) : list string :=
  let recommendations :=
    foldl (fun recommendations kv =>
             recommendations ++ recommendation_for (fst kv) (snd kv))
          [] status in
  match recommendations with
  | [] => [all_kpis_well]
  | _ => recommendations
  end.

(** An entry of the list built by [_identify_priority_actions]. *)
Record PriorityAction := mkPriorityAction {
  action_priority : string;
  action_kpi : string;
  action_text : string;
  action_impact : string
}.

(** The body of the loop of [_identify_priority_actions]. *)
Definition action_for (kpi kpi_status : string) : list PriorityAction :=
  if String.eqb kpi_status "critical" then
    [ {| action_priority := "high";
         action_kpi := kpi;
         action_text :=
           String.append "Address "
             (String.append (replace_underscore kpi) " issues immediately");
         action_impact := "high" |} ]
  else if String.eqb kpi_status "needs_improvement" then
    [ {| action_priority := "medium";
         action_kpi := kpi;
         action_text :=
           String.append "Improve "
             (String.append (replace_underscore kpi) " performance");
         action_impact := "medium" |} ]
  else [].

(** [priority_order.get(p, 0)] *)
Definition priority_order (p : string) : Z :=
  if String.eqb p "high" then 3%Z
  else if String.eqb p "medium" then 2%Z
  else if String.eqb p "low" then 1%Z
  else 0%Z.

(** [_identify_priority_actions]; [kpis] is not read. *)
Definition _identify_priority_actions (kpis : list (string * Q))
    (status : list (string * string)) : list PriorityAction :=
  let actions :=
    foldl (fun actions kv => actions ++ action_for (fst kv) (snd kv)) [] status in
  let actions :=
    sorted (fun x => priority_order (action_priority x)) Z.ltb true actions in
  slice_to actions 5.

End Metrics.

(** ** analytics.py *)
Module Analytics.
Import Py Dicts.

Definition no_results : pyval :=
  PDict [("error", PStr "No test results available")].

Section AnalyticsEngine.
Context `{DT : Datetime}.

(** The statements of a method that follow its guards, by the name of the
    method; [analyze_trends] passes on the period and the filtered results,
    [analyze_failure_patterns] the failed tests and all results. *)
Variable main_path : string -> list TestDict -> result pyval.
Variable trend_analysis : string -> list TestDict -> result pyval.
Variable failure_analysis : list TestDict -> list TestDict -> result pyval.

(** [f"{x:.1f}"] *)
Variable format_1f : Q -> string.

Definition analyze_performance (test_results : list TestDict) : result pyval :=
  match test_results with
  | [] => Ok no_results
  | _ => main_path "analyze_performance" test_results
  end.

Definition analyze_failure_patterns (test_results : list TestDict) : result pyval :=
  let failed_tests := List.filter (status_is "FAILED") test_results in
  match failed_tests with
  | [] => Ok (PDict [("message", PStr "No failed tests to analyze")])
  | _ => failure_analysis failed_tests test_results
  end.

Definition analyze_test_quality (test_results : list TestDict) : result pyval :=
  match test_results with
  | [] => Ok no_results
  | _ => main_path "analyze_test_quality" test_results
  end.

(** One iteration of the loop of [_filter_by_time_period]: an empty
    timestamp, one that does not parse and one that does not compare with
    the cutoff are all left out. *)
Definition in_period (cutoff : datetime) (r : TestDict) : bool :=
  let timestamp := default EmptyString (d_timestamp r) in
  if String.eqb timestamp EmptyString then false
  else
    match fromisoformat (replace_Z timestamp) with
    | Some result_time => default false (ge_datetime result_time cutoff)
    | None => false
    end.

Definition _filter_by_time_period (test_results : list TestDict) (now : datetime)
    (time_period : string) : list TestDict :=
  match test_results with
  | [] => []
  | _ =>
      if String.eqb time_period "1d" then
        List.filter (in_period (minus_days now 1)) test_results
      else if String.eqb time_period "7d" then
        List.filter (in_period (minus_days now 7)) test_results
      else if String.eqb time_period "30d" then
        List.filter (in_period (minus_days now 30)) test_results
      else test_results
  end.

Definition analyze_trends (test_results : list TestDict) (now : datetime)
    (time_period : string) : result pyval :=
  match test_results with
  | [] => Ok (PDict [("error", PStr "No test results available for trend analysis")])
  | _ =>
      match _filter_by_time_period test_results now time_period with
      | [] => Ok (PDict [("message", PStr "No results in specified time period")])
      | filtered_results => trend_analysis time_period filtered_results
      end
  end.

(** *** [generate_insights] and its helpers *)

Definition _generate_key_findings (test_results : list TestDict) : result pyval :=
  match test_results with
  | [] => Ok (PList [PStr "No test results available for analysis"])
  | _ => main_path "_generate_key_findings" test_results
  end.

Definition _identify_critical_issues (test_results : list TestDict) : result pyval :=
  let total := len test_results in
  let failed := len (List.filter status_failed_or_error test_results) in
  let issues :=
    if (0 <? total)%Z && Qltb (3 # 10)%Q (truediv failed total) then
      [PStr (String.append "High failure rate: "
              (String.append (str_of_Z failed)
                (String.append "/"
                  (String.append (str_of_Z total) " tests failed"))))]
    else [] in
  let slow_tests := List.filter (fun r => Qltb 60 (duration_of r)) test_results in
  let issues :=
    match slow_tests with
    | [] => issues
    | _ =>
        issues ++
        [PStr (String.append "Found "
                (String.append (str_of_Z (len slow_tests))
                   " tests taking longer than 60 seconds"))]
    end in
  let test_names := map (fun r => default EmptyString (d_name r)) test_results in
  let name_counts := Counter test_names in
  let flaky_tests :=
    List.filter (fun kv : string * Z => (1 <? snd kv)%Z) (map_to_list name_counts) in
  let issues :=
    match flaky_tests with
    | [] => issues
    | _ =>
        issues ++
        [PStr (String.append "Detected "
                (String.append (str_of_Z (len flaky_tests))
                   " potentially flaky tests"))]
    end in
  Ok (PList issues).

(** The mean of the durations is taken before anything else; there is no
    guard for an empty list of results. *)
Definition _identify_optimization_opportunities (test_results : list TestDict)
  : result pyval :=
  bind (mean (map duration_of test_results)) (fun avg_duration =>
    let opportunities :=
      if Qltb 10 avg_duration then
        [PStr (String.append "Average test duration is "
                (String.append (format_1f avg_duration)
                   "s - consider optimization"))]
      else [] in
    let categories : gset string :=
      list_to_set (map (fun r => default "Unknown" (d_category r)) test_results) in
    let opportunities :=
      if (10 <? Z.of_nat (size categories))%Z then
        opportunities ++
        [PStr "Large number of test categories - consider reorganization"]
      else opportunities in
    let opportunities :=
      if (50 <? len test_results)%Z then
        opportunities ++ [PStr "Large test suite - consider parallel execution"]
      else opportunities in
    Ok (PList opportunities)).

Definition _assess_risks (test_results : list TestDict) : result pyval :=
  match test_results with
  | [] =>
      Ok (PDict [("overall", PStr "unknown"); ("performance", PStr "low");
                 ("quality", PStr "low"); ("stability", PStr "low")])
  | _ => main_path "_assess_risks" test_results
  end.

Definition _generate_action_items (test_results : list TestDict) : result pyval :=
  match test_results with
  | [] =>
      Ok (PList [PDict [("priority", PStr "high");
                        ("action", PStr "Run tests to get baseline metrics");
                        ("category", PStr "setup")]])
  | _ => main_path "_generate_action_items" test_results
  end.

Definition _generate_executive_summary (test_results : list TestDict) : result pyval :=
  match test_results with
  | [] => Ok (PStr "No test results available for analysis.")
  | _ => main_path "_generate_executive_summary" test_results
  end.

Definition generate_insights (test_results : list TestDict) : result pyval :=
  bind (_generate_key_findings test_results) (fun key_findings =>
  bind (_identify_critical_issues test_results) (fun critical_issues =>
  bind (_identify_optimization_opportunities test_results) (fun opportunities =>
  bind (_assess_risks test_results) (fun risk_assessment =>
  bind (_generate_action_items test_results) (fun action_items =>
  bind (_generate_executive_summary test_results) (fun executive_summary =>
  Ok (PDict [("key_findings", key_findings);
             ("critical_issues", critical_issues);
             ("optimization_opportunities", opportunities);
             ("risk_assessment", risk_assessment);
             ("action_items", action_items);
             ("executive_summary", executive_summary)]))))))).

End AnalyticsEngine.

(** *** Helpers of the quality and performance analysis *)

(** [_analyze_duration_distribution]: [None] is the empty dictionary, and
    otherwise the values of ['distribution'] and ['total_tests']. *)
Definition _analyze_duration_distribution (test_results : list TestDict)
  : option (gmap string Z * Z) :=
  let durations := map duration_of test_results in
  match durations with
  | [] => None
  | _ => Some (duration_buckets durations, len durations)
  end.

Definition _calculate_consistency_bonus : Q := 5%Q.

(** [_calculate_quality_score] *)
Definition _calculate_quality_score (test_results : list TestDict) : Q :=
  match test_results with
  | [] => 0%Q
  | _ =>
      let total := len test_results in
      let passed := len (List.filter (status_is "PASSED") test_results) in
      let base_score := (truediv passed total * 100)%Q in
      let consistency_bonus := _calculate_consistency_bonus in
      min2 100 (base_score + consistency_bonus)
  end.

(** [_calculate_reliability_score] *)
Definition _calculate_reliability_score (test_results : list TestDict) : Q :=
  match test_results with
  | [] => 0%Q
  | _ =>
      let passed := len (List.filter (status_is "PASSED") test_results) in
      let total := len test_results in
      if (0 <? total)%Z then (truediv passed total * 100)%Q else 0%Q
  end.

(** [_calculate_test_effectiveness]; 0.05 and 0.15 are the rationals 1/20
    and 3/20. *)
Definition _calculate_test_effectiveness (test_results : list TestDict) : Q :=
  match test_results with
  | [] => 0%Q
  | _ =>
      let failed_tests := len (List.filter (status_is "FAILED") test_results) in
      let total_tests := len test_results in
      if (total_tests =? 0)%Z then 0%Q
      else
        let failure_rate := truediv failed_tests total_tests in
        let effectiveness :=
          if Qle_bool (5 # 100) failure_rate && Qle_bool failure_rate (15 # 100)
          then 100%Q
          else if Qltb failure_rate (5 # 100)
          then (70 + (failure_rate / (5 # 100)) * 30)%Q
          else max2 0 (100 - (failure_rate - (15 # 100)) * 200)%Q in
        min2 100 effectiveness
  end.

Definition quality_good : string :=
  "Test quality is good. Continue monitoring and maintaining test suite.".

(** [_generate_quality_recommendations] *)
Definition _generate_quality_recommendations (test_results : list TestDict)
  : list string :=
  let recommendations : list string := [] in
  match test_results with
  | [] => ["No test results available for analysis"]
  | _ =>
      let total := len test_results in
      let passed := len (List.filter (status_is "PASSED") test_results) in
      let pass_rate :=
        if (0 <? total)%Z then (truediv passed total * 100)%Q else 0%Q in
      let recommendations :=
        if Qltb pass_rate 80 then
          recommendations ++
          ["Test quality is below acceptable threshold. Review failed tests and fix underlying issues."]
        else recommendations in
      let recommendations :=
        if Qltb 95 pass_rate then
          recommendations ++
          ["Test quality is excellent. Consider increasing test coverage or complexity."]
        else recommendations in
      let slow_tests := List.filter (fun r => Qltb 30 (duration_of r)) test_results in
      let recommendations :=
        match slow_tests with
        | [] => recommendations
        | _ =>
            recommendations ++
            [String.append "Found "
               (String.append (str_of_Z (len slow_tests))
                  " slow tests (>30s). Consider optimization.")]
        end in
      let failed_tests := List.filter (status_is "FAILED") test_results in
      let recommendations :=
        if Qltb (inject_Z total * (2 # 10)) (inject_Z (len failed_tests)) then
          recommendations ++
          ["High failure rate detected. Review test environment and stability."]
        else recommendations in
      match recommendations with
      | [] => [quality_good]
      | _ => recommendations
      end
  end.

End Analytics.

(** ** A reference implementation of the datetime operations

    Timestamps as [datetime.isoformat] prints them and as
    [datetime.fromisoformat] of Python 3.7 to 3.10 reads them:
    [YYYY-MM-DD], optionally followed by one separator character, a time
    [HH[:MM[:SS[.fff[fff]]]]] and an offset [+HH:MM[:SS]] or [-HH:MM[:SS]].
    It is the instance on which the model is run on examples. *)
Module Iso8601.
Import Py.
Local Open Scope Z_scope.

(** Microseconds of local time since 0001-01-01T00:00:00, and the offset
    from UTC in seconds of an aware value. *)
Record t := mk {
  local_us : Z;
  utcoffset : option Z
}.

Definition us_per_second : Z := 1000000.
Definition us_per_day : Z := 86400 * us_per_second.

(** Days from 0001-01-01 (day 0) to the given date of the proleptic
    Gregorian calendar, with the year counted from March. *)
Definition days_from_civil (y m d : Z) : Z :=
  let y' := if m <=? 2 then y - 1 else y in
  let era := y' / 400 in
  let yoe := y' - era * 400 in
  let mp := if 2 <? m then m - 3 else m + 9 in
  let doy := (153 * mp + 2) / 5 + d - 1 in
  let doe := yoe * 365 + yoe / 4 - yoe / 100 + doy in
  era * 146097 + doe - 306.

Definition civil_from_days (days : Z) : Z * Z * Z :=
  let z := days + 306 in
  let era := z / 146097 in
  let doe := z - era * 146097 in
  let yoe := (doe - doe / 1460 + doe / 36524 - doe / 146096) / 365 in
  let doy := doe - (365 * yoe + yoe / 4 - yoe / 100) in
  let mp := (5 * doy + 2) / 153 in
  let d := doy - (153 * mp + 2) / 5 + 1 in
  let m := if mp <? 10 then mp + 3 else mp - 9 in
  let y := yoe + era * 400 in
  (if m <=? 2 then y + 1 else y, m, d).

Definition is_leap (y : Z) : bool :=
  ((y mod 4 =? 0) && negb (y mod 100 =? 0)) || (y mod 400 =? 0).

Definition days_in_month (y m : Z) : Z :=
  if m =? 2 then (if is_leap y then 29 else 28)
  else if (m =? 4) || (m =? 6) || (m =? 9) || (m =? 11) then 30
  else 31.

Definition digit_val (c : ascii) : option Z :=
  let n := Z.of_nat (nat_of_ascii c) in
  if (48 <=? n) && (n <=? 57) then Some (n - 48) else None.

Fixpoint digits_from (acc : Z) (s : string) : option Z :=
  match s with
  | EmptyString => Some acc
  | String c r =>
      match digit_val c with
      | Some d => digits_from (acc * 10 + d) r
      | None => None
      end
  end.

(** The characters [s[i:i+n]], which must be [n] digits. *)
Definition number_at (s : string) (i n : nat) : option Z :=
  let part := substring i n s in
  if (String.length part =? n)%nat then digits_from 0 part else None.

Definition char_at (s : string) (i : nat) : option ascii := String.get i s.

Definition is_char (s : string) (i : nat) (c : ascii) : bool :=
  match char_at s i with
  | Some c' => Ascii.eqb c c'
  | None => false
  end.

Definition in_range (lo hi x : Z) : bool := (lo <=? x) && (x <=? hi).

(** [HH[:MM[:SS[.fff[fff]]]]] as seconds and microseconds. *)
Definition parse_clock (s : string) (check_ranges : bool) : option (Z * Z) :=
  let n := String.length s in
  let hh := number_at s 0 2 in
  let mm := if (5 <=? n)%nat then number_at s 3 2 else Some 0 in
  let ss := if (8 <=? n)%nat then number_at s 6 2 else Some 0 in
  let ff :=
    if (n =? 12)%nat then option_map (Z.mul 1000) (number_at s 9 3)
    else if (n =? 15)%nat then number_at s 9 6
    else Some 0 in
  let shape :=
    ((n =? 2) || (n =? 5) || (n =? 8) || (n =? 12) || (n =? 15))%nat
    && ((n <? 5)%nat || is_char s 2 ":")
    && ((n <? 8)%nat || is_char s 5 ":")
    && ((n <? 12)%nat || is_char s 8 ".") in
  match hh, mm, ss, ff with
  | Some h, Some m, Some sec, Some f =>
      if shape
         && (negb check_ranges
             || (in_range 0 23 h && in_range 0 59 m && in_range 0 59 sec))
      then Some (h * 3600 + m * 60 + sec, f)
      else None
  | _, _, _, _ => None
  end.

(** The position of the offset: the first [-], else the first [+]. *)
Definition offset_position (s : string) : option nat :=
  match index 0 "-" s with
  | Some i => Some i
  | None => index 0 "+" s
  end.

Definition parse_time (s : string) : option (Z * Z * option Z) :=
  match offset_position s with
  | None =>
      match parse_clock s true with
      | Some (sec, f) => Some (sec, f, None)
      | None => None
      end
  | Some i =>
      let tz := substring (S i) (String.length s - S i) s in
      let sign := if is_char s i "-" then -1 else 1 in
      match parse_clock (substring 0 i s) true, parse_clock tz false with
      | Some (sec, f), Some (off, _) =>
          if ((String.length tz =? 5) || (String.length tz =? 8))%nat
             && (off <? 86400)
          then Some (sec, f, Some (sign * off))
          else None
      | _, _ => None
      end
  end.

Definition parse (s : string) : option t :=
  match number_at s 0 4, number_at s 5 2, number_at s 8 2 with
  | Some y, Some m, Some d =>
      if is_char s 4 "-" && is_char s 7 "-"
         && in_range 1 9999 y && in_range 1 12 m
         && in_range 1 (days_in_month y m) d
      then
        let day_us := days_from_civil y m d * us_per_day in
        if (String.length s =? 10)%nat then
          Some {| local_us := day_us; utcoffset := None |}
        else
          match parse_time (substring 11 (String.length s - 11) s) with
          | Some (sec, f, tz) =>
              Some {| local_us := day_us + sec * us_per_second + f;
                      utcoffset := tz |}
          | None => None
          end
      else None
  | _, _, _ => None
  end.

(** [n] printed with [width] digits. *)
Fixpoint zero_padded (width : nat) (n : Z) (acc : string) : string :=
  match width with
  | O => acc
  | S w =>
      zero_padded w (n / 10)
        (String (ascii_of_nat (48 + Z.to_nat (n mod 10))) acc)
  end.

Definition pad (width : nat) (n : Z) : string := zero_padded width n EmptyString.

Definition date_of (d : t) : Z * Z * Z := civil_from_days (local_us d / us_per_day).
Definition second_of_day (d : t) : Z := (local_us d mod us_per_day) / us_per_second.
Definition microsecond (d : t) : Z := local_us d mod us_per_second.

(** One directive of [strftime]. *)
Definition directive (d : t) (c : ascii) : string :=
  let '(y, m, dd) := date_of d in
  let sec := second_of_day d in
  if Ascii.eqb c "Y" then pad 4 y
  else if Ascii.eqb c "m" then pad 2 m
  else if Ascii.eqb c "d" then pad 2 dd
  else if Ascii.eqb c "H" then pad 2 (sec / 3600)
  else if Ascii.eqb c "M" then pad 2 (sec / 60 mod 60)
  else if Ascii.eqb c "S" then pad 2 (sec mod 60)
  else String "%" (String c EmptyString).

Fixpoint format (d : t) (fmt : string) : string :=
  match fmt with
  | EmptyString => EmptyString
  | String c r =>
      if Ascii.eqb c "%" then
        match r with
        | String x r' => String.append (directive d x) (format d r')
        | EmptyString => String c EmptyString
        end
      else String c (format d r)
  end.

Definition print_offset (off : Z) : string :=
  let a := Z.abs off in
  String.append (if off <? 0 then "-" else "+")
    (String.append (pad 2 (a / 3600))
       (String.append ":"
          (String.append (pad 2 (a / 60 mod 60))
             (if a mod 60 =? 0 then EmptyString
              else String.append ":" (pad 2 (a mod 60)))))).

Definition print (d : t) : string :=
  String.append (format d "%Y-%m-%dT%H:%M:%S")
    (String.append
       (if microsecond d =? 0 then EmptyString
        else String.append "." (pad 6 (microsecond d)))
       (match utcoffset d with
        | Some off => print_offset off
        | None => EmptyString
        end)).

Definition shift (d : t) (us : Z) : t :=
  {| local_us := local_us d + us; utcoffset := utcoffset d |}.

(** The difference of two values in microseconds; a naive value and an
    aware one do not combine. *)
Definition diff (a b : t) : option Z :=
  match utcoffset a, utcoffset b with
  | None, None => Some (local_us a - local_us b)
  | Some oa, Some ob =>
      Some ((local_us a - oa * us_per_second) - (local_us b - ob * us_per_second))
  | _, _ => None
  end.

#[export] Instance datetime_lib : Datetime := {|
  datetime := t;
  fromisoformat := parse;
  isoformat := print;
  minus_hours := fun d h => shift d (- (h * 3600 * us_per_second));
  minus_days := fun d n => shift d (- (n * us_per_day));
  ge_datetime := fun a b => option_map (fun x => 0 <=? x) (diff a b);
  sub_datetime := diff;
  strftime := format;
  weekday := fun d => (local_us d / us_per_day) mod 7
|}.

End Iso8601.

(** ** Reference implementations of the case mappings and of the float
    arithmetic

    [str.upper()] and [str.lower()] on UTF-8 text made of ASCII characters
    and of the letters U+00C0 to U+00FF (two bytes, the first 0xC3); every
    other character is left as it is.  The float arithmetic without
    rounding, which is that of binary64 on data whose sums and quotients
    are binary fractions.  These are the instances on which the model is
    run on examples. *)
Module Reference.
Import Py.

Definition lead_c3 : ascii := "195"%char.

Fixpoint upper_utf8 (s : string) : string :=
  match s with
  | EmptyString => EmptyString
  | String c r =>
      if Ascii.eqb c lead_c3 then
        match r with
        | String d r' =>
            let n := nat_of_ascii d in
            if (n =? 159)%nat then
              (* U+00DF, the sharp s: two capital letters S *)
              String "S"%char (String "S"%char (upper_utf8 r'))
            else if (n =? 191)%nat then
              (* U+00FF: its capital is U+0178, bytes 0xC5 0xB8 *)
              String "197"%char (String "184"%char (upper_utf8 r'))
            else if (160 <=? n)%nat && (n <=? 190)%nat && negb (n =? 183)%nat then
              String c (String (ascii_of_nat (n - 32)) (upper_utf8 r'))
            else String c (String d (upper_utf8 r'))
        | EmptyString => String c EmptyString
        end
      else String (upper_ascii c) (upper_utf8 r)
  end.

Fixpoint lower_utf8 (s : string) : string :=
  match s with
  | EmptyString => EmptyString
  | String c r =>
      if Ascii.eqb c lead_c3 then
        match r with
        | String d r' =>
            let n := nat_of_ascii d in
            if (128 <=? n)%nat && (n <=? 158)%nat && negb (n =? 151)%nat then
              String c (String (ascii_of_nat (n + 32)) (lower_utf8 r'))
            else String c (String d (lower_utf8 r'))
        | EmptyString => String c EmptyString
        end
      else String (lower_ascii c) (lower_utf8 r)
  end.

#[export] Instance case_lib : Unicode :=
  {| str_upper := upper_utf8; str_lower := lower_utf8 |}.

#[export] Instance exact_arith : FloatArith :=
  {| float_sum := sum; float_div := Qdiv |}.

End Reference.

(** * Verification *)

(** ** Facts about the builtins *)
Module PyFacts.
Import Py.

Lemma dict_get_insert_eq {V} (m : gmap string V) k v d :
  dict_get (<[k := v]> m) k d = v.
Proof. unfold dict_get. by rewrite lookup_insert_eq. Qed.

Lemma dict_get_insert_ne {V} (m : gmap string V) k k' v d :
  k ≠ k' -> dict_get (<[k := v]> m) k' d = dict_get m k' d.
Proof. intros Hne. unfold dict_get. by rewrite lookup_insert_ne. Qed.

(** How many elements of [keys] are [k]. *)
Definition occurrences (k : string) (keys : list string) : Z :=
  len (List.filter (String.eqb k) keys).

Lemma occurrences_nonneg k keys : (0 <= occurrences k keys)%Z.
Proof. unfold occurrences, len. lia. Qed.

Lemma occurrences_cons k x keys :
  occurrences k (x :: keys) =
  ((if String.eqb k x then 1 else 0) + occurrences k keys)%Z.
Proof.
  unfold occurrences, len. simpl.
  destruct (String.eqb k x); simpl length; lia.
Qed.

Lemma Counter_fold_get (keys : list string) :
  forall (m : gmap string Z) (k : string),
    dict_get (foldl Counter_step m keys) k 0%Z
    = (dict_get m k 0 + occurrences k keys)%Z.
Proof.
  induction keys as [|x keys IH]; intros m k.
  - unfold occurrences, len. simpl. lia.
  - simpl foldl. rewrite IH, occurrences_cons. unfold Counter_step.
    destruct (String.eqb k x) eqn:E.
    + apply String.eqb_eq in E. subst x. rewrite dict_get_insert_eq. lia.
    + apply String.eqb_neq in E.
      rewrite dict_get_insert_ne by congruence. lia.
Qed.

(** A [Counter] answers [get] with the number of occurrences of the key. *)
Lemma Counter_get (keys : list string) (k : string) :
  dict_get (Counter keys) k 0%Z = occurrences k keys.
Proof.
  unfold Counter. rewrite Counter_fold_get.
  unfold dict_get. rewrite lookup_empty. simpl. lia.
Qed.

(** *** [sorted] *)
Section SortedFacts.
Context {A K : Type}.
Variable key : A -> K.
Variable ltb : K -> K -> bool.
Variable reverse : bool.

Local Abbreviation first := (goes_first key ltb reverse).
Local Abbreviation ins := (insert_sorted key ltb reverse).
Local Abbreviation srt := (sorted key ltb reverse).

(** [may_precede a b]: nothing forces [b] before [a]. *)
Definition may_precede (a b : A) : Prop := first b a = false.

Hypothesis ltb_asym : forall x y, ltb x y = true -> ltb y x = false.
Hypothesis ltb_negtrans :
  forall x y z, ltb y x = false -> ltb z y = false -> ltb z x = false.

Lemma first_asym y x : first y x = true -> first x y = false.
Proof. unfold goes_first. destruct reverse; apply ltb_asym. Qed.

Lemma may_precede_trans a b c :
  may_precede a b -> may_precede b c -> may_precede a c.
Proof.
  unfold may_precede, goes_first. destruct reverse; intros H1 H2.
  - eapply ltb_negtrans; eassumption.
  - eapply ltb_negtrans; eassumption.
Qed.

Lemma insert_sorted_perm x l : Permutation (ins x l) (x :: l).
Proof.
  induction l as [|y r IH]; simpl.
  - reflexivity.
  - destruct (first y x).
    + rewrite IH. apply perm_swap.
    + reflexivity.
Qed.

Lemma sorted_perm l : Permutation (srt l) l.
Proof.
  induction l as [|x r IH]; simpl.
  - reflexivity.
  - rewrite insert_sorted_perm. by constructor.
Qed.

Lemma sorted_length l : length (srt l) = length l.
Proof. apply Permutation_length, sorted_perm. Qed.

Lemma insert_sorted_ordered x l :
  StronglySorted may_precede l -> StronglySorted may_precede (ins x l).
Proof.
  induction 1 as [|y r Hr IH Hy]; simpl.
  - repeat constructor.
  - destruct (first y x) eqn:E.
    + constructor; [exact IH|].
      eapply Permutation_Forall; [symmetry; apply insert_sorted_perm|].
      constructor; [|exact Hy]. by apply first_asym.
    + constructor; [by constructor|].
      constructor; [exact E|].
      eapply List.Forall_impl; [|exact Hy].
      intros z Hz. eapply may_precede_trans; eassumption.
Qed.

Lemma sorted_ordered l : StronglySorted may_precede (srt l).
Proof.
  induction l as [|x r IH]; simpl.
  - constructor.
  - by apply insert_sorted_ordered.
Qed.

(** Stability: a class of elements that are never forced apart (no two of
    them are ordered by [first]) leaves the sort in its input order. *)
Lemma insert_sorted_filter (p : A -> bool) x l :
  (forall a b, p a = true -> p b = true -> first a b = false) ->
  List.filter p (ins x l) = List.filter p (x :: l).
Proof.
  intros Hp. induction l as [|y r IH]; [reflexivity|].
  simpl ins. destruct (first y x) eqn:E; [|reflexivity].
  simpl List.filter in *. rewrite IH.
  destruct (p y) eqn:Ey, (p x) eqn:Ex; try reflexivity.
  rewrite (Hp y x Ey Ex) in E. discriminate.
Qed.

Lemma sorted_filter (p : A -> bool) l :
  (forall a b, p a = true -> p b = true -> first a b = false) ->
  List.filter p (srt l) = List.filter p l.
Proof.
  intros Hp. induction l as [|x r IH]; [reflexivity|].
  simpl srt. rewrite insert_sorted_filter by exact Hp.
  simpl. by rewrite IH.
Qed.

End SortedFacts.

Lemma StronglySorted_app_Forall {A} (R : A -> A -> Prop) (l1 l2 : list A) :
  StronglySorted R (l1 ++ l2) -> Forall (fun x => Forall (R x) l2) l1.
Proof.
  induction l1 as [|x l1 IH]; simpl; intros H.
  - constructor.
  - inversion H as [|? ? Hs Hf]; subst. constructor.
    + rewrite Forall_app in Hf. tauto.
    + by apply IH.
Qed.

Lemma StronglySorted_firstn {A} (R : A -> A -> Prop) (n : nat) (l : list A) :
  StronglySorted R l -> StronglySorted R (firstn n l).
Proof.
  intros H. revert n. induction H as [|x l Hs IH Hf]; intros [|n]; simpl;
    try constructor.
  - apply IH.
  - rewrite List.Forall_forall in *. intros y Hy. apply Hf.
    rewrite <- (firstn_skipn n l). apply in_or_app. by left.
Qed.

Lemma slice_to_firstn {A} (l : list A) (limit : Z) :
  (0 <= limit)%Z -> slice_to l limit = firstn (Z.to_nat limit) l.
Proof.
  intros H. unfold slice_to.
  destruct (0 <=? limit)%Z eqn:E; [reflexivity|]. apply Z.leb_gt in E. lia.
Qed.

End PyFacts.

(** ** The summary of the aggregator *)
Module AggregatorFacts.
Import Py PyFacts Aggregator.

(** The four statuses that [get_summary] reads off the counter. *)
Definition bucketed (st : string) : bool :=
  String.eqb "PASSED" st || String.eqb "FAILED" st
  || String.eqb "SKIPPED" st || String.eqb "ERROR" st.

Definition four_buckets : list string := ["PASSED"; "FAILED"; "SKIPPED"; "ERROR"].

(** Records whose status is none of the four. *)
Definition other_statuses (rs : list TestResult) : list TestResult :=
  List.filter (fun r => negb (bucketed (status r))) rs.

Lemma bucketed_In st : bucketed st = true <-> In st four_buckets.
Proof.
  unfold bucketed, four_buckets. cbn [In].
  rewrite !orb_true_iff, !String.eqb_eq. tauto.
Qed.

(** The status of the head is the literal of [E]: the other three tests
    compute to [false] and the head is counted once. *)
Ltac in_bucket E :=
  apply String.eqb_eq in E; rewrite <- E; simpl;
  unfold len in *; simpl length; lia.

Lemma buckets_partition (rs : list TestResult) :
  (occurrences "PASSED" (map status rs) + occurrences "FAILED" (map status rs)
   + occurrences "SKIPPED" (map status rs) + occurrences "ERROR" (map status rs)
   + len (other_statuses rs) = len rs)%Z.
Proof.
  induction rs as [|r rs IH].
  - reflexivity.
  - simpl map. rewrite !occurrences_cons.
    unfold other_statuses in *. simpl List.filter. unfold bucketed at 1.
    destruct (String.eqb "PASSED" (status r)) eqn:E1; [in_bucket E1|].
    destruct (String.eqb "FAILED" (status r)) eqn:E2; [in_bucket E2|].
    destruct (String.eqb "SKIPPED" (status r)) eqn:E3; [in_bucket E3|].
    destruct (String.eqb "ERROR" (status r)) eqn:E4;
      simpl; unfold len in *; simpl length; lia.
Qed.

Lemma other_statuses_none (rs : list TestResult) :
  len (other_statuses rs) = 0%Z
  <-> Forall (fun r => In (status r) four_buckets) rs.
Proof.
  unfold other_statuses, len. induction rs as [|r rs IH]; simpl.
  - split; [constructor | reflexivity].
  - destruct (bucketed (status r)) eqn:E; simpl.
    + rewrite IH. apply bucketed_In in E. split.
      * intros H. by constructor.
      * intros H. by inversion H.
    + split; [simpl length; lia |].
      intros H. inversion H as [|? ? Hin _]; subst.
      apply bucketed_In in Hin. congruence.
Qed.

Section WithDatetime.
Context `{DT : Datetime}.

(** The counts of the summary in terms of the list of results; the empty
    aggregator takes the early return and gets the same values. *)
Lemma get_summary_counts (self : TestAggregator) (t1 t2 : datetime) :
  let s := get_summary self t1 t2 in
  let sts := map status (results self) in
  total s = len (results self)
  /\ passed s = occurrences "PASSED" sts
  /\ failed s = occurrences "FAILED" sts
  /\ skipped s = occurrences "SKIPPED" sts
  /\ errors s = occurrences "ERROR" sts.
Proof.
  unfold get_summary. destruct (results self) as [|r rs] eqn:E.
  - simpl. repeat split; reflexivity.
  - cbv zeta. cbn [total passed failed skipped errors].
    rewrite !Counter_get. repeat split; reflexivity.
Qed.

(** C3: the four counts never exceed [total]; the difference is the number
    of records whose status is none of PASSED, FAILED, SKIPPED, ERROR (such a
    record is in [total] and in no bucket), so the counts add up to [total]
    exactly when every status is one of the four. *)
Theorem summary_counts_partition (self : TestAggregator) (t1 t2 : datetime) :
  let s := get_summary self t1 t2 in
  (passed s + failed s + skipped s + errors s
   + len (other_statuses (results self)) = total s)%Z
  /\ (passed s + failed s + skipped s + errors s <= total s)%Z
  /\ ((passed s + failed s + skipped s + errors s = total s)%Z
      <-> Forall (fun r => In (status r) four_buckets) (results self)).
Proof.
  intros s.
  destruct (get_summary_counts self t1 t2) as (Ht & Hp & Hf & Hs & He).
  fold s in Ht, Hp, Hf, Hs, He.
  pose proof (buckets_partition (results self)) as Hpart.
  rewrite Ht, Hp, Hf, Hs, He.
  split; [exact Hpart|]. split.
  - assert (0 <= len (other_statuses (results self)))%Z by (unfold len; lia). lia.
  - rewrite <- other_statuses_none. lia.
Qed.

(** [passed] counts a part of the results. *)
Lemma summary_counts_bounds (self : TestAggregator) (t1 t2 : datetime) :
  let s := get_summary self t1 t2 in
  (0 <= passed s)%Z /\ (passed s <= total s)%Z.
Proof.
  intros s.
  destruct (get_summary_counts self t1 t2) as (Ht & Hp & Hf & Hs & He).
  fold s in Ht, Hp, Hf, Hs, He.
  pose proof (buckets_partition (results self)) as Hpart.
  pose proof (occurrences_nonneg "PASSED" (map status (results self))).
  pose proof (occurrences_nonneg "FAILED" (map status (results self))).
  pose proof (occurrences_nonneg "SKIPPED" (map status (results self))).
  pose proof (occurrences_nonneg "ERROR" (map status (results self))).
  assert (0 <= len (other_statuses (results self)))%Z by (unfold len; lia).
  lia.
Qed.

(** The rate [p / t * 100] of a part [p] of a positive whole [t]. *)
Lemma rate_in_range (p t : Z) :
  (0 <= p <= t)%Z -> (0 < t)%Z ->
  (0 <= truediv p t * 100)%Q /\ (truediv p t * 100 <= 100)%Q.
Proof.
  intros Hp Ht. unfold truediv.
  assert (Hpos : (0 < inject_Z t)%Q) by (unfold Qlt; simpl; lia).
  assert (H0 : (0 <= inject_Z p / inject_Z t)%Q).
  { apply Qle_shift_div_l; [exact Hpos|].
    rewrite Qmult_0_l. unfold Qle; simpl; lia. }
  assert (H1 : (inject_Z p / inject_Z t <= 1)%Q).
  { apply Qle_shift_div_r; [exact Hpos|].
    rewrite Qmult_1_l. unfold Qle; simpl; lia. }
  split.
  - apply Qmult_le_0_compat; [exact H0 | discriminate].
  - apply Qle_trans with (1 * 100)%Q; [| discriminate].
    apply Qmult_le_compat_r; [exact H1 | discriminate].
Qed.

Lemma get_summary_pass_rate (self : TestAggregator) (t1 t2 : datetime) :
  let s := get_summary self t1 t2 in
  pass_rate s =
  if (0 <? total s)%Z then (truediv (passed s) (total s) * 100)%Q else 0%Q.
Proof.
  unfold get_summary. destruct (results self) as [|r rs]; reflexivity.
Qed.

(** C4: [pass_rate] lies between 0 and 100; it is [passed / total * 100]
    when [total > 0] and 0 when [total = 0]. *)
Theorem pass_rate_range (self : TestAggregator) (t1 t2 : datetime) :
  let s := get_summary self t1 t2 in
  (0 <= pass_rate s)%Q /\ (pass_rate s <= 100)%Q
  /\ ((0 < total s)%Z ->
      pass_rate s = (inject_Z (passed s) / inject_Z (total s) * 100)%Q)
  /\ (total s = 0%Z -> pass_rate s = 0%Q).
Proof.
  intros s.
  pose proof (get_summary_pass_rate self t1 t2) as Hpr. fold s in Hpr.
  destruct (summary_counts_bounds self t1 t2) as (Hp0 & Hpt). fold s in Hp0, Hpt.
  rewrite Hpr. clear Hpr.
  destruct (0 <? total s)%Z eqn:Epos.
  - apply Z.ltb_lt in Epos.
    destruct (rate_in_range (passed s) (total s)) as [Hlo Hhi]; [lia | lia |].
    split; [exact Hlo|]. split; [exact Hhi|]. split.
    + intros _. reflexivity.
    + intros H0. lia.
  - apply Z.ltb_ge in Epos.
    split; [discriminate|]. split; [discriminate|]. split.
    + intros Hlt. lia.
    + intros _. reflexivity.
Qed.

End WithDatetime.

(** *** [get_slowest_tests] *)

Lemma Qltb_asym (x y : Q) : Qltb x y = true -> Qltb y x = false.
Proof.
  unfold Qltb. rewrite negb_true_iff, negb_false_iff. intros H.
  apply Qle_bool_iff. apply Qlt_le_weak. apply Qnot_le_lt.
  intros Hle. apply Qle_bool_iff in Hle. congruence.
Qed.

Lemma Qltb_negtrans (x y z : Q) :
  Qltb y x = false -> Qltb z y = false -> Qltb z x = false.
Proof.
  unfold Qltb. rewrite !negb_false_iff, !Qle_bool_iff.
  intros H1 H2. eapply Qle_trans; eassumption.
Qed.

Lemma StronglySorted_impl {A} (R S : A -> A -> Prop) (l : list A) :
  (forall a b, R a b -> S a b) -> StronglySorted R l -> StronglySorted S l.
Proof.
  intros HRS. induction 1 as [|x l Hs IH Hf]; constructor; [exact IH|].
  eapply List.Forall_impl; [|exact Hf]. intros b. apply HRS.
Qed.

(** Durations do not increase from left to right. *)
Definition non_increasing (l : list TestResult) : Prop :=
  StronglySorted (fun a b => (duration b <= duration a)%Q) l.

(** The records whose duration is [d]. *)
Definition with_duration (d : Q) (l : list TestResult) : list TestResult :=
  List.filter (fun r => Qeq_bool (duration r) d) l.

Lemma by_duration_descending (rs : list TestResult) :
  non_increasing (sorted duration Qltb true rs).
Proof.
  unfold non_increasing.
  eapply StronglySorted_impl;
    [| apply sorted_ordered; [apply Qltb_asym | apply Qltb_negtrans]].
  intros a b. unfold may_precede, goes_first, Qltb.
  rewrite negb_false_iff. apply Qle_bool_iff.
Qed.

Lemma by_duration_stable (d : Q) (rs : list TestResult) :
  with_duration d (sorted duration Qltb true rs) = with_duration d rs.
Proof.
  unfold with_duration. apply sorted_filter.
  intros a b Ha Hb. unfold goes_first, Qltb.
  apply Qeq_bool_iff in Ha, Hb. apply negb_false_iff, Qle_bool_iff.
  rewrite Ha, Hb. apply Qle_refl.
Qed.

Lemma with_duration_compat (d d' : Q) (l : list TestResult) :
  (d == d')%Q -> with_duration d l = with_duration d' l.
Proof.
  intros Hd. unfold with_duration. apply List.filter_ext.
  intros r. apply eq_true_iff_eq. rewrite !Qeq_bool_iff. by rewrite Hd.
Qed.

Lemma non_increasing_head (x : TestResult) (l : list TestResult) (z : TestResult) :
  non_increasing (x :: l) -> In z (x :: l) -> (duration z <= duration x)%Q.
Proof.
  intros Hs [<- | Hz]; [apply Qle_refl|].
  inversion Hs as [|? ? _ Hf]; subst.
  rewrite List.Forall_forall in Hf. by apply Hf.
Qed.

Lemma with_duration_In (d : Q) (l : list TestResult) (z : TestResult) :
  In z (with_duration d l) -> In z l /\ (duration z == d)%Q.
Proof.
  unfold with_duration. rewrite List.filter_In, Qeq_bool_iff. tauto.
Qed.

(** Two lists in non-increasing order of duration that hold the same
    records of every duration, in the same order, are equal: the result of
    a stable sort by decreasing duration does not depend on the algorithm. *)
Lemma stable_descending_unique (l1 : list TestResult) :
  forall l2 : list TestResult,
    non_increasing l1 -> non_increasing l2 ->
    (forall d, with_duration d l1 = with_duration d l2) ->
    l1 = l2.
Proof.
  assert (Hself : forall x l, with_duration (duration x) (x :: l)
                              = x :: with_duration (duration x) l).
  { intros x l. unfold with_duration. simpl.
    by rewrite (proj2 (Qeq_bool_iff _ _) (Qeq_refl (duration x))). }
  induction l1 as [|x l1 IH]; intros [|y l2] H1 H2 Hd.
  - reflexivity.
  - specialize (Hd (duration y)). rewrite Hself in Hd. discriminate Hd.
  - specialize (Hd (duration x)). rewrite Hself in Hd. discriminate Hd.
  - assert (Hxy : (duration x <= duration y)%Q).
    { apply (non_increasing_head y l2 x H2).
      apply (with_duration_In (duration x)).
      rewrite <- Hd, Hself. by left. }
    assert (Hyx : (duration y <= duration x)%Q).
    { apply (non_increasing_head x l1 y H1).
      apply (with_duration_In (duration y)).
      rewrite Hd, Hself. by left. }
    assert (Heq : (duration y == duration x)%Q) by (by apply Qle_antisym).
    pose proof (Hd (duration x)) as Hhead.
    rewrite Hself, (with_duration_compat _ _ (y :: l2) (Qeq_sym _ _ Heq)), Hself in Hhead.
    injection Hhead as -> Htail.
    f_equal. apply IH.
    + by inversion H1.
    + by inversion H2.
    + intros d. specialize (Hd d). unfold with_duration in *. simpl in Hd.
      destruct (Qeq_bool (duration y) d); [by injection Hd | exact Hd].
Qed.

(** In particular the list computed by [sorted] is the only one that is in
    non-increasing order and stable with respect to the input. *)
Lemma by_duration_unique (rs out : list TestResult) :
  non_increasing out ->
  (forall d, with_duration d out = with_duration d rs) ->
  out = sorted duration Qltb true rs.
Proof.
  intros Hs Hd. apply stable_descending_unique.
  - exact Hs.
  - apply by_duration_descending.
  - intros d. by rewrite by_duration_stable.
Qed.

Lemma prefix_filter {A} (p : A -> bool) (l1 l2 : list A) :
  l1 `prefix_of` l2 -> List.filter p l1 `prefix_of` List.filter p l2.
Proof.
  intros [k ->]. exists (List.filter p k). apply List.filter_app.
Qed.

(** C8: for [n >= 0], [get_slowest_tests n] has [min n total] records, in
    non-increasing order of duration; records of equal duration stand in
    their input order; and the records left out are no slower than any
    record returned. *)
Theorem get_slowest_tests_spec (self : TestAggregator) (n : Z) :
  (0 <= n)%Z ->
  let out := get_slowest_tests self n in
  len out = Z.min n (len (results self))
  /\ non_increasing out
  /\ (forall d, with_duration d out `prefix_of` with_duration d (results self))
  /\ exists rest,
      Permutation (out ++ rest) (results self)
      /\ Forall (fun x => Forall (fun y => (duration y <= duration x)%Q) rest) out.
Proof.
  intros Hn out. unfold out, get_slowest_tests.
  rewrite slice_to_firstn by exact Hn.
  set (srt := sorted duration Qltb true (results self)).
  pose proof (by_duration_descending (results self)) as Hdesc. fold srt in Hdesc.
  split; [|split; [|split]].
  - unfold len. rewrite length_firstn. unfold srt. rewrite sorted_length. lia.
  - by apply StronglySorted_firstn.
  - intros d. rewrite <- (by_duration_stable d (results self)). fold srt.
    apply prefix_filter, prefix_take.
  - exists (skipn (Z.to_nat n) srt). split.
    + rewrite firstn_skipn. apply sorted_perm.
    + apply (StronglySorted_app_Forall (fun a b => (duration b <= duration a)%Q)).
      rewrite firstn_skipn. exact Hdesc.
Qed.

(** *** [get_tests_by_status] *)

(** Equality of two strings up to the case of ASCII letters, letter by
    letter: two characters agree when they are the same character or one is
    a lower-case letter and the other its capital. *)
Definition is_lower (c : ascii) : bool :=
  (97 <=? nat_of_ascii c)%nat && (nat_of_ascii c <=? 122)%nat.

Definition capital_of (u l : ascii) : bool :=
  is_lower l && (nat_of_ascii u =? nat_of_ascii l - 32)%nat.

Definition same_letter (a b : ascii) : bool :=
  Ascii.eqb a b || capital_of a b || capital_of b a.

Fixpoint eq_ignoring_case (s t : string) : bool :=
  match s, t with
  | EmptyString, EmptyString => true
  | String a s', String b t' => same_letter a b && eq_ignoring_case s' t'
  | _, _ => false
  end.

Lemma upper_ascii_nat (c : ascii) :
  nat_of_ascii (upper_ascii c)
  = if is_lower c then nat_of_ascii c - 32 else nat_of_ascii c.
Proof.
  unfold upper_ascii, is_lower. cbv zeta.
  destruct ((97 <=? nat_of_ascii c)%nat && (nat_of_ascii c <=? 122)%nat);
    [|reflexivity].
  apply nat_ascii_embedding. pose proof (nat_ascii_bounded c). lia.
Qed.

Lemma nat_of_ascii_inj (a b : ascii) : nat_of_ascii a = nat_of_ascii b -> a = b.
Proof.
  intros H. rewrite <- (ascii_nat_embedding a), <- (ascii_nat_embedding b).
  by rewrite H.
Qed.

Lemma upper_ascii_eqb (a b : ascii) :
  Ascii.eqb (upper_ascii a) (upper_ascii b) = same_letter a b.
Proof.
  apply eq_true_iff_eq. rewrite Ascii.eqb_eq. unfold same_letter, capital_of.
  rewrite !orb_true_iff, !andb_true_iff, Ascii.eqb_eq, !Nat.eqb_eq.
  split.
  - intros H. apply (f_equal nat_of_ascii) in H. rewrite !upper_ascii_nat in H.
    unfold is_lower in *.
    destruct ((97 <=? nat_of_ascii a)%nat && (nat_of_ascii a <=? 122)%nat) eqn:Ea;
    destruct ((97 <=? nat_of_ascii b)%nat && (nat_of_ascii b <=? 122)%nat) eqn:Eb.
    + left; left. apply nat_of_ascii_inj.
      apply andb_true_iff in Ea as [Ea1 Ea2], Eb as [Eb1 Eb2].
      apply Nat.leb_le in Ea1, Ea2, Eb1, Eb2. lia.
    + right. split; [reflexivity|]. lia.
    + left; right. split; [reflexivity|]. lia.
    + left; left. by apply nat_of_ascii_inj.
  - intros H. apply nat_of_ascii_inj. rewrite !upper_ascii_nat.
    destruct H as [[H | [Hl Hn]] | [Hl Hn]].
    + by subst b.
    + rewrite Hl. unfold is_lower in *.
      apply andb_true_iff in Hl as [H1 H2]. apply Nat.leb_le in H1, H2.
      destruct ((97 <=? nat_of_ascii a)%nat && (nat_of_ascii a <=? 122)%nat) eqn:Ea.
      * apply andb_true_iff in Ea as [Ea1 Ea2]. apply Nat.leb_le in Ea1, Ea2. lia.
      * lia.
    + rewrite Hl. unfold is_lower in *.
      apply andb_true_iff in Hl as [H1 H2]. apply Nat.leb_le in H1, H2.
      destruct ((97 <=? nat_of_ascii b)%nat && (nat_of_ascii b <=? 122)%nat) eqn:Eb.
      * apply andb_true_iff in Eb as [Eb1 Eb2]. apply Nat.leb_le in Eb1, Eb2. lia.
      * lia.
Qed.

Lemma upper_eqb (s t : string) :
  String.eqb (upper s) (upper t) = eq_ignoring_case s t.
Proof.
  revert t. induction s as [|a s IH]; intros [|b t]; simpl; try reflexivity.
  by rewrite upper_ascii_eqb, IH.
Qed.

Lemma filter_ext_bool {A} (p q : A -> bool) (l : list A) :
  (forall x, p x = q x) -> List.filter p l = List.filter q l.
Proof.
  intros H. induction l as [|x l IH]; simpl; [reflexivity|].
  by rewrite H, IH.
Qed.

Lemma ascii_text_upper_eqb `{U : Unicode} (law : ascii_case_law) (a b : string) :
  ascii_text a = true -> ascii_text b = true ->
  String.eqb (str_upper a) (str_upper b) = eq_ignoring_case a b.
Proof.
  intros Ha Hb. destruct (law a Ha) as [-> _]. destruct (law b Hb) as [-> _].
  apply upper_eqb.
Qed.

Section StatusQueries.
Context `{DT : Datetime} `{U : Unicode}.

(** C9, as the code has it: [get_tests_by_status s] is the list of the
    records, in input order, whose status has the same [str.upper()] form
    as [s]; when [s] and the statuses of the records are ASCII text, these
    are the records whose status equals [s] up to the case of ASCII
    letters.  The summary counts a status only when it is spelled exactly:
    a record with status [passed] answers the query [PASSED] and is not
    counted as passed. *)
Theorem get_tests_by_status_ignores_case
    (self : TestAggregator) (s : string) (t1 t2 : datetime) :
  ascii_case_law ->
  get_tests_by_status self s
  = List.filter (fun r => String.eqb (str_upper (status r)) (str_upper s))
                (results self)
  /\ (ascii_text s = true ->
      Forall (fun r => ascii_text (status r) = true) (results self) ->
      get_tests_by_status self s
      = List.filter (fun r => eq_ignoring_case (status r) s) (results self))
  /\ passed (get_summary self t1 t2)
     = occurrences "PASSED" (map status (results self))
  /\ (forall r : TestResult,
        status r = "passed" ->
        let one := add_results init [r] in
        get_tests_by_status one "PASSED" = [r]
        /\ passed (get_summary one t1 t2) = 0%Z).
Proof.
  intros law. split; [reflexivity|]. split; [|split].
  - intros Hs Hall. unfold get_tests_by_status. apply List.filter_ext_in.
    intros r Hr. rewrite List.Forall_forall in Hall.
    apply (ascii_text_upper_eqb law); [by apply Hall | exact Hs].
  - by destruct (get_summary_counts self t1 t2) as (_ & Hp & _).
  - intros r Hr one. split.
    + unfold one, get_tests_by_status. cbn [add_results init results app List.filter].
      rewrite Hr.
      rewrite (ascii_text_upper_eqb law "passed" "PASSED") by reflexivity.
      reflexivity.
    + destruct (get_summary_counts one t1 t2) as (_ & Hp & _).
      rewrite Hp. unfold one. simpl. by rewrite Hr.
Qed.

End StatusQueries.

(** *** [_load_from_xml] *)

(** The test case has a direct child with tag [t]. *)
Definition has_child (testcase : Element) (t : string) : bool :=
  existsb (fun c => String.eqb (tag_of c) t) (children_of testcase).

(** The status by the order of the checks: [skipped] is checked last and
    overwrites, [error] is looked at only without a [failure]. *)
Definition junit_status (testcase : Element) : string :=
  if has_child testcase "skipped" then "SKIPPED"
  else if has_child testcase "failure" then "FAILED"
  else if has_child testcase "error" then "ERROR"
  else "PASSED".

Lemma find_has_child (testcase : Element) (t : string) :
  has_child testcase t = match find testcase t with Some _ => true | None => false end.
Proof.
  unfold has_child, find. induction (children_of testcase) as [|c cs IH]; simpl.
  - reflexivity.
  - destruct (String.eqb (tag_of c) t); [reflexivity | exact IH].
Qed.

(** The text kept under ['error_details']: that of the [failure] child, and
    that of the [error] child only when there is no [failure]. *)
Definition junit_error_details (testcase : Element) : option (option string) :=
  match find testcase "failure" with
  | Some failure => Some (text_of failure)
  | None =>
      match find testcase "error" with
      | Some error => Some (text_of error)
      | None => None
      end
  end.

(** C2: when the conversion of a test case succeeds, the status of the
    record is FAILED with a [failure] child, else ERROR with an [error]
    child (looked at only without a [failure]), else PASSED, and in every
    case SKIPPED when a [skipped] child is present, which is checked last
    and overwrites the status but not the error details; so a test case
    with an [error] and a [skipped] child is SKIPPED.  The conversion
    succeeds whenever the [time] attribute is absent or is read by
    [float]. *)
Theorem xml_status_precedence
    (float_of_str : string -> option Q) (testcase : Element) :
  (forall rd now_iso,
      xml_result_data float_of_str testcase = Ok rd ->
      status (from_result_data now_iso rd) = junit_status testcase
      /\ rd_error_details rd = junit_error_details testcase)
  /\ (has_child testcase "error" = true ->
      has_child testcase "skipped" = true ->
      forall rd now_iso,
        xml_result_data float_of_str testcase = Ok rd ->
        status (from_result_data now_iso rd) = "SKIPPED")
  /\ (match get_attr testcase "time" with
      | Some s => float_of_str s <> None
      | None => True
      end ->
      exists rd, xml_result_data float_of_str testcase = Ok rd).
Proof.
  assert (Hst : forall rd, xml_result_data float_of_str testcase = Ok rd ->
                           rd_status rd = junit_status testcase
                           /\ rd_error_details rd = junit_error_details testcase).
  { intros rd. unfold xml_result_data, junit_status, junit_error_details.
    rewrite !find_has_child.
    destruct (match get_attr testcase "time" with
              | Some s => float_of_str s | None => Some 0%Q end) as [d|];
      [|discriminate].
    intros [= <-].
    destruct (find testcase "skipped"), (find testcase "failure"),
             (find testcase "error"); split; reflexivity. }
  split; [|split].
  - intros rd now_iso Hrd. exact (Hst rd Hrd).
  - intros _ Hs rd now_iso Hrd. destruct (Hst rd Hrd) as [Hrd_st _].
    cbn [from_result_data status]. rewrite Hrd_st.
    unfold junit_status. by rewrite Hs.
  - intros Ht. unfold xml_result_data.
    destruct (get_attr testcase "time") as [s|].
    + destruct (float_of_str s) as [d|]; [|congruence]. eauto.
    + eauto.
Qed.

(** *** Time-based views *)
Section TimeViews.
Context `{DT : Datetime}.

(** The timestamp of the record is read by [fromisoformat]. *)
Definition parses (r : TestResult) : bool :=
  match fromisoformat (replace_Z (timestamp r)) with
  | Some _ => true
  | None => false
  end.

Lemma tally_unparsable (period : string) (m : gmap string PeriodCounts)
    (r : TestResult) :
  parses r = false -> tally period m r = m.
Proof.
  unfold parses, tally.
  by destruct (fromisoformat (replace_Z (timestamp r))).
Qed.

Lemma period_data_fold_filter (period : string) (rs : list TestResult) :
  forall m, foldl (tally period) m rs
            = foldl (tally period) m (List.filter parses rs).
Proof.
  induction rs as [|r rs IH]; intros m; simpl; [reflexivity|].
  destruct (parses r) eqn:E; simpl.
  - apply IH.
  - rewrite tally_unparsable by exact E. apply IH.
Qed.

(** The buckets are those of the records whose timestamp parses. *)
Lemma period_data_of_parsable (period : string) (rs : list TestResult) :
  period_data_of period rs = period_data_of period (List.filter parses rs).
Proof. apply period_data_fold_filter. Qed.

Lemma keep_recent_unparsable (cutoff : datetime) (r : TestResult) :
  parses r = false -> keep_recent cutoff r = true.
Proof.
  unfold parses, keep_recent.
  by destruct (fromisoformat (replace_Z (timestamp r))).
Qed.

(** The list ['trends'] of the result ([[]] for the empty dictionary). *)
Definition trends_of (t : Trends) : list TrendRow :=
  match t with
  | EmptyTrends => []
  | TrendsOf _ rows _ => rows
  end.

Definition with_results (self : TestAggregator) (rs : list TestResult)
  : TestAggregator :=
  {| results := rs; source_files := source_files self;
     aggregation_metadata := aggregation_metadata self |}.

Lemma trends_of_get_trends (self : TestAggregator) (period : string) :
  trends_of (get_trends_over_time self period)
  = trend_rows (period_data_of period (results self)).
Proof.
  unfold get_trends_over_time. destruct (results self); reflexivity.
Qed.

(** C7: a record whose timestamp does not parse is returned by
    [_get_recent_results] (whatever the clock and the window), whose
    result over 24 hours is what the summary reports under
    ['recent_trends']; and it is in no bucket of [get_trends_over_time],
    whatever the period: with or without that record the buckets and the
    rows of the trends are the same. *)
Theorem unparsable_timestamp_views
    (self : TestAggregator) (before after : list TestResult) (r : TestResult)
    (now stamp : datetime) (hours : Z) :
  fromisoformat (replace_Z (timestamp r)) = None ->
  results self = before ++ r :: after ->
  In r (_get_recent_results self now hours)
  /\ option_map recent_trends (detail (get_summary self now stamp))
     = Some (_calculate_trends (_get_recent_results self now 24))
  /\ forall period : string,
      period_data_of period (results self)
      = period_data_of period (before ++ after)
      /\ trends_of (get_trends_over_time self period)
         = trends_of (get_trends_over_time (with_results self (before ++ after)) period).
Proof.
  intros Hparse Hres.
  assert (Hr : parses r = false) by (unfold parses; by rewrite Hparse).
  split; [|split].
  - unfold _get_recent_results. apply List.filter_In. split.
    + rewrite Hres. apply in_or_app. right. by left.
    + by apply keep_recent_unparsable.
  - unfold get_summary. destruct (results self) eqn:E; [|reflexivity].
    by destruct before.
  - intros period.
    assert (Hpd : period_data_of period (results self)
                  = period_data_of period (before ++ after)).
    { rewrite Hres, period_data_of_parsable.
      rewrite (period_data_of_parsable period (before ++ after)).
      rewrite !List.filter_app. simpl. by rewrite Hr. }
    split; [exact Hpd|].
    rewrite !trends_of_get_trends. simpl. by rewrite Hpd.
Qed.

(** *** Two calls of [get_summary] *)

(** The summary without the two fields computed from the clock. *)
Definition clock_free (s : Summary) : Summary :=
  {| total := total s; passed := passed s; failed := failed s;
     skipped := skipped s; errors := errors s; pass_rate := pass_rate s;
     total_duration := total_duration s; avg_duration := avg_duration s;
     detail :=
       match detail s with
       | Some d =>
           Some {| suite_breakdown := suite_breakdown d;
                   category_breakdown := category_breakdown d;
                   status_breakdown := status_breakdown d;
                   recent_trends := NoData;
                   summary_source_files := summary_source_files d;
                   last_updated := EmptyString |}
       | None => None
       end |}.

(** C5 as the code has it: two calls on the same aggregator agree on every
    field other than ['recent_trends'] and ['last_updated']; they agree on
    these two as well when the second call selects the same recent records
    and prints the same time, and the summary of an empty aggregator does
    not depend on the clock at all. *)
Theorem get_summary_twice
    (self : TestAggregator) (now1 stamp1 now2 stamp2 : datetime) :
  let s1 := get_summary self now1 stamp1 in
  let s2 := get_summary self now2 stamp2 in
  clock_free s1 = clock_free s2
  /\ (_get_recent_results self now1 24 = _get_recent_results self now2 24 ->
      isoformat stamp1 = isoformat stamp2 -> s1 = s2)
  /\ (results self = [] -> s1 = s2).
Proof.
  intros s1 s2. unfold s1, s2, get_summary.
  destruct (results self) as [|r rs] eqn:E.
  - repeat split; reflexivity.
  - split; [reflexivity|]. split.
    + intros Hrec Hiso. by rewrite Hrec, Hiso.
    + discriminate.
Qed.

End TimeViews.

End AggregatorFacts.

(** ** The notification rules *)
Module NotificationFacts.
Import Py PyFacts Dicts Notification.

(** The keys of the dictionary built by [_calculate_summary]. *)
Definition summary_keys : list string :=
  ["total"; "passed"; "failed"; "skipped"; "pass_rate"; "total_duration";
   "failure_rate"; "failed_tests"; "slow_tests"; "timestamp"].

Lemma summary_lookup_key (now_iso : string) (test_results : list TestDict)
    (k : string) (v : value) :
  _calculate_summary now_iso test_results !! k = Some v -> In k summary_keys.
Proof.
  unfold _calculate_summary, summary_keys. cbv zeta. cbn [list_to_map foldr fst snd].
  repeat (rewrite lookup_insert;
          case_decide; [subst k; cbn [In]; tauto |]).
  rewrite lookup_empty. discriminate.
Qed.

(** No key of the summary is spelled like a threshold, a minimum or a
    maximum. *)
Lemma summary_key_plain (k : string) :
  In k summary_keys ->
  endswith k "_threshold" = false
  /\ startswith k "min_" = false /\ startswith k "max_" = false.
Proof.
  unfold summary_keys. cbn [In].
  intros H. repeat (destruct H as [<- | H]; [by vm_compute|]). destruct H.
Qed.

Lemma check_trigger_conditions_summary (now_iso : string)
    (test_results : list TestDict) (conditions : list (string * Q)) :
  _check_trigger_conditions (_calculate_summary now_iso test_results) conditions
  = Ok true.
Proof.
  induction conditions as [|[condition threshold] rest IH]; [reflexivity|].
  cbn [_check_trigger_conditions].
  destruct (_calculate_summary now_iso test_results !! condition) as [v|] eqn:E;
    [|exact IH].
  apply summary_lookup_key, summary_key_plain in E as (-> & -> & ->).
  exact IH.
Qed.

(** Reads a literal key off the dictionary display of [_calculate_summary]:
    what is left is the equation for the value stored under that key. *)
Ltac read_summary :=
  unfold _calculate_summary; cbv zeta; cbn [list_to_map foldr fst snd];
  repeat (rewrite lookup_insert;
          let Hk := fresh "Hk" in
          case_decide as Hk;
          [ try discriminate Hk
          | try (exfalso; apply Hk; reflexivity); clear Hk ]).

Lemma summary_failed (now_iso : string) (test_results : list TestDict) :
  _calculate_summary now_iso test_results !! "failed"
  = Some (VNum (inject_Z (count_status "FAILED" test_results))).
Proof. read_summary. reflexivity. Qed.

Lemma summary_rates (now_iso : string) (test_results : list TestDict) :
  exists failure_rate pass_rate : Q,
    _calculate_summary now_iso test_results !! "failure_rate" = Some (VNum failure_rate)
    /\ _calculate_summary now_iso test_results !! "pass_rate" = Some (VNum pass_rate).
Proof.
  eexists _, _. split.
  - read_summary. reflexivity.
  - read_summary. reflexivity.
Qed.

(** On a summary of [_calculate_summary] the priority check does not raise. *)
Lemma priority_check_total (now_iso : string) (test_results : list TestDict)
    (threshold : NotificationPriority) :
  exists b : bool,
    _priority_exceeds_threshold (_calculate_summary now_iso test_results) threshold
    = Ok b.
Proof.
  destruct (summary_rates now_iso test_results) as (fr & pr & Hfr & Hpr).
  unfold _priority_exceeds_threshold, dict_get. rewrite Hfr, Hpr.
  destruct threshold; simpl;
    match goal with |- context [if ?c then _ else _] => destruct c end; eauto.
Qed.


Section Sending.
Context `{DT : Datetime}.
Variable clock : nat -> datetime.
Variable render :
  string -> gmap string value -> list TestDict -> datetime -> string + string.
Variable deliver :
  Config -> NotificationChannel -> string -> string -> (nat -> datetime) ->
  bool * option string * nat.

(** The answer of the priority check on a summary of [_calculate_summary]. *)
Definition priority_met (now_iso : string) (test_results : list TestDict)
    (rule : NotificationRule) : bool :=
  match _priority_exceeds_threshold (_calculate_summary now_iso test_results)
          (priority_threshold rule) with
  | Ok b => b
  | Raise _ => false
  end.

Definition evaluated (st : State) (rs : list NotificationRule) : State :=
  {| system := system st; ticks := ticks st;
     trace := trace st ++ map (fun r => Evaluated (rule_name r)) (List.filter enabled rs) |}.

(** On a summary of [_calculate_summary] the loop of [_evaluate_rules]
    looks at every enabled rule and keeps those whose priority threshold is
    met: the trigger conditions of a rule have no part in the outcome. *)
Lemma evaluate_loop_summary (now_iso : string) (test_results : list TestDict)
    (rs : list NotificationRule) :
  forall st : State,
    evaluate_loop (_calculate_summary now_iso test_results) rs st
    = (Ok (List.filter (fun r => enabled r && priority_met now_iso test_results r) rs),
       evaluated st rs).
Proof.
  unfold evaluated.
  induction rs as [|r rs IH]; intros st.
  - destruct st. simpl. by rewrite app_nil_r.
  - cbn [evaluate_loop List.filter]. destruct (enabled r) eqn:En; cbn [negb andb].
    + unfold priority_met at 1.
      destruct (priority_check_total now_iso test_results (priority_threshold r))
        as [b Hb].
      unfold bindM at 1. cbn [log]. unfold bindM at 1, lift at 1. rewrite Hb.
      destruct b.
      * unfold bindM at 1, lift at 1.
        rewrite check_trigger_conditions_summary.
        unfold bindM at 1. rewrite IH. unfold ret. cbn [trace system ticks map].
        by rewrite <- app_assoc.
      * rewrite IH. cbn [trace system ticks map]. by rewrite <- app_assoc.
    + by rewrite IH.
Qed.

Lemma two_failed_rates (now_iso : string) (a b : TestDict) :
  d_status a = Some "FAILED" -> d_status b = Some "FAILED" ->
  _calculate_summary now_iso [a; b] !! "failure_rate" = Some (VNum (truediv 2 2 * 100)%Q).
Proof.
  intros Ha Hb. read_summary.
  unfold count_status, status_is. simpl. by rewrite Ha, Hb.
Qed.

(** C1, on the code: the summary has no entry named [min_failures] (the
    count of failures is under [failed]), so a condition
    ['min_failures': threshold] is skipped and the check answers [True],
    whatever else the rule asks for.  With two failed tests and an enabled
    rule whose only condition is ['min_failures': 3], the summary holds
    [failed = 2] and [_evaluate_rules] returns the rule as applicable. *)
Theorem min_failures_not_enforced
    (now_iso : string) (test_results : list TestDict)
    (threshold : Q) (other : list (string * Q)) (st : State) :
  _calculate_summary now_iso test_results !! "min_failures" = None
  /\ _check_trigger_conditions (_calculate_summary now_iso test_results)
       (("min_failures", threshold) :: other) = Ok true
  /\ (forall (a b : TestDict) (rule : NotificationRule),
        d_status a = Some "FAILED" -> d_status b = Some "FAILED" ->
        enabled rule = true ->
        trigger_conditions rule = [("min_failures", 3%Q)] ->
        rules (system st) = [rule] ->
        _calculate_summary now_iso [a; b] !! "failed" = Some (VNum (inject_Z 2))
        /\ _evaluate_rules (_calculate_summary now_iso [a; b]) [a; b] st
           = (Ok [rule], evaluated st [rule])).
Proof.
  split; [|split].
  - destruct (_calculate_summary now_iso test_results !! "min_failures") eqn:E;
      [|reflexivity].
    apply summary_lookup_key in E. unfold summary_keys in E. cbn [In] in E.
    repeat (destruct E as [E|E]; [discriminate E|]). destruct E.
  - apply check_trigger_conditions_summary.
  - intros a b rule Ha Hb Hen _ Hrules. split.
    + rewrite summary_failed. unfold count_status, status_is. simpl.
      by rewrite Ha, Hb.
    + unfold _evaluate_rules, bindM, self. rewrite Hrules.
      rewrite evaluate_loop_summary. cbn [List.filter]. rewrite Hen.
      assert (Hmet : priority_met now_iso [a; b] rule = true).
      { unfold priority_met, _priority_exceeds_threshold, dict_get.
        rewrite (two_failed_rates now_iso a b Ha Hb).
        destruct (priority_threshold rule); reflexivity. }
      by rewrite Hmet.
Qed.

(** *** The trace only grows *)

(** A computation that keeps the events recorded so far. *)
Definition extends {A} (m : M A) : Prop :=
  forall st, trace st `prefix_of` trace (m st).2.

Lemma extends_ret {A} (a : A) : extends (ret a).
Proof. intros st. reflexivity. Qed.

Lemma extends_lift {A} (r : result A) : extends (lift r).
Proof. intros st. reflexivity. Qed.

Lemma extends_self : extends self.
Proof. intros st. reflexivity. Qed.

Lemma extends_now : extends (now clock).
Proof. intros st. reflexivity. Qed.

Lemma extends_transport (send : (nat -> datetime) -> bool * option string * nat) :
  extends (transport clock send).
Proof. intros st. unfold transport. by destruct (send _). Qed.

Lemma extends_log (e : event) : extends (log e).
Proof. intros st. simpl. by apply prefix_app_r. Qed.

Lemma extends_bind {A B} (m : M A) (k : A -> M B) :
  extends m -> (forall a, extends (k a)) -> extends (bindM m k).
Proof.
  intros Hm Hk st. unfold bindM. specialize (Hm st).
  destruct (m st) as [[a|e] st'] eqn:E; simpl in *.
  - etrans; [exact Hm | apply Hk].
  - exact Hm.
Qed.

Lemma extends_record (name : string) : extends (_record_notification clock name).
Proof.
  unfold _record_notification. apply extends_bind; [apply extends_now|].
  intros t st. reflexivity.
Qed.

Lemma extends_should_send (rule : NotificationRule) :
  extends (_should_send_notification clock rule).
Proof.
  unfold _should_send_notification.
  apply extends_bind; [apply extends_now|]. intros t.
  apply extends_bind; [apply extends_self|]. intros sys.
  destruct (last_notification_times sys !! rule_name rule) as [last|];
    [|apply extends_ret].
  destruct (sub_datetime t last); [apply extends_ret | apply extends_lift].
Qed.

Lemma extends_send (rule : NotificationRule) (summary : gmap string value)
    (test_results : list TestDict) :
  extends (_send_notification clock render deliver rule summary test_results).
Proof.
  unfold _send_notification.
  apply extends_bind; [apply extends_now|]. intros t.
  destruct (render (template rule) summary test_results t) as [message|e].
  - apply extends_bind; [apply extends_log|]. intros _.
    apply extends_bind; [apply extends_self|]. intros sys.
    apply extends_bind; [apply extends_transport|]. intros [ok error].
    apply extends_bind; [apply extends_now|]. intros stamp. apply extends_ret.
  - apply extends_bind; [apply extends_now|]. intros stamp. apply extends_ret.
Qed.

Lemma extends_send_loop (applicable : list NotificationRule)
    (summary : gmap string value) (test_results : list TestDict) :
  extends (send_loop clock render deliver applicable summary test_results).
Proof.
  induction applicable as [|rule rest IH]; cbn [send_loop].
  - apply extends_ret.
  - apply extends_bind; [apply extends_should_send|]. intros [|]; [|exact IH].
    apply extends_bind; [apply extends_send|]. intros r.
    apply extends_bind.
    + destruct (success r); [apply extends_record | apply extends_ret].
    + intros _. apply extends_bind; [exact IH|]. intros rs. apply extends_ret.
Qed.

(** With a list of results that is not empty, every enabled rule of the
    object is evaluated, in order, before anything is delivered. *)
Lemma nonempty_results_evaluate_rules
    (r : TestDict) (rest : list TestDict)
    (custom_rules : option (list NotificationRule)) (st : State) :
  let out :=
    send_test_results_notification clock render deliver (r :: rest) custom_rules st in
  (trace st ++ map (fun rule => Evaluated (rule_name rule))
                   (List.filter enabled (rules (system st))))
  `prefix_of` trace out.2.
Proof.
  cbn zeta. cbn [send_test_results_notification].
  unfold bindM at 1. cbn [now].
  unfold bindM at 1. cbn [self system].
  unfold bindM at 1, _evaluate_rules, bindM at 1. cbn [self system].
  rewrite evaluate_loop_summary.
  match goal with
  | |- _ `prefix_of` trace (send_loop _ _ _ ?a ?sm ?tr ?s).2 =>
      exact (extends_send_loop a sm tr s)
  end.
Qed.

(** C10: with an empty list of results the call returns the empty list
    and changes nothing: the rules, the rate-limit map and the history are
    those of before, no rule was evaluated and nothing was handed to a
    transport (the trace is unchanged), and the clock was not read. *)
Theorem empty_results_send_nothing
    (st : State) (custom_rules : option (list NotificationRule)) :
  let out := send_test_results_notification clock render deliver [] custom_rules st in
  out.1 = Ok []
  /\ rules (system out.2) = rules (system st)
  /\ last_notification_times (system out.2) = last_notification_times (system st)
  /\ notification_history (system out.2) = notification_history (system st)
  /\ trace out.2 = trace st
  /\ out.2 = st.
Proof. repeat split; reflexivity. Qed.

End Sending.

End NotificationFacts.

(** ** Metrics and analytics on an empty list of results *)
Module EmptyInputFacts.
Import Py Dicts Metrics Analytics.

Definition no_failed_tests : pyval :=
  PDict [("message", PStr "No failed tests to analyze")].

Definition no_results_for_trends : pyval :=
  PDict [("error", PStr "No test results available for trend analysis")].

(** C6 as the code has it: on the empty list each of the seven
    [calculate_*] methods, [analyze_performance] and [analyze_test_quality]
    return [{'error': 'No test results available'}], and
    [calculate_all_metrics] returns that value under each of its seven keys;
    [analyze_failure_patterns] returns
    [{'message': 'No failed tests to analyze'}] and [analyze_trends]
    [{'error': 'No test results available for trend analysis'}].  None of
    them raises. *)
Theorem empty_input_results `{DT : Datetime}
    (main_path : string -> list TestDict -> result pyval)
    (trend_analysis : string -> list TestDict -> result pyval)
    (failure_analysis : list TestDict -> list TestDict -> result pyval)
    (now : datetime) (time_period : string) :
  Forall (fun f => f [] = Ok Metrics.no_results) (metric_functions main_path)
  /\ calculate_all_metrics main_path []
     = Ok (PDict [("execution_metrics", Metrics.no_results);
                  ("quality_metrics", Metrics.no_results);
                  ("performance_metrics", Metrics.no_results);
                  ("coverage_metrics", Metrics.no_results);
                  ("trend_metrics", Metrics.no_results);
                  ("comparative_metrics", Metrics.no_results);
                  ("kpi_summary", Metrics.no_results)])
  /\ analyze_performance main_path [] = Ok Analytics.no_results
  /\ analyze_test_quality main_path [] = Ok Analytics.no_results
  /\ analyze_failure_patterns failure_analysis [] = Ok no_failed_tests
  /\ analyze_trends trend_analysis [] now time_period = Ok no_results_for_trends.
Proof.
  split.
  - unfold metric_functions. repeat constructor.
  - repeat split; reflexivity.
Qed.

(** [analyze_failure_patterns] answers the empty list with a message of its
    own, not with [{'error': 'No test results available'}]. *)
Lemma analyze_failure_patterns_empty_differs :
  analyze_failure_patterns (fun _ _ => Ok PNone) [] <> Ok Analytics.no_results.
Proof. discriminate. Qed.

(** [generate_insights] has no guard: on the empty list the mean of the
    durations in [_identify_optimization_opportunities] raises. *)
Lemma generate_insights_empty
    (main_path : string -> list TestDict -> result pyval)
    (format_1f : Q -> string) :
  generate_insights main_path format_1f [] = Raise StatisticsError.
Proof. reflexivity. Qed.

End EmptyInputFacts.

(** ** The reference case mappings on ASCII text *)
Module ReferenceFacts.
Import Py Reference.

Lemma not_lead_c3 (c : ascii) :
  (nat_of_ascii c <? 128)%nat = true -> Ascii.eqb c lead_c3 = false.
Proof.
  intros H. destruct (Ascii.eqb c lead_c3) eqn:E; [|reflexivity].
  apply Ascii.eqb_eq in E. subst c. discriminate H.
Qed.

(** On ASCII text the reference mappings replace the letters a-z,
    respectively A-Z, and nothing else. *)
Lemma case_lib_ascii : ascii_case_law.
Proof.
  intros s. induction s as [|c r IH]; [by split|].
  cbn [ascii_text]. intros H. apply andb_true_iff in H as [Hc Hr].
  destruct (IH Hr) as [IHu IHl]. cbn [str_upper str_lower case_lib] in *.
  cbn [upper_utf8 lower_utf8 upper lower].
  rewrite (not_lead_c3 c Hc), IHu, IHl. by split.
Qed.

End ReferenceFacts.

(** ** The model on concrete data *)
Module Examples.
Import Py PyFacts Dicts Aggregator AggregatorFacts Notification NotificationFacts.
Import Iso8601 Reference ReferenceFacts.

Definition test (nm st : string) (d : Q) (ts : string) : TestResult :=
  {| test_id := nm; name := nm; suite := "checkout"; category := "web";
     status := st; duration := d; timestamp := ts;
     message := EmptyString; error_details := Some EmptyString; tags := [];
     priority := "medium"; browser := EmptyString; os := EmptyString;
     test_type := "functional"; retry_count := 0; custom_fields := [] |}.

Definition login : TestResult := test "login" "PASSED" (3 # 2) "2024-01-15T10:30:00".
Definition pay : TestResult := test "pay" "FAILED" 3 "yesterday".
Definition search : TestResult := test "search" "PASSED" 3 "2024-01-16T09:00:00".
Definition export : TestResult := test "export" "SKIPPED" 2 "2024-01-16T09:30:00".

Definition demo : TestAggregator :=
  add_results init [login; pay; search; export].

(** The value read by [fromisoformat]; midnight of day 0 when it is not a
    timestamp. *)
Definition at_time (s : string) : @datetime datetime_lib :=
  default {| local_us := 0; utcoffset := None |} (parse s).

Definition ten_o_clock : @datetime datetime_lib := at_time "2024-01-16T10:00:00".
Definition a_second_later : @datetime datetime_lib := at_time "2024-01-16T10:00:01".

Example demo_summary_counts :
  let s := get_summary demo ten_o_clock ten_o_clock in
  (total s, passed s, failed s, skipped s, errors s) = (4, 2, 1, 1, 0)%Z
  /\ (pass_rate s == 50)%Q /\ (total_duration s == 19 # 2)%Q
  /\ option_map last_updated (detail s) = Some "2024-01-16T10:00:00".
Proof. vm_compute. repeat split; reflexivity. Qed.

Example demo_recent :
  map name (_get_recent_results demo ten_o_clock 24) = ["login"; "pay"; "search"; "export"]
  /\ map name (_get_recent_results demo ten_o_clock 12) = ["pay"; "search"; "export"].
Proof. vm_compute. split; reflexivity. Qed.

Example demo_daily_trends :
  map (fun r => (tr_period r, tr_total r, tr_passed r, tr_skipped r))
      (trends_of (get_trends_over_time demo "daily"))
  = [("2024-01-15", 1, 1, 0); ("2024-01-16", 2, 1, 1)]%Z
  /\ map tr_period (trends_of (get_trends_over_time demo "weekly")) = ["2024-01-15"]
  /\ map tr_period (trends_of (get_trends_over_time demo "hourly"))
     = ["2024-01-15 10:00"; "2024-01-16 09:00"].
Proof. vm_compute. repeat split; reflexivity. Qed.

Example demo_slowest :
  map name (get_slowest_tests demo 3) = ["pay"; "search"; "export"]
  /\ map name (get_slowest_tests demo 10) = ["pay"; "search"; "export"; "login"]
  /\ map name (get_slowest_tests demo (-1)) = ["pay"; "search"; "export"].
Proof. vm_compute. repeat split; reflexivity. Qed.

Example demo_by_status :
  map name (get_tests_by_status demo "passed") = ["login"; "search"].
Proof. reflexivity. Qed.

(** C9 on the four records and the query [passed]. *)
Lemma get_tests_by_status_ignores_case_witness :
  get_tests_by_status demo "passed"
  = List.filter (fun r => String.eqb (str_upper (status r)) (str_upper "passed"))
                (results demo)
  /\ (ascii_text "passed" = true ->
      Forall (fun r => ascii_text (status r) = true) (results demo) ->
      get_tests_by_status demo "passed"
      = List.filter (fun r => eq_ignoring_case (status r) "passed") (results demo))
  /\ passed (get_summary demo ten_o_clock ten_o_clock)
     = occurrences "PASSED" (map status (results demo))
  /\ (forall r : TestResult,
        status r = "passed" ->
        let one := add_results init [r] in
        get_tests_by_status one "PASSED" = [r]
        /\ passed (get_summary one ten_o_clock ten_o_clock) = 0%Z).
Proof.
  apply (get_tests_by_status_ignores_case demo "passed" ten_o_clock ten_o_clock).
  exact case_lib_ascii.
Defined.

(** The query 'paßed', in UTF-8: the sharp s is the bytes 0xC3 0x9F. *)
Definition sharp_s_query : string :=
  String "p" (String "a" (String "195" (String "159" "ed"))).

(** The claim C9 fails as stated for a query that is not ASCII text:
    'paßed'.upper() is 'PASSED', so the query returns the record with status
    'PASSED', which does not equal it up to the case of ASCII letters. *)
Lemma status_query_beyond_ascii :
  get_tests_by_status (add_results init [login]) sharp_s_query
  <> List.filter (fun r => eq_ignoring_case (status r) sharp_s_query)
                 (results (add_results init [login])).
Proof. vm_compute. discriminate. Qed.

(** C8 on the four records, with [limit = 3]. *)
Lemma get_slowest_tests_spec_witness :
  let out := get_slowest_tests demo 3 in
  len out = Z.min 3 (len (results demo))
  /\ non_increasing out
  /\ (forall d, with_duration d out `prefix_of` with_duration d (results demo))
  /\ exists rest,
      Permutation (out ++ rest) (results demo)
      /\ Forall (fun x => Forall (fun y => (duration y <= duration x)%Q) rest) out.
Proof. apply (get_slowest_tests_spec demo 3). lia. Defined.

(** C7 on the four records: [pay] has the timestamp [yesterday]. *)
Lemma unparsable_timestamp_views_witness :
  In pay (_get_recent_results demo ten_o_clock 24)
  /\ option_map recent_trends (detail (get_summary demo ten_o_clock a_second_later))
     = Some (_calculate_trends (_get_recent_results demo ten_o_clock 24))
  /\ forall period : string,
      period_data_of period (results demo)
      = period_data_of period ([login] ++ [search; export])
      /\ trends_of (get_trends_over_time demo period)
         = trends_of (get_trends_over_time
                        (with_results demo ([login] ++ [search; export])) period).
Proof.
  apply (unparsable_timestamp_views demo [login] [search; export] pay
           ten_o_clock a_second_later 24).
  - vm_compute. reflexivity.
  - reflexivity.
Defined.

(** The claim C5 fails as stated: a second call one second later returns
    another ['last_updated']. *)
Lemma get_summary_twice_differs :
  get_summary demo ten_o_clock ten_o_clock
  <> get_summary demo a_second_later a_second_later.
Proof.
  intros H.
  apply (f_equal (fun s => option_map last_updated (detail s))) in H.
  vm_compute in H. discriminate H.
Qed.

(** *** A JUnit test case *)

Definition float_of_digits (s : string) : option Q :=
  if String.eqb s EmptyString then None else option_map inject_Z (digits_from 0 s).

Definition errored_and_skipped : Element :=
  Elem "testcase" [("name", "pay"); ("classname", "checkout"); ("time", "3")] None
    [Elem "error" [] (Some "timeout") [];
     Elem "skipped" [("message", "flaky")] None []].

Example errored_and_skipped_is_skipped :
  option_map (fun rd => (rd_status rd, rd_error_details rd, rd_message rd))
    (match xml_result_data float_of_digits errored_and_skipped with
     | Ok rd => Some rd
     | Raise _ => None
     end)
  = Some ("SKIPPED", Some (Some "timeout"), Some "flaky").
Proof. reflexivity. Qed.

(** *** A rule with [min_failures] *)

Definition failed_test (nm : string) : TestDict :=
  {| d_name := Some nm; d_suite := Some "checkout"; d_category := None;
     d_status := Some "FAILED"; d_duration := Some 1%Q; d_timestamp := None |}.

Definition three_failures_rule : NotificationRule :=
  {| rule_name := "Failures"; channel := CONSOLE; priority_threshold := LOW;
     trigger_conditions := [("min_failures", 3%Q)]; template := "test_summary";
     enabled := true; rate_limit_minutes := 60 |}.

Definition start : State :=
  {| system := {| config := []; rules := [three_failures_rule];
                  notification_history := []; last_notification_times := ∅ |};
     ticks := 0; trace := [] |}.

(** A clock that advances one second per read, a template that prints its
    own name, and a transport that accepts every message. *)
Definition seconds (k : nat) : @datetime datetime_lib :=
  shift ten_o_clock (Z.of_nat k * us_per_second).

Definition template_name (tpl : string) (_ : gmap string value)
    (_ : list TestDict) (_ : @datetime datetime_lib) : string + string := inl tpl.

Definition accept (_ : Config) (ch : NotificationChannel) (_ _ : string)
    (_ : nat -> @datetime datetime_lib) : bool * option string * nat :=
  ((true, None),
   match ch with
   | FILE => 2
   | EMAIL | WEBHOOK => 1
   | SLACK | TEAMS | CONSOLE => 0
   end).

(** Two failed tests and a rule that asks for at least three failures: the
    rule is evaluated and its notification is delivered. *)
Example two_failures_fire_the_rule :
  let out :=
    send_test_results_notification seconds template_name accept
      [failed_test "pay"; failed_test "refund"] None start in
  match out.1 with
  | Ok rs => map success rs
  | Raise _ => []
  end = [true]
  /\ trace out.2 = [Evaluated "Failures"; Delivery "Failures" CONSOLE "test_summary"]
  /\ option_map print (last_notification_times (system out.2) !! "Failures")
     = Some "2024-01-16T10:00:04".
Proof. vm_compute. repeat split; reflexivity. Qed.

(** The default rules on the same two failed tests: every rule is
    applicable, the success notification included. *)
Example default_rules_on_two_failures :
  let out :=
    send_test_results_notification seconds template_name accept
      [failed_test "pay"; failed_test "refund"] None
      {| system := new_system []; ticks := 0; trace := [] |} in
  trace out.2
  = [Evaluated "Critical Failures"; Evaluated "Success Notification";
     Evaluated "Performance Issues";
     Delivery "Critical Failures" EMAIL "failure_alert";
     Delivery "Success Notification" CONSOLE "success_notification";
     Delivery "Performance Issues" CONSOLE "performance_alert"].
Proof. vm_compute. reflexivity. Qed.

Example nothing_to_report :
  send_test_results_notification seconds template_name accept [] None start
  = (Ok [], start).
Proof. reflexivity. Qed.

End Examples.

(** * Further properties of the code *)

(** ** Order and extrema of floats *)
Module NumFacts.
Import Py PyFacts Aggregator.

Lemma Qltb_lt (x y : Q) : Qltb x y = true <-> (x < y)%Q.
Proof.
  unfold Qltb. rewrite negb_true_iff. split.
  - intros H. apply Qnot_le_lt. intros Hle.
    apply Qle_bool_iff in Hle. congruence.
  - intros H. destruct (Qle_bool y x) eqn:E; [|reflexivity].
    apply Qle_bool_iff in E. exfalso. by apply (Qlt_not_le x y).
Qed.

Lemma Qltb_ge (x y : Q) : Qltb x y = false <-> (y <= x)%Q.
Proof. unfold Qltb. rewrite negb_false_iff. apply Qle_bool_iff. Qed.

(** [min]: an element of the list that no element is below. *)
Lemma py_min_spec (xs : list Q) :
  forall x : Q,
    In (py_min x xs) (x :: xs)
    /\ Forall (fun y => (py_min x xs <= y)%Q) (x :: xs).
Proof.
  unfold py_min. induction xs as [|y xs IH]; intros x.
  - simpl. split; [by left | repeat constructor; apply Qle_refl].
  - simpl foldl. destruct (Qltb y x) eqn:E.
    + destruct (IH y) as [Hin Hall]. split.
      * right. exact Hin.
      * inversion Hall as [|? ? Hy Hrest]; subst. constructor; [|by constructor].
        apply Qltb_lt in E. eapply Qle_trans; [exact Hy|]. by apply Qlt_le_weak.
    + destruct (IH x) as [Hin Hall]. split.
      * destruct Hin as [Hin|Hin]; [by left | right; by right].
      * inversion Hall as [|? ? Hx Hrest]; subst. constructor; [exact Hx|].
        constructor; [|exact Hrest].
        apply Qltb_ge in E. eapply Qle_trans; eassumption.
Qed.

(** [max]: an element of the list that no element is above. *)
Lemma py_max_spec (xs : list Q) :
  forall x : Q,
    In (py_max x xs) (x :: xs)
    /\ Forall (fun y => (y <= py_max x xs)%Q) (x :: xs).
Proof.
  unfold py_max. induction xs as [|y xs IH]; intros x.
  - simpl. split; [by left | repeat constructor; apply Qle_refl].
  - simpl foldl. destruct (Qltb x y) eqn:E.
    + destruct (IH y) as [Hin Hall]. split.
      * right. exact Hin.
      * inversion Hall as [|? ? Hy Hrest]; subst. constructor; [|by constructor].
        apply Qltb_lt in E. eapply Qle_trans; [|exact Hy]. by apply Qlt_le_weak.
    + destruct (IH x) as [Hin Hall]. split.
      * destruct Hin as [Hin|Hin]; [by left | right; by right].
      * inversion Hall as [|? ? Hx Hrest]; subst. constructor; [exact Hx|].
        constructor; [|exact Hrest].
        apply Qltb_ge in E. eapply Qle_trans; eassumption.
Qed.

End NumFacts.

(** ** Sums over dictionaries and counters *)
Module MapFacts.
Import Py PyFacts Aggregator.

(** [sum(w(v) for v in d.values())] *)
Definition map_sum {V} (w : V -> Z) (m : gmap string V) : Z :=
  map_fold (fun _ v acc => (w v + acc)%Z) 0%Z m.

Lemma map_sum_empty {V} (w : V -> Z) : map_sum w (∅ : gmap string V) = 0%Z.
Proof. unfold map_sum. apply map_fold_empty. Qed.

Lemma map_sum_insert_fresh {V} (w : V -> Z) (m : gmap string V) k v :
  m !! k = None -> map_sum w (<[k := v]> m) = (w v + map_sum w m)%Z.
Proof.
  intros Hk. unfold map_sum. apply (map_fold_insert_L (fun _ v acc => (w v + acc)%Z)).
  - intros. lia.
  - exact Hk.
Qed.

(** Storing [v] under [k] changes the sum by [w v] minus the weight of the
    value that was there. *)
Lemma map_sum_insert {V} (w : V -> Z) (m : gmap string V) k v :
  map_sum w (<[k := v]> m)
  = (w v + map_sum w m - match m !! k with Some u => w u | None => 0 end)%Z.
Proof.
  destruct (m !! k) as [u|] eqn:E.
  - rewrite <- (insert_delete_eq m k v).
    rewrite <- (insert_delete_id m k u E) at 2.
    rewrite !map_sum_insert_fresh by apply lookup_delete_eq. lia.
  - rewrite map_sum_insert_fresh by exact E. lia.
Qed.

Lemma sum_Z_acc (l : list Z) : forall a : Z, foldl Z.add a l = (a + sum_Z l)%Z.
Proof.
  unfold sum_Z. induction l as [|x l IH]; intros a; simpl; [lia|].
  rewrite (IH (a + x)%Z), (IH (0 + x)%Z). lia.
Qed.

Lemma sum_Z_cons (x : Z) (l : list Z) : sum_Z (x :: l) = (x + sum_Z l)%Z.
Proof. unfold sum_Z at 1. simpl. rewrite sum_Z_acc. lia. Qed.

Lemma sum_Z_perm (l1 l2 : list Z) : Permutation l1 l2 -> sum_Z l1 = sum_Z l2.
Proof.
  induction 1 as [|x l1 l2 _ IH|x y l|l1 l2 l3 _ IH1 _ IH2].
  - reflexivity.
  - rewrite !sum_Z_cons. lia.
  - rewrite !sum_Z_cons. lia.
  - lia.
Qed.

(** The sum over the dictionary is the sum over its items. *)
Lemma map_sum_items {V} (w : V -> Z) (m : gmap string V) :
  map_sum w m = sum_Z (map (fun kv => w (snd kv)) (map_to_list m)).
Proof.
  unfold map_sum. rewrite map_fold_foldr.
  induction (map_to_list m) as [|[k v] l IH]; simpl; [reflexivity|].
  rewrite sum_Z_cons, IH. reflexivity.
Qed.

(** *** [collections.Counter] *)

Lemma Counter_snoc (keys : list string) (k : string) :
  Counter (keys ++ [k]) = Counter_step (Counter keys) k.
Proof. unfold Counter. by rewrite foldl_app. Qed.

Lemma occurrences_snoc (k x : string) (keys : list string) :
  occurrences k (keys ++ [x])
  = (occurrences k keys + if String.eqb k x then 1 else 0)%Z.
Proof.
  unfold occurrences, len. rewrite List.filter_app, length_app. simpl.
  destruct (String.eqb k x); simpl; lia.
Qed.

Lemma occurrences_app (k : string) (l1 l2 : list string) :
  occurrences k (l1 ++ l2) = (occurrences k l1 + occurrences k l2)%Z.
Proof. unfold occurrences, len. rewrite List.filter_app, length_app. lia. Qed.

(** A counter has an entry exactly for the keys that occur, with the number
    of occurrences. *)
Lemma Counter_lookup (keys : list string) (k : string) :
  Counter keys !! k
  = if (occurrences k keys =? 0)%Z then None else Some (occurrences k keys).
Proof.
  induction keys as [|x keys IH] using rev_ind; [reflexivity|].
  rewrite Counter_snoc, occurrences_snoc. unfold Counter_step.
  pose proof (occurrences_nonneg k keys) as Hk.
  destruct (String.eqb k x) eqn:E.
  - apply String.eqb_eq in E. subst x.
    rewrite lookup_insert_eq, Counter_get.
    destruct (occurrences k keys + 1 =? 0)%Z eqn:E0; [lia | reflexivity].
  - apply String.eqb_neq in E. rewrite lookup_insert_ne by congruence.
    rewrite IH, Z.add_0_r. reflexivity.
Qed.

(** The counts of a counter add up to the number of elements counted. *)
Lemma Counter_total (keys : list string) :
  map_sum (fun v => v) (Counter keys) = len keys.
Proof.
  induction keys as [|x keys IH] using rev_ind.
  - unfold Counter. simpl. apply map_sum_empty.
  - rewrite Counter_snoc. unfold Counter_step. rewrite map_sum_insert, IH.
    unfold dict_get. unfold len. rewrite length_app. simpl.
    destruct (Counter keys !! x); simpl; lia.
Qed.

End MapFacts.

(** ** The order of strings *)
Module StringOrder.

Lemma compare_le_trans (x : string) :
  forall y z : string,
    String.compare x y <> Gt -> String.compare y z <> Gt -> String.compare x z <> Gt.
Proof.
  induction x as [|a x IH]; intros [|b y] [|c z]; simpl; try congruence.
  unfold Ascii.compare.
  destruct (N.compare_spec (N_of_ascii a) (N_of_ascii b)) as [Hab|Hab|Hab];
  destruct (N.compare_spec (N_of_ascii b) (N_of_ascii c)) as [Hbc|Hbc|Hbc];
  destruct (N.compare_spec (N_of_ascii a) (N_of_ascii c)) as [Hac|Hac|Hac];
    try congruence; try lia.
  apply IH.
Qed.

Lemma ltb_false_le (x y : string) :
  String.ltb y x = false <-> String.compare x y <> Gt.
Proof.
  unfold String.ltb. rewrite (String.compare_antisym x y).
  destruct (String.compare y x); simpl; split; congruence.
Qed.

Lemma ltb_asym (x y : string) : String.ltb x y = true -> String.ltb y x = false.
Proof.
  unfold String.ltb. rewrite (String.compare_antisym x y).
  destruct (String.compare y x); simpl; congruence.
Qed.

Lemma ltb_negtrans (x y z : string) :
  String.ltb y x = false -> String.ltb z y = false -> String.ltb z x = false.
Proof. rewrite !ltb_false_le. apply compare_le_trans. Qed.

(** Two different strings are ordered one way or the other. *)
Lemma ltb_total (x y : string) :
  x <> y -> String.ltb y x = false -> String.ltb x y = true.
Proof.
  intros Hne. unfold String.ltb. rewrite (String.compare_antisym x y).
  destruct (String.compare y x) eqn:E; simpl; try congruence.
  apply String.compare_eq_iff in E. congruence.
Qed.

End StringOrder.

(** ** More of the aggregator *)
Module AggregatorExtra.
Import Py PyFacts Aggregator AggregatorFacts NumFacts MapFacts.

(** *** [get_test_duration_stats] *)

Definition ascending (l : list Q) : Prop :=
  StronglySorted (fun a b => (a <= b)%Q) l.

Lemma sorted_ascending (l : list Q) :
  ascending (sorted (fun d : Q => d) Qltb false l).
Proof.
  unfold ascending.
  eapply StronglySorted_impl;
    [| apply sorted_ordered; [apply Qltb_asym | apply Qltb_negtrans]].
  intros a b. unfold may_precede, goes_first. apply Qltb_ge.
Qed.

Lemma StronglySorted_app_r {A} (R : A -> A -> Prop) (l1 l2 : list A) :
  StronglySorted R (l1 ++ l2) -> StronglySorted R l2.
Proof.
  induction l1 as [|x l1 IH]; simpl; intros H; [exact H|].
  apply IH. by inversion H.
Qed.

Lemma filter_length_perm {A} (p : A -> bool) (l1 l2 : list A) :
  Permutation l1 l2 -> length (List.filter p l1) = length (List.filter p l2).
Proof.
  induction 1 as [|x l1 l2 _ IH|x y l|l1 l2 l3 _ IH1 _ IH2]; simpl.
  - reflexivity.
  - destruct (p x); simpl; by rewrite IH.
  - destruct (p x), (p y); reflexivity.
  - by rewrite IH1.
Qed.

Lemma filter_none {A} (p : A -> bool) (l : list A) :
  Forall (fun x => p x = false) l -> List.filter p l = [].
Proof.
  induction 1 as [|x l Hx _ IH]; simpl; [reflexivity|]. by rewrite Hx.
Qed.

(** In an ascending list at most [k] elements are below the element at
    index [k], and at most [length - k - 1] are above it. *)
Lemma order_statistic (l : list Q) (k : nat) :
  ascending l -> (k < length l)%nat ->
  let m := nth k l 0%Q in
  (length (List.filter (fun d => Qltb d m) l) <= k)%nat
  /\ (length (List.filter (fun d => Qltb m d) l) <= length l - k - 1)%nat.
Proof.
  intros Hs Hk m.
  destruct (nth_split l 0%Q Hk) as (l1 & l2 & Hl & Hlen). fold m in Hl.
  rewrite Hl in Hs.
  pose proof (StronglySorted_app_Forall _ _ _ Hs) as Hbefore.
  pose proof (StronglySorted_app_r _ _ _ Hs) as Hafter.
  apply StronglySorted_inv in Hafter as [_ Hge].
  assert (Hm : Qltb m m = false) by (apply Qltb_ge, Qle_refl).
  rewrite Hl at 1 2 3. rewrite !List.filter_app. simpl List.filter. rewrite Hm.
  rewrite !length_app. simpl length. split.
  - rewrite (filter_none (fun d => Qltb d m) l2).
    + pose proof (List.filter_length_le (fun d => Qltb d m) l1). simpl. lia.
    + eapply List.Forall_impl; [|exact Hge]. intros d Hd. by apply Qltb_ge.
  - rewrite (filter_none (fun d => Qltb m d) l1).
    + pose proof (List.filter_length_le (fun d => Qltb m d) l2). simpl. lia.
    + eapply List.Forall_impl; [|exact Hbefore]. intros d Hd.
      apply Qltb_ge. by inversion Hd.
Qed.

(** The number of records whose duration is below, respectively above,
    a value. *)
Definition count_below (m : Q) (rs : list TestResult) : Z :=
  len (List.filter (fun r => Qltb (duration r) m) rs).

Definition count_above (m : Q) (rs : list TestResult) : Z :=
  len (List.filter (fun r => Qltb m (duration r)) rs).

Lemma filter_map_length {A B} (f : A -> B) (p : B -> bool) (l : list A) :
  length (List.filter p (map f l)) = length (List.filter (fun x => p (f x)) l).
Proof.
  induction l as [|x l IH]; simpl; [reflexivity|].
  destruct (p (f x)); simpl; by rewrite IH.
Qed.

(** X1: with at least one result, the minimum, the maximum and the median
    reported by [get_test_duration_stats] are durations of results, every
    duration lies between the minimum and the maximum, and the median is
    the element at index [n // 2] of the ascending order: at most [n // 2]
    durations are below it and fewer than [n - n // 2] above it.  This
    holds whatever the rounding of the float arithmetic is; the total is
    the sum of the durations taken in ascending order and the average its
    quotient by [n], both rounded, and nothing more is stated of them. *)
Theorem duration_stats_bounds `{FA : FloatArith} (self : TestAggregator) :
  results self <> [] ->
  let st := get_test_duration_stats self in
  let ds := map duration (results self) in
  let n := len (results self) in
  In (stat_min st) ds /\ In (stat_max st) ds /\ In (stat_median st) ds
  /\ Forall (fun d => (stat_min st <= d)%Q /\ (d <= stat_max st)%Q) ds
  /\ stat_total st = float_sum (sorted (fun d : Q => d) Qltb false ds)
  /\ stat_avg st = float_div (stat_total st) (inject_Z n)
  /\ (count_below (stat_median st) (results self) <= n / 2)%Z
  /\ (count_above (stat_median st) (results self) < n - n / 2)%Z.
Proof.
  intros Hne st ds n. unfold st, get_test_duration_stats.
  destruct (results self) as [|r rs] eqn:E; [done|]. clear Hne.
  fold ds. cbv zeta.
  set (srt := sorted (fun d : Q => d) Qltb false ds).
  assert (Hperm : Permutation srt ds) by apply sorted_perm.
  assert (Hasc : ascending srt) by apply sorted_ascending.
  assert (Hlen : length srt = length ds) by (by apply Permutation_length).
  assert (Hn : n = len srt).
  { unfold n, len. rewrite Hlen. unfold ds. by rewrite length_map. }
  assert (Hpos : (0 < n)%Z) by (unfold n, len; simpl length; lia).
  destruct srt as [|d ds0] eqn:Es; [unfold len in Hn; simpl in Hn; lia|].
  rewrite <- Es in *.
  cbn [stat_min stat_max stat_avg stat_median stat_total].
  destruct (py_min_spec ds0 d) as [Hmin_in Hmin_all].
  destruct (py_max_spec ds0 d) as [Hmax_in Hmax_all].
  rewrite <- Es in Hmin_in, Hmin_all, Hmax_in, Hmax_all.
  assert (Hall : Forall (fun x => (py_min d ds0 <= x)%Q /\ (x <= py_max d ds0)%Q) srt).
  { rewrite List.Forall_forall in *. intros x Hx. split; auto. }
  assert (Hk : (Z.to_nat (len srt / 2) < length srt)%nat).
  { unfold len. apply Nat2Z.inj_lt. rewrite Z2Nat.id.
    - apply Z.div_lt; unfold len in Hn; lia.
    - apply Z.div_pos; lia. }
  split; [eapply Permutation_in; eassumption|].
  split; [eapply Permutation_in; eassumption|].
  split; [eapply Permutation_in; [exact Hperm | by apply nth_In]|].
  split; [eapply Permutation_Forall; eassumption|].
  split; [reflexivity|].
  split; [by rewrite Hn|].
  destruct (order_statistic srt _ Hasc Hk) as [Hbelow Habove].
  cbv zeta in Hbelow, Habove.
  unfold count_below, count_above, len.
  rewrite <- (filter_map_length duration (fun d => Qltb d _)).
  rewrite <- (filter_map_length duration (fun d => Qltb _ d)).
  fold ds.
  rewrite <- (filter_length_perm _ _ _ Hperm).
  rewrite <- (filter_length_perm (fun d0 => Qltb _ d0) _ _ Hperm).
  rewrite Hn. unfold len in *.
  assert (Hhalf : Z.of_nat (Z.to_nat (Z.of_nat (length srt) / 2))
                  = (Z.of_nat (length srt) / 2)%Z).
  { apply Z2Nat.id. apply Z.div_pos; lia. }
  split; lia.
Qed.

(** *** [get_failed_tests], [add_results] and the summary *)
Section SummaryExtra.
Context `{DT : Datetime}.

Lemma filter_sublist {A} (p : A -> bool) (l : list A) :
  List.filter p l `sublist_of` l.
Proof.
  induction l as [|x l IH]; cbn [List.filter]; [constructor|].
  destruct (p x); by constructor.
Qed.

Lemma failed_or_error_length (rs : list TestResult) :
  len (List.filter
         (fun r => String.eqb (status r) "FAILED" || String.eqb (status r) "ERROR") rs)
  = (occurrences "FAILED" (map status rs) + occurrences "ERROR" (map status rs))%Z.
Proof.
  induction rs as [|r rs IH]; [reflexivity|].
  simpl map. rewrite !occurrences_cons. simpl List.filter.
  rewrite (String.eqb_sym (status r) "FAILED"), (String.eqb_sym (status r) "ERROR").
  destruct (String.eqb "FAILED" (status r)) eqn:E1.
  - apply String.eqb_eq in E1. rewrite <- E1. simpl.
    unfold len in *. simpl length. lia.
  - destruct (String.eqb "ERROR" (status r)) eqn:E2; simpl;
      unfold len in *; simpl length; lia.
Qed.

(** X2: [get_failed_tests] returns, in input order, the records whose
    status is spelled exactly FAILED or ERROR, and their number is
    [failed + errors] of the summary. *)
Theorem failed_tests_match_summary (self : TestAggregator) (t1 t2 : datetime) :
  let s := get_summary self t1 t2 in
  len (get_failed_tests self) = (failed s + errors s)%Z
  /\ get_failed_tests self `sublist_of` results self
  /\ (forall r, In r (get_failed_tests self)
               <-> In r (results self) /\ (status r = "FAILED" \/ status r = "ERROR")).
Proof.
  intros s.
  destruct (get_summary_counts self t1 t2) as (_ & _ & Hf & _ & He).
  fold s in Hf, He. rewrite Hf, He. split; [|split].
  - apply failed_or_error_length.
  - apply filter_sublist.
  - intros r. unfold get_failed_tests.
    rewrite List.filter_In, orb_true_iff, !String.eqb_eq. reflexivity.
Qed.

(** X3: the five counts of the summary after [add_results] are the sums
    of the counts before and of the counts of the added records alone. *)
Theorem summary_add_results
    (self : TestAggregator) (new : list TestResult) (t1 t2 : datetime) :
  let s := get_summary (add_results self new) t1 t2 in
  let s1 := get_summary self t1 t2 in
  let s2 := get_summary (add_results init new) t1 t2 in
  total s = (total s1 + total s2)%Z
  /\ passed s = (passed s1 + passed s2)%Z
  /\ failed s = (failed s1 + failed s2)%Z
  /\ skipped s = (skipped s1 + skipped s2)%Z
  /\ errors s = (errors s1 + errors s2)%Z.
Proof.
  intros s s1 s2.
  destruct (get_summary_counts (add_results self new) t1 t2) as (Ht & Hp & Hf & Hs & He).
  destruct (get_summary_counts self t1 t2) as (Ht1 & Hp1 & Hf1 & Hs1 & He1).
  destruct (get_summary_counts (add_results init new) t1 t2)
    as (Ht2 & Hp2 & Hf2 & Hs2 & He2).
  fold s in Ht, Hp, Hf, Hs, He. fold s1 in Ht1, Hp1, Hf1, Hs1, He1.
  fold s2 in Ht2, Hp2, Hf2, Hs2, He2.
  cbn [add_results results init app] in *.
  rewrite Ht, Hp, Hf, Hs, He, Ht1, Hp1, Hf1, Hs1, He1, Ht2, Hp2, Hf2, Hs2, He2.
  rewrite map_app, !occurrences_app.
  repeat split. unfold len. rewrite length_app. lia.
Qed.

(** X4: the breakdowns of the summary are absent exactly for the empty
    aggregator.  When the aggregator holds results, the entries of each
    breakdown (by status, by suite, by category) add up to [total], and the
    status breakdown has an entry, with its exact count, for the statuses
    that occur and for no other. *)
Theorem breakdowns_add_up (self : TestAggregator) (t1 t2 : datetime) :
  let s := get_summary self t1 t2 in
  (detail s = None <-> results self = [])
  /\ match detail s with
     | Some d =>
         map_sum (fun v => v) (status_breakdown d) = total s
         /\ map_sum (fun v => v) (suite_breakdown d) = total s
         /\ map_sum (fun v => v) (category_breakdown d) = total s
         /\ (forall st : string,
               status_breakdown d !! st
               = if (occurrences st (map status (results self)) =? 0)%Z then None
                 else Some (occurrences st (map status (results self))))
     | None => results self = []
     end.
Proof.
  intros s. unfold s, get_summary.
  destruct (results self) as [|r rs] eqn:E; [by split|].
  cbn [detail status_breakdown suite_breakdown category_breakdown total].
  rewrite !Counter_total. unfold len. rewrite !length_map.
  split; [split; discriminate|].
  repeat split. intros st. apply Counter_lookup.
Qed.

End SummaryExtra.

(** *** [get_tests_by_suite] and [get_tests_by_category] *)








(** *** [get_trends_over_time] *)
Section TrendsExtra.
Context `{DT : Datetime}.

(** The key of the period a record falls in: [None] when its timestamp is
    not read. *)
Definition key_of (period : string) (r : TestResult) : option string :=
  match fromisoformat (replace_Z (timestamp r)) with
  | Some result_time => Some (period_key period result_time)
  | None => None
  end.

Definition falls_in (period k : string) (r : TestResult) : bool :=
  match key_of period r with
  | Some k' => String.eqb k' k
  | None => false
  end.

Definition with_status (st : string) (r : TestResult) : bool :=
  String.eqb (status r) st.

(** The four counters over the records of [rs] that fall in period [k]. *)
Definition counts_of (period k : string) (rs : list TestResult) : PeriodCounts :=
  {| pc_total := len (List.filter (falls_in period k) rs);
     pc_passed :=
       len (List.filter (fun r => falls_in period k r && with_status "PASSED" r) rs);
     pc_failed :=
       len (List.filter (fun r => falls_in period k r && with_status "FAILED" r) rs);
     pc_skipped :=
       len (List.filter (fun r => falls_in period k r && with_status "SKIPPED" r) rs) |}.

Lemma falls_in_parses (period k : string) (r : TestResult) :
  falls_in period k r = true -> parses r = true.
Proof.
  unfold falls_in, key_of, parses.
  by destruct (fromisoformat (replace_Z (timestamp r))).
Qed.

Lemma period_data_snoc (period : string) (rs : list TestResult) (r : TestResult) :
  period_data_of period (rs ++ [r]) = tally period (period_data_of period rs) r.
Proof. unfold period_data_of. by rewrite foldl_app. Qed.

Lemma pc_total_count_status (c : PeriodCounts) (st : string) :
  pc_total (count_status c st) = (pc_total c + 1)%Z.
Proof.
  unfold count_status.
  destruct (String.eqb st "PASSED"), (String.eqb st "FAILED"),
    (String.eqb st "SKIPPED"); reflexivity.
Qed.

Lemma filter_and_length {A} (p q : A -> bool) (l : list A) :
  (length (List.filter (fun x => p x && q x) l) <= length (List.filter p l))%nat.
Proof.
  induction l as [|x l IH]; simpl; [lia|].
  destruct (p x), (q x); simpl; lia.
Qed.

Lemma counts_of_snoc (period k : string) (rs : list TestResult) (r : TestResult) :
  counts_of period k (rs ++ [r])
  = if falls_in period k r then count_status (counts_of period k rs) (status r)
    else counts_of period k rs.
Proof.
  unfold counts_of, count_status, with_status, len.
  rewrite !List.filter_app, !length_app.
  cbn [List.filter pc_total pc_passed pc_failed pc_skipped].
  destruct (falls_in period k r); cbn [andb length].
  - destruct (String.eqb (status r) "PASSED") eqn:E1;
    destruct (String.eqb (status r) "FAILED") eqn:E2;
    destruct (String.eqb (status r) "SKIPPED") eqn:E3;
      try (apply String.eqb_eq in E1); try (apply String.eqb_eq in E2);
      try (apply String.eqb_eq in E3); try congruence;
      cbn [length]; f_equal; lia.
  - f_equal; lia.
Qed.

Lemma counts_of_none (period k : string) (rs : list TestResult) :
  pc_total (counts_of period k rs) = 0%Z -> counts_of period k rs = new_period.
Proof.
  unfold counts_of, new_period, len. cbn [pc_total]. intros H.
  pose proof (filter_and_length (falls_in period k) (with_status "PASSED") rs).
  pose proof (filter_and_length (falls_in period k) (with_status "FAILED") rs).
  pose proof (filter_and_length (falls_in period k) (with_status "SKIPPED") rs).
  f_equal; lia.
Qed.

(** The dictionary built by the loop has an entry exactly for the periods
    some record falls in, holding the counters of those records. *)
Lemma period_data_lookup (period : string) (rs : list TestResult) (k : string) :
  period_data_of period rs !! k
  = if (pc_total (counts_of period k rs) =? 0)%Z then None
    else Some (counts_of period k rs).
Proof.
  induction rs as [|r rs IH] using rev_ind.
  - unfold period_data_of. simpl. by rewrite lookup_empty.
  - rewrite period_data_snoc, counts_of_snoc.
    unfold tally, falls_in, key_of.
    destruct (fromisoformat (replace_Z (timestamp r))) as [t|]; [|exact IH].
    destruct (String.eqb (period_key period t) k) eqn:E.
    + apply String.eqb_eq in E. subst k.
      rewrite lookup_insert_eq. unfold dict_get. rewrite IH.
      assert (Hn : (0 <= pc_total (counts_of period (period_key period t) rs))%Z)
        by (unfold counts_of, len; cbn [pc_total]; lia).
      rewrite pc_total_count_status.
      destruct (pc_total (counts_of period (period_key period t) rs) =? 0)%Z eqn:E0.
      * apply Z.eqb_eq in E0. rewrite (counts_of_none _ _ _ E0).
        cbn [default]. reflexivity.
      * cbn [default].
        destruct (pc_total (counts_of period (period_key period t) rs) + 1 =? 0)%Z
          eqn:E1; [lia | reflexivity].
    + apply String.eqb_neq in E. rewrite lookup_insert_ne by exact E. exact IH.
Qed.

(** The sums of the counters over the whole dictionary. *)
Lemma period_data_total (period : string) (rs : list TestResult) :
  map_sum pc_total (period_data_of period rs) = len (List.filter parses rs).
Proof.
  induction rs as [|r rs IH] using rev_ind.
  - unfold period_data_of. simpl. apply map_sum_empty.
  - rewrite period_data_snoc. unfold len in *. rewrite List.filter_app, length_app.
    unfold tally. cbn [List.filter]. unfold parses at 2.
    destruct (fromisoformat (replace_Z (timestamp r))) as [t|].
    + rewrite map_sum_insert, pc_total_count_status, IH. unfold dict_get.
      destruct (period_data_of period rs !! period_key period t); simpl; lia.
    + rewrite IH. simpl. lia.
Qed.

Lemma pc_passed_count_status (c : PeriodCounts) (st : string) :
  pc_passed (count_status c st)
  = (pc_passed c + if String.eqb st "PASSED" then 1 else 0)%Z.
Proof.
  unfold count_status.
  destruct (String.eqb st "PASSED"), (String.eqb st "FAILED"),
    (String.eqb st "SKIPPED"); simpl; lia.
Qed.

Lemma period_data_passed (period : string) (rs : list TestResult) :
  map_sum pc_passed (period_data_of period rs)
  = len (List.filter (fun r => parses r && with_status "PASSED" r) rs).
Proof.
  induction rs as [|r rs IH] using rev_ind.
  - unfold period_data_of. simpl. apply map_sum_empty.
  - rewrite period_data_snoc. unfold len in *. rewrite List.filter_app, length_app.
    unfold tally. cbn [List.filter]. unfold parses at 2, with_status at 2.
    destruct (fromisoformat (replace_Z (timestamp r))) as [t|].
    + rewrite map_sum_insert, pc_passed_count_status, IH. unfold dict_get.
      destruct (period_data_of period rs !! period_key period t),
        (String.eqb (status r) "PASSED"); simpl; lia.
    + rewrite IH. simpl. lia.
Qed.

(** The keys of a dictionary, as [In] sees them. *)
Lemma In_keys {V} (m : gmap string V) (k : string) :
  In k (map fst (map_to_list m)) <-> is_Some (m !! k).
Proof.
  rewrite in_map_iff. split.
  - intros [[k' v] [Hk Hin]]. simpl in Hk. subst k'.
    apply list_elem_of_In, elem_of_map_to_list in Hin. by exists v.
  - intros [v Hv]. exists (k, v). split; [reflexivity|].
    by apply list_elem_of_In, elem_of_map_to_list.
Qed.

Definition sorted_periods (m : gmap string PeriodCounts) : list string :=
  sorted (fun k : string => k) String.ltb false (map fst (map_to_list m)).

Lemma trend_rows_sorted_periods (m : gmap string PeriodCounts) :
  trend_rows m = map (trend_row m) (sorted_periods m).
Proof. reflexivity. Qed.

Lemma sorted_periods_perm (m : gmap string PeriodCounts) :
  Permutation (sorted_periods m) (map fst (map_to_list m)).
Proof. apply sorted_perm. Qed.

Lemma strict_of_sorted (l : list string) :
  StronglySorted (fun a b => String.ltb b a = false) l -> NoDup l ->
  StronglySorted (fun a b => String.ltb a b = true) l.
Proof.
  induction 1 as [|x l Hs IH Hx]; intros Hnd; [constructor|].
  apply NoDup_cons in Hnd as [Hnotin Hnd].
  constructor; [by apply IH|].
  rewrite List.Forall_forall in *. intros y Hy.
  apply StringOrder.ltb_total; [|by apply Hx].
  intros ->. apply Hnotin. by apply list_elem_of_In.
Qed.

Lemma sorted_periods_strict (m : gmap string PeriodCounts) :
  StronglySorted (fun a b => String.ltb a b = true) (sorted_periods m).
Proof.
  apply strict_of_sorted.
  - apply (sorted_ordered (fun k : string => k) String.ltb false);
      [apply StringOrder.ltb_asym | apply StringOrder.ltb_negtrans].
  - rewrite sorted_periods_perm. apply NoDup_fst_map_to_list.
Qed.

Lemma StronglySorted_map {A B} (R : B -> B -> Prop) (f : A -> B) (l : list A) :
  StronglySorted (fun a b => R (f a) (f b)) l -> StronglySorted R (map f l).
Proof.
  induction 1 as [|x l Hs IH Hx]; simpl; constructor; [exact IH|].
  rewrite List.Forall_forall in *. intros y Hy.
  apply in_map_iff in Hy as [z [<- Hz]]. by apply Hx.
Qed.

Lemma trend_rows_sum (w : PeriodCounts -> Z) (m : gmap string PeriodCounts) :
  sum_Z (map (fun k => w (dict_get m k new_period)) (sorted_periods m)) = map_sum w m.
Proof.
  rewrite (sum_Z_perm _ _ (Permutation_map _ (sorted_periods_perm m))).
  rewrite map_sum_items, map_map. f_equal.
  apply map_ext_in. intros [k v] Hin. simpl.
  apply list_elem_of_In, elem_of_map_to_list in Hin.
  unfold dict_get. by rewrite Hin.
Qed.

(** Strictly increasing periods. *)
Definition periods_increase (rows : list TrendRow) : Prop :=
  StronglySorted (fun a b => String.ltb (tr_period a) (tr_period b) = true) rows.

(** X6: the list 'trends' of get_trends_over_time has one row for each
    period in which a record with a readable timestamp falls, and no other;
    the rows come in strictly increasing order of the period string (so no
    period appears twice); the counters of a row are those of the records
    that fall in its period: total is their number (at least 1), passed,
    failed and skipped count the statuses 'PASSED', 'FAILED' and 'SKIPPED'
    (any other status, 'ERROR' included, is counted in total only), and
    pass_rate is passed / total * 100, between 0 and 100. *)
Theorem trend_rows_spec (self : TestAggregator) (period : string) :
  let rs := results self in
  let rows := trends_of (get_trends_over_time self period) in
  periods_increase rows /\
  (forall r k, In r rs -> key_of period r = Some k ->
     exists row, In row rows /\ tr_period row = k) /\
  (forall row, In row rows ->
     let c := counts_of period (tr_period row) rs in
     (1 <= tr_total row)%Z /\
     tr_total row = pc_total c /\
     tr_passed row = pc_passed c /\
     tr_failed row = pc_failed c /\
     tr_skipped row = pc_skipped c /\
     (tr_passed row + tr_failed row + tr_skipped row <= tr_total row)%Z /\
     tr_pass_rate row = (truediv (tr_passed row) (tr_total row) * 100)%Q /\
     (0 <= tr_pass_rate row)%Q /\ (tr_pass_rate row <= 100)%Q).
Proof.
  intros rs rows. unfold rows. rewrite trends_of_get_trends.
  fold rs. rewrite trend_rows_sorted_periods.
  set (m := period_data_of period rs).
  split; [|split].
  - apply StronglySorted_map.
    eapply StronglySorted_impl; [|apply sorted_periods_strict].
    intros a b H. exact H.
  - intros r k Hin Hk.
    exists (trend_row m k). split; [|reflexivity].
    apply in_map. eapply Permutation_in; [symmetry; apply sorted_periods_perm|].
    apply In_keys. unfold m. rewrite period_data_lookup.
    assert (Hpos : (1 <= pc_total (counts_of period k rs))%Z).
    { unfold counts_of, len. cbn [pc_total].
      assert (Hf : In r (List.filter (falls_in period k) rs)).
      { apply List.filter_In. split; [exact Hin|].
        unfold falls_in. rewrite Hk. apply String.eqb_refl. }
      destruct (List.filter (falls_in period k) rs); [destruct Hf | simpl; lia]. }
    destruct (pc_total (counts_of period k rs) =? 0)%Z eqn:E; [lia | by eexists].
  - intros row Hrow. apply in_map_iff in Hrow as [k [<- Hk]].
    eapply Permutation_in in Hk; [|apply sorted_periods_perm].
    apply In_keys in Hk as [c Hc].
    unfold m in Hc. rewrite period_data_lookup in Hc.
    destruct (pc_total (counts_of period k rs) =? 0)%Z eqn:E; [discriminate|].
    injection Hc as <-. apply Z.eqb_neq in E.
    assert (Hm : dict_get m k new_period = counts_of period k rs).
    { unfold dict_get, m. rewrite period_data_lookup.
      destruct (pc_total (counts_of period k rs) =? 0)%Z eqn:E'; [lia | reflexivity]. }
    unfold trend_row. cbn [tr_period tr_total tr_passed tr_failed tr_skipped tr_pass_rate].
    rewrite Hm.
    assert (Hn : (1 <= pc_total (counts_of period k rs))%Z).
    { revert E. unfold counts_of, len. cbn [pc_total]. lia. }
    assert (Hsum : (0 <= pc_passed (counts_of period k rs)
                    /\ pc_passed (counts_of period k rs)
                       + pc_failed (counts_of period k rs)
                       + pc_skipped (counts_of period k rs)
                       <= pc_total (counts_of period k rs)
                    /\ 0 <= pc_failed (counts_of period k rs)
                    /\ 0 <= pc_skipped (counts_of period k rs))%Z).
    { clear. unfold counts_of, with_status, len.
      cbn [pc_total pc_passed pc_failed pc_skipped].
      induction rs as [|r rs IH]; simpl; [lia|].
      destruct (falls_in period k r); simpl; [|exact IH].
      destruct (String.eqb (status r) "PASSED") eqn:E1;
      destruct (String.eqb (status r) "FAILED") eqn:E2;
      destruct (String.eqb (status r) "SKIPPED") eqn:E3;
        try (apply String.eqb_eq in E1); try (apply String.eqb_eq in E2);
        try (apply String.eqb_eq in E3); try congruence;
        simpl; lia. }
    assert (Hlt : (0 <? pc_total (counts_of period k rs))%Z = true)
      by (apply Z.ltb_lt; lia).
    rewrite Hlt.
    repeat split; try reflexivity; try lia.
    + apply rate_in_range; lia.
    + apply rate_in_range; lia.
Qed.

(** X7: for an aggregator with records, the summary of
    get_trends_over_time counts the records whose timestamp is read:
    total_executions is their number, periods_analyzed the number of rows,
    and overall_pass_rate is the share of them with status 'PASSED' times
    100 (0 when no timestamp is read, in which case the list of rows is
    empty); the period asked for is returned unchanged.  The empty
    dictionary is returned exactly for the aggregator without records. *)
Theorem trends_summary_spec (self : TestAggregator) (period : string) :
  match get_trends_over_time self period with
  | EmptyTrends => results self = []
  | TrendsOf p rows smry =>
      let read := len (List.filter parses (results self)) in
      let passed :=
        len (List.filter (fun r => parses r && with_status "PASSED" r)
                         (results self)) in
      results self <> [] /\
      p = period /\
      periods_analyzed smry = len rows /\
      total_executions smry = read /\
      sum_Z (map tr_total rows) = read /\
      sum_Z (map tr_passed rows) = passed /\
      overall_pass_rate smry
      = (if (0 <? read)%Z then (truediv passed read * 100)%Q else 0%Q) /\
      (0 <= overall_pass_rate smry)%Q /\ (overall_pass_rate smry <= 100)%Q /\
      (read = 0%Z <-> rows = [])
  end.
Proof.
  unfold get_trends_over_time.
  destruct (results self) as [|r0 rs0] eqn:Ers; [reflexivity|].
  rewrite <- Ers. set (rs := results self).
  rewrite trend_rows_sorted_periods, !map_map.
  cbn [tr_total tr_passed trend_row periods_analyzed total_executions overall_pass_rate].
  rewrite (trend_rows_sum pc_total), (trend_rows_sum pc_passed).
  rewrite period_data_total, period_data_passed.
  assert (Hle : (0 <= len (List.filter (fun r => parses r && with_status "PASSED" r) rs)
                 <= len (List.filter parses rs))%Z).
  { unfold len.
    pose proof (filter_and_length parses (with_status "PASSED") rs). lia. }
  repeat split; try reflexivity.
  - unfold rs. rewrite Ers. discriminate.
  - destruct (0 <? len (List.filter parses rs))%Z eqn:E.
    + apply Z.ltb_lt in E. apply rate_in_range; lia.
    + apply Qle_refl.
  - destruct (0 <? len (List.filter parses rs))%Z eqn:E.
    + apply Z.ltb_lt in E. apply rate_in_range; lia.
    + discriminate.
  - intros H0.
    destruct (sorted_periods (period_data_of period rs)) as [|k ks] eqn:Ek;
      [reflexivity|].
    exfalso.
    assert (Hin : In k (sorted_periods (period_data_of period rs)))
      by (rewrite Ek; by left).
    eapply Permutation_in in Hin; [|apply sorted_periods_perm].
    apply In_keys in Hin as [c Hc]. rewrite period_data_lookup in Hc.
    destruct (pc_total (counts_of period k rs) =? 0)%Z eqn:E; [discriminate|].
    apply Z.eqb_neq in E. apply E.
    unfold counts_of, len in *. cbn [pc_total].
    assert (Hsub : (length (List.filter (falls_in period k) rs)
                    <= length (List.filter parses rs))%nat).
    { clear. induction rs as [|r rs IH]; simpl; [lia|].
      pose proof (falls_in_parses period k r) as Hr.
      destruct (falls_in period k r), (parses r); simpl; lia. }
    lia.
  - intros Hrows. apply map_eq_nil in Hrows.
    rewrite <- (period_data_total period), <- (trend_rows_sum pc_total), Hrows.
    reflexivity.
Qed.

End TrendsExtra.

(** *** [_load_from_xml] *)
Section XmlExtra.
Variable float_of_str : string -> option Q.

(** The [time] attribute of the test case is absent or read by [float]. *)
Definition time_read (testcase : Element) : bool :=
  match get_attr testcase "time" with
  | Some s => match float_of_str s with Some _ => true | None => false end
  | None => true
  end.

(** The record appended for a test case. *)
Definition record_of (testcase : Element) (r : TestResult) : Prop :=
  test_id r = default EmptyString (get_attr testcase "name")
  /\ name r = default EmptyString (get_attr testcase "name")
  /\ suite r = default EmptyString (get_attr testcase "classname")
  /\ status r = junit_status testcase
  /\ Some (duration r)
     = match get_attr testcase "time" with
       | Some s => float_of_str s
       | None => Some 0%Q
       end.

Lemma xml_result_data_ok (now_iso : string) (testcase : Element) (rd : ResultData) :
  xml_result_data float_of_str testcase = Ok rd ->
  time_read testcase = true /\ record_of testcase (from_result_data now_iso rd).
Proof.
  unfold xml_result_data, time_read, record_of, junit_status.
  rewrite !find_has_child.
  destruct (get_attr testcase "time") as [s|].
  - destruct (float_of_str s) as [d|]; [|discriminate].
    intros [= <-].
    destruct (find testcase "skipped"), (find testcase "failure"),
      (find testcase "error"); repeat split; reflexivity.
  - intros [= <-].
    destruct (find testcase "skipped"), (find testcase "failure"),
      (find testcase "error"); repeat split; reflexivity.
Qed.

Lemma xml_result_data_raise (testcase : Element) (e : exn) :
  xml_result_data float_of_str testcase = Raise e -> time_read testcase = false.
Proof.
  unfold xml_result_data, time_read.
  destruct (get_attr testcase "time") as [s|]; [|discriminate].
  destruct (float_of_str s); [discriminate | reflexivity].
Qed.

(** What the loop has done when it stops: [good] are the test cases it
    converted, [rest] those it did not reach. *)
Definition loaded (cases : list Element) (before after : list TestResult)
    (e : option exn) : Prop :=
  exists (good rest : list Element) (new : list TestResult),
    cases = good ++ rest
    /\ after = before ++ new
    /\ Forall (fun c => time_read c = true) good
    /\ Forall2 record_of good new
    /\ match e with
       | None => rest = []
       | Some x =>
           x = ValueError
           /\ exists c rest', rest = c :: rest' /\ time_read c = false
       end.

Lemma load_testcases_loaded (now_iso : string) (cases : list Element) :
  forall acc : list TestResult,
    loaded cases acc (load_testcases float_of_str now_iso cases acc).1
           (load_testcases float_of_str now_iso cases acc).2.
Proof.
  induction cases as [|c cases IH]; intros acc.
  - exists [], [], []. simpl. rewrite app_nil_r. repeat split; constructor.
  - cbn [load_testcases].
    destruct (xml_result_data float_of_str c) as [rd|e] eqn:E.
    + destruct (xml_result_data_ok now_iso c rd E) as [Hread Hrec].
      destruct (IH (acc ++ [from_result_data now_iso rd]))
        as (good & rest & new & Hc & Ha & Hg & Hn & He).
      exists (c :: good), rest, (from_result_data now_iso rd :: new).
      repeat split.
      * simpl. by rewrite Hc.
      * rewrite Ha, <- app_assoc. reflexivity.
      * by constructor.
      * by constructor.
      * exact He.
    + exists [], (c :: cases), []. simpl. rewrite app_nil_r.
      repeat split; try constructor.
      exists c, cases. split; [reflexivity|].
      by apply xml_result_data_raise with e.
Qed.

(** X8: _load_from_xml appends to the records already held, in document
    order, one record for each testcase element up to the first one whose
    time attribute float() rejects; each record carries the name (also as
    id), the classname as suite, the duration read from time (0 without the
    attribute) and the status by the order of the checks.  When no time
    attribute is rejected every testcase is loaded and nothing is raised;
    otherwise ValueError is raised at the first rejected one and the records
    appended before it stay in the aggregator.  The list of source files
    and the metadata are not touched. *)
Theorem load_from_xml_appends (self : TestAggregator) (now_iso : string)
    (root : Element) :
  let out := _load_from_xml float_of_str self now_iso root in
  loaded (findall_testcase root) (results self) (results out.1) out.2
  /\ source_files out.1 = source_files self
  /\ aggregation_metadata out.1 = aggregation_metadata self
  /\ (out.2 = None <-> Forall (fun c => time_read c = true) (findall_testcase root)).
Proof.
  cbn zeta. unfold _load_from_xml.
  pose proof (load_testcases_loaded now_iso (findall_testcase root) (results self))
    as Hl.
  destruct (load_testcases float_of_str now_iso (findall_testcase root) (results self))
    as [rs e] eqn:E.
  cbn [fst snd results source_files aggregation_metadata] in *.
  repeat split; try exact Hl.
  - intros ->. destruct Hl as (good & rest & new & Hc & _ & Hg & _ & ->).
    rewrite Hc, app_nil_r. exact Hg.
  - intros Hall. destruct Hl as (good & rest & new & Hc & _ & _ & _ & He).
    destruct e as [x|]; [|reflexivity].
    destruct He as (_ & c & rest' & -> & Hbad).
    rewrite Hc in Hall. apply Forall_app in Hall as [_ Hall].
    apply Forall_cons in Hall as [Hc' _]. congruence.
Qed.

End XmlExtra.

(** *** [to_dict] and [from_dict] *)

(** The keys that [__init__] reads. *)
Definition result_keys : list string :=
  ["id"; "name"; "suite"; "category"; "status"; "duration"; "timestamp";
   "message"; "error_details"; "tags"; "priority"; "browser"; "os"; "test_type";
   "retry_count"; "custom_fields"].

(** The dictionary [result_data] that [_load_from_xml] passes to
    [from_dict]. *)
Definition result_data_dict (rd : ResultData) : list (string * field) :=
  [("id", FStr (rd_id rd)); ("name", FStr (rd_name rd)); ("suite", FStr (rd_suite rd));
   ("duration", FFloat (rd_duration rd)); ("status", FStr (rd_status rd))]
  ++ match rd_error_details rd with
     | Some (Some s) => [("error_details", FStr s)]
     | Some None => [("error_details", FNone)]
     | None => []
     end
  ++ match rd_message rd with
     | Some m => [("message", FStr m)]
     | None => []
     end.

Lemma kwargs_get_other (k : string) (v dflt : field) (data : list (string * field))
    (key : string) :
  k <> key -> kwargs_get ((k, v) :: data) key dflt = kwargs_get data key dflt.
Proof. intros H. cbn [kwargs_get]. apply String.eqb_neq in H. by rewrite H. Qed.

(** X9: to_dict followed by from_dict gives back the record, whatever
    the clock shows: the sixteen keys written are the keys read.  from_dict
    of the empty dictionary gives the defaults of __init__ (status
    'UNKNOWN', priority 'medium', test_type 'functional', the current time
    as timestamp).  A key that __init__ does not read is ignored, except the
    key 'self': a dictionary with that key raises TypeError.  The record
    that _load_from_xml builds for a test case is from_dict of its
    result_data. *)
Theorem to_dict_from_dict (r : TestResult) (now_iso : string) :
  from_dict now_iso (to_dict r) = Some (Ok r)
  /\ map fst (to_dict r) = result_keys
  /\ from_dict now_iso []
     = Some (Ok {| test_id := EmptyString; name := EmptyString;
                   suite := EmptyString; category := EmptyString;
                   status := "UNKNOWN"; duration := 0;
                   timestamp := now_iso; message := EmptyString;
                   error_details := Some EmptyString; tags := [];
                   priority := "medium"; browser := EmptyString;
                   os := EmptyString; test_type := "functional";
                   retry_count := 0; custom_fields := [] |})
  /\ (forall k v data, ~ In k result_keys -> k <> "self" ->
        from_dict now_iso ((k, v) :: data) = from_dict now_iso data)
  /\ (forall data, In "self" (map fst data) ->
        from_dict now_iso data = Some (Raise TypeError))
  /\ (forall rd, from_dict now_iso (result_data_dict rd)
                 = Some (Ok (from_result_data now_iso rd))).
Proof.
  split; [|split; [|split; [|split; [|split]]]].
  - destruct r as [? ? ? ? ? ? ? ? [e|] ? ? ? ? ? ? ?]; reflexivity.
  - reflexivity.
  - reflexivity.
  - intros k v data Hk Hself. unfold from_dict. cbn [existsb fst].
    apply String.eqb_neq in Hself. rewrite Hself. cbn [orb].
    destruct (existsb (fun kv => String.eqb (fst kv) "self") data); [reflexivity|].
    f_equal. unfold TestResult_init. cbv zeta.
    rewrite !(kwargs_get_other k v) by (intros ->; apply Hk; cbn; tauto).
    reflexivity.
  - intros data Hin. unfold from_dict.
    assert (E : existsb (fun kv => String.eqb (fst kv) "self") data = true).
    { apply in_map_iff in Hin as [[k v] [Hk Hin]]. simpl in Hk. subst k.
      apply existsb_exists. exists ("self", v). split; [exact Hin | reflexivity]. }
    by rewrite E.
  - intros [id nm su du st [[e|]|] [m|]]; reflexivity.
Qed.

(** *** [_get_recent_results] and [_calculate_trends] *)
Section RecentExtra.
Context `{DT : Datetime}.

Lemma filter_length_le {A} (p q : A -> bool) (l : list A) :
  (forall x, p x = true -> q x = true) ->
  (length (List.filter p l) <= length (List.filter q l))%nat.
Proof.
  intros Hpq. induction l as [|x l IH]; simpl; [lia|].
  specialize (Hpq x). destruct (p x), (q x); simpl; lia.
Qed.

Lemma filter_length_bound {A} (p : A -> bool) (l : list A) :
  (length (List.filter p l) <= length l)%nat.
Proof. apply sublist_length, filter_sublist. Qed.

(** X10: in the summary of an aggregator with records, 'recent_trends' is
    computed from the records kept by _get_recent_results for the last 24
    hours: those whose timestamp is not read, or is at or after the cutoff
    (or cannot be compared with it).  It is {'trend': 'no_data', ...} exactly
    when no record is kept, and then every timestamp was read; otherwise
    total_recent is the number of records kept, between 1 and the total and
    at least the number of records with an unreadable timestamp,
    pass_rate_recent is the share of 'PASSED' among them times 100, between
    0 and 100, and the counts of recent_status_breakdown add up to
    total_recent. *)
Theorem recent_trends_spec (self : TestAggregator) (now stamp : datetime) :
  match detail (get_summary self now stamp) with
  | None => results self = []
  | Some d =>
      let recent := List.filter (keep_recent (minus_hours now 24)) (results self) in
      match recent_trends d with
      | NoData =>
          recent = [] /\ Forall (fun r => parses r = true) (results self)
      | Recent n rate breakdown =>
          n = len recent
          /\ (1 <= n <= len (results self))%Z
          /\ (len (List.filter (fun r => negb (parses r)) (results self)) <= n)%Z
          /\ rate = (truediv (occurrences "PASSED" (map status recent)) n * 100)%Q
          /\ (0 <= rate)%Q /\ (rate <= 100)%Q
          /\ (forall st, dict_get breakdown st 0%Z = occurrences st (map status recent))
          /\ map_sum (fun v => v) breakdown = n
      end
  end.
Proof.
  unfold get_summary.
  destruct (results self) as [|r0 rs0] eqn:Ers; [reflexivity|].
  rewrite <- Ers. cbn [detail recent_trends].
  unfold _get_recent_results, _calculate_trends.
  set (rs := results self).
  set (recent := List.filter (keep_recent (minus_hours now 24)) rs).
  assert (Hunread : (length (List.filter (fun r => negb (parses r)) rs)
                     <= length recent)%nat).
  { apply filter_length_le. intros r Hr. apply keep_recent_unparsable.
    by destruct (parses r). }
  destruct recent as [|r1 recent1] eqn:Erecent.
  - split; [reflexivity|].
    apply List.Forall_forall. intros r Hr.
    destruct (parses r) eqn:Ep; [reflexivity|]. exfalso.
    assert (Hin : In r (List.filter (keep_recent (minus_hours now 24)) rs)).
    { apply List.filter_In. split; [exact Hr|]. by apply keep_recent_unparsable. }
    fold recent in Erecent. unfold recent in Erecent. rewrite Erecent in Hin.
    destruct Hin.
  - rewrite <- Erecent.
    assert (Hlen : (1 <= len recent <= len rs)%Z).
    { unfold len. pose proof (filter_length_bound (keep_recent (minus_hours now 24)) rs)
        as Hb. fold recent in Hb. rewrite Erecent in *. simpl in *. lia. }
    assert (Hpos : (0 <? len recent)%Z = true) by (apply Z.ltb_lt; lia).
    rewrite Hpos, Counter_get.
    assert (Hocc : (0 <= occurrences "PASSED" (map status recent) <= len recent)%Z).
    { split; [apply occurrences_nonneg|].
      unfold occurrences, len.
      pose proof (filter_length_bound (String.eqb "PASSED") (map status recent)) as Hb.
      rewrite length_map in Hb. lia. }
    repeat split; try lia.
    + rewrite Erecent. unfold len. lia.
    + apply rate_in_range; lia.
    + apply rate_in_range; lia.
    + intros st. apply Counter_get.
    + rewrite Counter_total. unfold len. by rewrite length_map.
Qed.

End RecentExtra.

End AggregatorExtra.

(** ** More of the notification system *)
Module NotificationExtra.
Import Py PyFacts Dicts Notification NotificationFacts NumFacts.

(** *** The two rates of the summary *)

Definition failure_rate_of (test_results : list TestDict) : Q :=
  if (0 <? len test_results)%Z
  then (truediv (count_status "FAILED" test_results) (len test_results) * 100)%Q
  else 0%Q.

Definition pass_rate_of (test_results : list TestDict) : Q :=
  if (0 <? len test_results)%Z
  then (truediv (count_status "PASSED" test_results) (len test_results) * 100)%Q
  else 0%Q.

Lemma summary_failure_rate (now_iso : string) (test_results : list TestDict) :
  _calculate_summary now_iso test_results !! "failure_rate"
  = Some (VNum (failure_rate_of test_results)).
Proof. read_summary. reflexivity. Qed.

Lemma summary_pass_rate (now_iso : string) (test_results : list TestDict) :
  _calculate_summary now_iso test_results !! "pass_rate"
  = Some (VNum (pass_rate_of test_results)).
Proof. read_summary. reflexivity. Qed.

(** The two bounds that a priority threshold compares the rates with. *)
Definition failure_limit (threshold : NotificationPriority) : Q :=
  match threshold with
  | CRITICAL => 30 | HIGH => 20 | MEDIUM => 10 | LOW => 5
  end.

Definition pass_limit (threshold : NotificationPriority) : Q :=
  match threshold with
  | CRITICAL => 50 | HIGH => 70 | MEDIUM => 85 | LOW => 95
  end.

Lemma priority_exceeds_rates (now_iso : string) (test_results : list TestDict)
    (threshold : NotificationPriority) :
  _priority_exceeds_threshold (_calculate_summary now_iso test_results) threshold
  = Ok (Qltb (failure_limit threshold) (failure_rate_of test_results)
        || Qltb (pass_rate_of test_results) (pass_limit threshold)).
Proof.
  unfold _priority_exceeds_threshold, dict_get.
  rewrite summary_failure_rate, summary_pass_rate.
  destruct threshold; simpl;
    match goal with |- context [if ?c then _ else _] => destruct c end; reflexivity.
Qed.

Lemma rate_le (p t c : Z) :
  (0 < t)%Z -> (100 * p <= c * t)%Z -> (truediv p t * 100 <= inject_Z c)%Q.
Proof.
  intros Ht H. destruct t as [|t|t]; try lia.
  unfold truediv, Qdiv, Qmult, Qinv, Qle, inject_Z. simpl. lia.
Qed.

Lemma rate_ge (p t c : Z) :
  (0 < t)%Z -> (c * t <= 100 * p)%Z -> (inject_Z c <= truediv p t * 100)%Q.
Proof.
  intros Ht H. destruct t as [|t|t]; try lia.
  unfold truediv, Qdiv, Qmult, Qinv, Qle, inject_Z. simpl. lia.
Qed.

(** The order of the priorities. *)
Definition rank (p : NotificationPriority) : nat :=
  match p with
  | LOW => 0 | MEDIUM => 1 | HIGH => 2 | CRITICAL => 3
  end.

Lemma failure_limit_mono (a b : NotificationPriority) :
  (rank a <= rank b)%nat -> (failure_limit a <= failure_limit b)%Q.
Proof. destruct a, b; simpl; intros H; try lia; by vm_compute. Qed.

Lemma pass_limit_mono (a b : NotificationPriority) :
  (rank a <= rank b)%nat -> (pass_limit b <= pass_limit a)%Q.
Proof. destruct a, b; simpl; intros H; try lia; by vm_compute. Qed.

(** X11: the priority thresholds are nested.  On the summary of any list of
    results, a run that exceeds a threshold exceeds every lower one
    (LOW < MEDIUM < HIGH < CRITICAL): whenever the check answers True for a
    priority it answers True for the priorities below it. *)
Theorem priority_thresholds_nested (now_iso : string) (test_results : list TestDict)
    (lower higher : NotificationPriority) :
  (rank lower <= rank higher)%nat ->
  _priority_exceeds_threshold (_calculate_summary now_iso test_results) higher
  = Ok true ->
  _priority_exceeds_threshold (_calculate_summary now_iso test_results) lower
  = Ok true.
Proof.
  intros Hrank. rewrite !priority_exceeds_rates. intros [= H]. f_equal.
  apply orb_true_iff in H. apply orb_true_iff.
  destruct H as [H|H]; [left | right]; apply Qltb_lt in H; apply Qltb_lt.
  - eapply Qle_lt_trans; [apply failure_limit_mono; exact Hrank | exact H].
  - eapply Qlt_le_trans; [exact H | apply pass_limit_mono; exact Hrank].
Qed.

Section SendingExtra.
Context `{DT : Datetime}.
Variable clock : nat -> datetime.
Variable render :
  string -> gmap string value -> list TestDict -> datetime -> string + string.
Variable deliver :
  Config -> NotificationChannel -> string -> string -> (nat -> datetime) ->
  bool * option string * nat.

Local Abbreviation send_results :=
  (send_test_results_notification clock render deliver).
Local Abbreviation send_custom :=
  (send_custom_notification clock render deliver).

(** *** A run that is quiet *)

Lemma quiet_priority (now_iso : string) (test_results : list TestDict)
    (rule : NotificationRule) :
  (failure_rate_of test_results <= 5)%Q ->
  (95 <= pass_rate_of test_results)%Q ->
  priority_met now_iso test_results rule = false.
Proof.
  intros Hf Hp. unfold priority_met. rewrite priority_exceeds_rates.
  apply orb_false_iff. split; apply Qltb_ge.
  - eapply Qle_trans; [exact Hf|].
    apply (failure_limit_mono LOW). destruct (priority_threshold rule); simpl; lia.
  - eapply Qle_trans; [|exact Hp].
    apply (pass_limit_mono LOW). destruct (priority_threshold rule); simpl; lia.
Qed.

(** X12: a run in which at most 5% of the results have status 'FAILED' and
    at least 95% have status 'PASSED' sends nothing, whatever the rules of
    the object are: no rule is applicable (the rule 'Success Notification'
    of the defaults included), the call returns the empty list, nothing is
    handed to a transport and the object is unchanged; the enabled rules
    are evaluated when the list of results is not empty. *)
Theorem quiet_run_sends_nothing (test_results : list TestDict)
    (custom_rules : option (list NotificationRule)) (st : State) :
  (20 * count_status "FAILED" test_results <= len test_results)%Z ->
  (95 * len test_results <= 100 * count_status "PASSED" test_results)%Z ->
  let out := send_results test_results custom_rules st in
  out.1 = Ok []
  /\ system out.2 = system st
  /\ trace out.2
     = trace st
       ++ match test_results with
          | [] => []
          | _ => map (fun rule => Evaluated (rule_name rule))
                     (List.filter enabled (rules (system st)))
          end.
Proof.
  intros Hf Hp. destruct test_results as [|r rest] eqn:E.
  - cbn. by rewrite app_nil_r.
  - rewrite <- E in *. cbn zeta.
    assert (Hlen : (0 < len test_results)%Z) by (rewrite E; unfold len; simpl; lia).
    assert (Hfr : (failure_rate_of test_results <= 5)%Q).
    { unfold failure_rate_of. apply Z.ltb_lt in Hlen as Hpos. rewrite Hpos.
      apply (rate_le _ _ 5); lia. }
    assert (Hpr : (95 <= pass_rate_of test_results)%Q).
    { unfold pass_rate_of. apply Z.ltb_lt in Hlen as Hpos. rewrite Hpos.
      apply (rate_ge _ _ 95); lia. }
    assert (Hout :
      send_results test_results custom_rules st
      = (Ok [],
         {| system := system st; ticks := S (ticks st);
            trace := trace st
                     ++ map (fun rule => Evaluated (rule_name rule))
                            (List.filter enabled (rules (system st))) |})).
    { rewrite E. cbn [send_test_results_notification]. rewrite <- E.
      unfold bindM at 1. cbn [now].
      unfold bindM at 1. cbn [self system].
      unfold bindM at 1, _evaluate_rules, bindM at 1. cbn [self system].
      rewrite evaluate_loop_summary.
      assert (Hnone : List.filter
                        (fun r0 => enabled r0
                                   && priority_met (isoformat (clock (ticks st)))
                                        test_results r0)
                        (rules (system st)) = []).
      { apply AggregatorExtra.filter_none. apply List.Forall_forall. intros rule _.
        rewrite quiet_priority by assumption. apply andb_false_r. }
      rewrite Hnone. reflexivity. }
    rewrite Hout. repeat split.
Qed.

(** *** What a call leaves alone *)

(** The computation does not change the part [f] of the object. *)
Definition keeps {A B} (f : NotificationSystem -> B) (m : M A) : Prop :=
  forall st, f (system (m st).2) = f (system st).

Lemma keeps_ret {A B} (f : NotificationSystem -> B) (a : A) : keeps f (ret a).
Proof. intros st. reflexivity. Qed.

Lemma keeps_lift {A B} (f : NotificationSystem -> B) (r : result A) :
  keeps f (lift r).
Proof. intros st. reflexivity. Qed.

Lemma keeps_self {B} (f : NotificationSystem -> B) : keeps f self.
Proof. intros st. reflexivity. Qed.

Lemma keeps_now {B} (f : NotificationSystem -> B) : keeps f (now clock).
Proof. intros st. reflexivity. Qed.

Lemma keeps_transport {B} (f : NotificationSystem -> B)
    (send : (nat -> datetime) -> bool * option string * nat) :
  keeps f (transport clock send).
Proof. intros st. unfold transport. by destruct (send _). Qed.

Lemma keeps_log {B} (f : NotificationSystem -> B) (e : event) : keeps f (log e).
Proof. intros st. reflexivity. Qed.

Lemma keeps_bind {A C B} (f : NotificationSystem -> B) (m : M A) (k : A -> M C) :
  keeps f m -> (forall a, keeps f (k a)) -> keeps f (bindM m k).
Proof.
  intros Hm Hk st. unfold bindM. specialize (Hm st).
  destruct (m st) as [[a|e] st'] eqn:E; simpl in *.
  - rewrite Hk. exact Hm.
  - exact Hm.
Qed.

(** The configuration, the rules and the history. *)
Definition settings (sys : NotificationSystem)
  : Config * list NotificationRule * list NotificationResult :=
  (config sys, rules sys, notification_history sys).

(** The rules, the history and the rate-limit map. *)
Definition records (sys : NotificationSystem)
  : list NotificationRule * list NotificationResult * gmap string datetime :=
  (rules sys, notification_history sys, last_notification_times sys).

Lemma keeps_evaluate_loop {B} (f : NotificationSystem -> B)
    (summary : gmap string value) (rs : list NotificationRule) :
  keeps f (evaluate_loop summary rs).
Proof.
  induction rs as [|rule rest IH]; cbn [evaluate_loop]; [apply keeps_ret|].
  destruct (negb (enabled rule)); [exact IH|].
  apply keeps_bind; [apply keeps_log|]. intros _.
  apply keeps_bind; [apply keeps_lift|]. intros [|]; [|exact IH].
  apply keeps_bind; [apply keeps_lift|]. intros met.
  apply keeps_bind; [exact IH|]. intros applicable. apply keeps_ret.
Qed.

Lemma keeps_should_send {B} (f : NotificationSystem -> B) (rule : NotificationRule) :
  keeps f (_should_send_notification clock rule).
Proof.
  unfold _should_send_notification.
  apply keeps_bind; [apply keeps_now|]. intros t.
  apply keeps_bind; [apply keeps_self|]. intros sys.
  destruct (last_notification_times sys !! rule_name rule) as [last|];
    [|apply keeps_ret].
  destruct (sub_datetime t last); [apply keeps_ret | apply keeps_lift].
Qed.

Lemma keeps_send {B} (f : NotificationSystem -> B) (rule : NotificationRule)
    (summary : gmap string value) (test_results : list TestDict) :
  keeps f (_send_notification clock render deliver rule summary test_results).
Proof.
  unfold _send_notification.
  apply keeps_bind; [apply keeps_now|]. intros t.
  destruct (render (template rule) summary test_results t) as [message|e].
  - apply keeps_bind; [apply keeps_log|]. intros _.
    apply keeps_bind; [apply keeps_self|]. intros sys.
    apply keeps_bind; [apply keeps_transport|]. intros [ok error].
    apply keeps_bind; [apply keeps_now|]. intros stamp. apply keeps_ret.
  - apply keeps_bind; [apply keeps_now|]. intros stamp. apply keeps_ret.
Qed.

Lemma keeps_record (name : string) : keeps settings (_record_notification clock name).
Proof.
  unfold _record_notification. apply keeps_bind; [apply keeps_now|].
  intros t st. reflexivity.
Qed.

Lemma keeps_send_loop (applicable : list NotificationRule)
    (summary : gmap string value) (test_results : list TestDict) :
  keeps settings (send_loop clock render deliver applicable summary test_results).
Proof.
  induction applicable as [|rule rest IH]; cbn [send_loop].
  - apply keeps_ret.
  - apply keeps_bind; [apply keeps_should_send|]. intros [|]; [|exact IH].
    apply keeps_bind; [apply keeps_send|]. intros r.
    apply keeps_bind.
    + destruct (success r); [apply keeps_record | apply keeps_ret].
    + intros _. apply keeps_bind; [exact IH|]. intros rs. apply keeps_ret.
Qed.

Lemma keeps_send_results (test_results : list TestDict)
    (custom_rules : option (list NotificationRule)) :
  keeps settings (send_results test_results custom_rules).
Proof.
  destruct test_results as [|r rest]; cbn [send_test_results_notification].
  - apply keeps_ret.
  - apply keeps_bind; [apply keeps_now|]. intros t.
    apply keeps_bind; [apply keeps_self|]. intros sys.
    apply keeps_bind.
    + unfold _evaluate_rules. apply keeps_bind; [apply keeps_self|].
      intros sys'. apply keeps_evaluate_loop.
    + intros applicable. apply keeps_send_loop.
Qed.

Lemma keeps_set_config (cfg : Config) : keeps records (set_config cfg).
Proof. intros st. reflexivity. Qed.

Lemma keeps_send_custom (ch : NotificationChannel) (message : string)
    (config_override : option Config) :
  keeps records (send_custom ch message config_override).
Proof.
  unfold send_custom_notification.
  apply keeps_bind; [apply keeps_self|]. intros sys.
  apply keeps_bind.
  { destruct config_override as [[|kv more]|];
      [apply keeps_ret | apply keeps_set_config | apply keeps_ret]. }
  intros _. apply keeps_bind; [apply keeps_send|]. intros result.
  apply keeps_bind; [|intros _; apply keeps_ret].
  destruct config_override as [[|kv more]|]; try apply keeps_ret.
  destruct (config sys); [apply keeps_ret | apply keeps_set_config].
Qed.

(** *** The history *)

(** The calls of the public interface. *)
Inductive call : Type :=
| CallAddRule (rule : NotificationRule)
| CallSendResults (test_results : list TestDict)
                  (custom_rules : option (list NotificationRule))
| CallSendCustom (ch : NotificationChannel) (message : string)
                 (config_override : option Config)
| CallGetHistory (limit : Z)
| CallClearHistory.

(** The state after a call. *)
Definition after (c : call) (st : State) : State :=
  match c with
  | CallAddRule rule =>
      {| system := add_rule (system st) rule; ticks := ticks st; trace := trace st |}
  | CallSendResults test_results custom_rules =>
      (send_results test_results custom_rules st).2
  | CallSendCustom ch message config_override =>
      (send_custom ch message config_override st).2
  | CallGetHistory limit => (get_notification_history limit st).2
  | CallClearHistory => (clear_history st).2
  end.

Definition after_all (calls : list call) (st : State) : State :=
  foldl (fun st c => after c st) st calls.

(** The rules passed to [add_rule], in the order of the calls. *)
Definition added (calls : list call) : list NotificationRule :=
  flat_map (fun c => match c with CallAddRule rule => [rule] | _ => [] end) calls.

Lemma after_all_rules_history (calls : list call) :
  forall st : State,
    rules (system (after_all calls st)) = rules (system st) ++ added calls
    /\ (notification_history (system st) = [] ->
        notification_history (system (after_all calls st)) = []).
Proof.
  induction calls as [|c calls IH]; intros st.
  - simpl. by rewrite app_nil_r.
  - cbn [after_all foldl added flat_map]. fold (after_all calls (after c st)).
    fold (added calls).
    destruct (IH (after c st)) as [Hr Hh]. rewrite Hr.
    assert (Hc : rules (system (after c st))
                 = rules (system st)
                   ++ match c with CallAddRule rule => [rule] | _ => [] end
                 /\ (notification_history (system st) = [] ->
                     notification_history (system (after c st)) = [])).
    { destruct c as [rule|trs cr|ch msg o|limit|]; cbn [after].
      - split; [reflexivity | by intros H].
      - pose proof (keeps_send_results trs cr st) as H. unfold settings in H.
        injection H as _ H2 H3. rewrite H2, H3, app_nil_r. by split.
      - pose proof (keeps_send_custom ch msg o st) as H. unfold records in H.
        injection H as H1 H2 _. rewrite H1, H2, app_nil_r. by split.
      - cbn. rewrite app_nil_r. by split.
      - cbn. rewrite app_nil_r. by split. }
    destruct Hc as [Hcr Hch]. rewrite Hcr, <- app_assoc. split; [reflexivity|].
    intros H. apply Hh, Hch, H.
Qed.

(** X13: no method records a notification in the history.  After any
    sequence of calls of add_rule, send_test_results_notification,
    send_custom_notification, get_notification_history and clear_history on
    a new NotificationSystem, the history is empty and
    get_notification_history returns the empty list for every limit,
    whatever was sent; the rules are the three default rules followed by the
    rules added, in the order of the calls. *)
Theorem history_is_never_recorded (cfg : Config) (calls : list call) (limit : Z) :
  let st := after_all calls {| system := new_system cfg; ticks := 0; trace := [] |} in
  notification_history (system st) = []
  /\ (get_notification_history limit st).1 = Ok []
  /\ rules (system st) = default_rules ++ added calls.
Proof.
  cbn zeta.
  destruct (after_all_rules_history calls
              {| system := new_system cfg; ticks := 0; trace := [] |}) as [Hr Hh].
  specialize (Hh eq_refl). repeat split.
  - exact Hh.
  - unfold get_notification_history, bindM, self, ret. cbn [fst].
    rewrite Hh. unfold slice_from. by rewrite skipn_nil.
  - exact Hr.
Qed.

(** X14: get_notification_history returns the entries of the last limit
    notifications of the history, oldest first, and leaves the object as it
    is; with limit 0 the slice [-0:] is the whole history, not the empty
    list, and a negative limit drops the first -limit notifications. *)
Theorem notification_history_limit (limit : Z) (st : State) :
  let out := get_notification_history limit st in
  let history := notification_history (system st) in
  out.2 = st
  /\ exists entries,
       out.1 = Ok entries
       /\ (exists older, map history_entry history = older ++ entries)
       /\ len entries
          = (if (0 <? limit)%Z then Z.min limit (len history)
             else Z.max 0 (len history + limit))
       /\ (limit = 0%Z -> entries = map history_entry history).
Proof.
  cbn zeta. split; [reflexivity|].
  unfold get_notification_history, bindM, self, ret. cbn [fst].
  eexists. split; [reflexivity|].
  unfold slice_from.
  set (history := notification_history (system st)).
  set (start := Z.to_nat (if (- limit <? 0)%Z then Z.max (- limit + len history) 0
                          else Z.min (- limit) (len history))).
  split; [|split].
  - exists (map history_entry (firstn start history)).
    by rewrite <- map_app, firstn_skipn.
  - unfold len. rewrite length_map, length_skipn. unfold start, len.
    destruct (0 <? limit)%Z eqn:E1, (- limit <? 0)%Z eqn:E2; lia.
  - intros ->.
    assert (Hs : start = 0%nat) by (unfold start, len; simpl; lia).
    rewrite Hs. reflexivity.
Qed.


(** X16: the rate limit, as a round trip.  A rule without an entry in the
    rate-limit map is sent; when the delivery succeeds the time that
    _record_notification reads is stored under the name of the rule: it is
    the read of the clock after the three of the rate limit, the template
    and the result, and after those of the transport.  A second pass over
    the same rule before rate_limit_minutes have elapsed since then sends
    nothing: the result is empty, nothing is handed to a transport and the
    object is unchanged. *)
Theorem rate_limit_round_trip (rule : NotificationRule)
    (summary : gmap string value) (test_results : list TestDict) (st : State)
    (text : string) (error : option string) (reads : nat) (elapsed : Z) :
  last_notification_times (system st) !! rule_name rule = None ->
  render (template rule) summary test_results (clock (S (ticks st))) = inl text ->
  deliver (config (system st)) (channel rule) text (rule_name rule)
          (fun k => clock (k + S (S (ticks st))))
  = ((true, error), reads) ->
  sub_datetime (clock (4 + reads + ticks st)) (clock (3 + reads + ticks st))
  = Some elapsed ->
  (elapsed < rate_limit_minutes rule * 60 * 1000000)%Z ->
  let first := send_loop clock render deliver [rule] summary test_results st in
  let second := send_loop clock render deliver [rule] summary test_results first.2 in
  (exists r, first.1 = Ok [r] /\ success r = true
             /\ result_timestamp r = clock (2 + reads + ticks st))
  /\ trace first.2 = trace st ++ [Delivery (rule_name rule) (channel rule) text]
  /\ last_notification_times (system first.2) !! rule_name rule
     = Some (clock (3 + reads + ticks st))
  /\ ticks first.2 = 4 + reads + ticks st
  /\ second.1 = Ok []
  /\ trace second.2 = trace first.2
  /\ system second.2 = system first.2.
Proof.
  intros Hnone Hrender Hsent Hdiff Hlt. cbn zeta.
  destruct st as [sys t tr]. cbn [system ticks trace] in *.
  assert (Hfirst :
    send_loop clock render deliver [rule] summary test_results
      {| system := sys; ticks := t; trace := tr |}
    = (Ok [ {| success := true;
               result_channel := channel_value (channel rule);
               result_message := Some "Notification sent successfully";
               result_timestamp := clock (2 + reads + t);
               result_error_details := None |} ],
       {| system :=
            {| config := config sys; rules := rules sys;
               notification_history := notification_history sys;
               last_notification_times :=
                 <[rule_name rule := clock (3 + reads + t)]>
                   (last_notification_times sys) |};
          ticks := 4 + reads + t;
          trace := tr ++ [Delivery (rule_name rule) (channel rule) text] |})).
  { cbn [send_loop]. unfold _should_send_notification, _send_notification,
      _record_notification, bindM, self, ret, now, log, lift, transport.
    cbn [system ticks trace]. rewrite Hnone.
    cbn [system ticks trace]. rewrite Hrender.
    cbn [system ticks trace]. rewrite Hsent.
    cbn [system ticks trace success].
    replace (reads + S (S t)) with (2 + reads + t) by lia.
    replace (S (2 + reads + t)) with (3 + reads + t) by lia.
    replace (S (3 + reads + t)) with (4 + reads + t) by lia.
    reflexivity. }
  rewrite Hfirst. cbn [fst snd].
  match goal with
  | |- context [send_loop _ _ _ _ _ _ ?s] => set (st1 := s)
  end.
  assert (Hsecond :
    send_loop clock render deliver [rule] summary test_results st1
    = (Ok [], {| system := system st1; ticks := S (ticks st1); trace := trace st1 |})).
  { unfold st1. cbn [send_loop].
    unfold _should_send_notification, bindM, self, ret, now, lift.
    cbn [system ticks trace last_notification_times].
    rewrite lookup_insert_eq, Hdiff.
    apply Z.ltb_lt in Hlt. rewrite Hlt. reflexivity. }
  rewrite Hsecond. unfold st1.
  cbn [fst snd system trace ticks last_notification_times].
  rewrite lookup_insert_eq. repeat split. by eexists.
Qed.

End SendingExtra.

End NotificationExtra.

(** ** Rates and comparisons of floats *)
Module RateFacts.
Import Py NumFacts.

Ltac q2z :=
  unfold truediv, Qdiv, Qmult, Qinv, Qle, Qlt, inject_Z;
  cbn [Qnum Qden Pos.mul]; rewrite ?Pos2Z.inj_mul.

Lemma truediv_ge (n : Z) (d : positive) (f t : Z) :
  (0 < t)%Z -> ((n # d) <= truediv f t)%Q <-> (n * t <= Z.pos d * f)%Z.
Proof. intros Ht. destruct t as [|t|t]; try lia. q2z. split; intros; nia. Qed.

Lemma truediv_le (n : Z) (d : positive) (f t : Z) :
  (0 < t)%Z -> (truediv f t <= (n # d))%Q <-> (Z.pos d * f <= n * t)%Z.
Proof. intros Ht. destruct t as [|t|t]; try lia. q2z. split; intros; nia. Qed.

Lemma rate_ge_iff (c p t : Z) :
  (0 < t)%Z -> (inject_Z c <= truediv p t * 100)%Q <-> (c * t <= 100 * p)%Z.
Proof. intros Ht. destruct t as [|t|t]; try lia. q2z. split; intros; nia. Qed.

Lemma rate_le_iff (c p t : Z) :
  (0 < t)%Z -> (truediv p t * 100 <= inject_Z c)%Q <-> (100 * p <= c * t)%Z.
Proof. intros Ht. destruct t as [|t|t]; try lia. q2z. split; intros; nia. Qed.

Lemma fifth_ge (f t : Z) :
  (inject_Z f <= inject_Z t * (2 # 10))%Q <-> (5 * f <= t)%Z.
Proof. q2z. lia. Qed.

Lemma Qle_bool_false (x y : Q) : Qle_bool x y = false -> (y < x)%Q.
Proof. intros H. apply Qltb_lt. unfold Qltb. by rewrite H. Qed.

(** Turns the comparisons of floats among the hypotheses into
    propositions. *)
Ltac to_prop :=
  repeat match goal with
  | H : Qle_bool _ _ = true |- _ => apply Qle_bool_iff in H
  | H : Qle_bool _ _ = false |- _ => apply Qle_bool_false in H
  | H : Qltb _ _ = true |- _ => apply Qltb_lt in H
  | H : Qltb _ _ = false |- _ => apply Qltb_ge in H
  end.

Lemma min2_spec (a b : Q) :
  ((b < a)%Q /\ min2 a b = b) \/ ((a <= b)%Q /\ min2 a b = a).
Proof.
  unfold min2. destruct (Qltb b a) eqn:E; to_prop; [left | right]; by split.
Qed.

Lemma max2_spec (a b : Q) :
  ((a < b)%Q /\ max2 a b = b) \/ ((b <= a)%Q /\ max2 a b = a).
Proof.
  unfold max2. destruct (Qltb a b) eqn:E; to_prop; [left | right]; by split.
Qed.

Lemma filter_length_le_length {A} (p : A -> bool) (l : list A) :
  (0 <= len (List.filter p l) <= len l)%Z.
Proof.
  unfold len. pose proof (AggregatorExtra.filter_length_bound p l). lia.
Qed.

Lemma filter_nil_iff {A} (p : A -> bool) (l : list A) :
  List.filter p l = [] <-> Forall (fun x => p x = false) l.
Proof.
  split.
  - induction l as [|x l IH]; simpl; [constructor|].
    destruct (p x) eqn:E; [discriminate|]. intros H. constructor; auto.
  - apply AggregatorExtra.filter_none.
Qed.

Lemma len_pos {A} (x : A) (l : list A) : (0 < len (x :: l))%Z.
Proof. unfold len. simpl. lia. Qed.

End RateFacts.

(** ** Helpers of the metrics and of the analysis *)
Module ScoreFacts.
Import Py PyFacts Dicts NumFacts MapFacts RateFacts.

(** *** The histogram of durations *)

Definition bucket_labels : list string :=
  ["0-1s"; "1-5s"; "5-10s"; "10-30s"; "30-60s"; "60s+"].

Definition is_label (k : string) : bool := existsb (String.eqb k) bucket_labels.

(** How many durations fall under the key [k]. *)
Definition in_bucket (k : string) (durations : list Q) : Z :=
  len (List.filter (fun d => String.eqb (bucket_key d) k) durations).

Lemma empty_buckets_lookup (k : string) :
  empty_buckets !! k = if is_label k then Some 0%Z else None.
Proof.
  unfold empty_buckets, is_label, bucket_labels.
  cbn [list_to_map foldr fst snd existsb].
  repeat (rewrite lookup_insert;
          let H := fresh "H" in
          case_decide as H;
          [ subst k; reflexivity
          | rewrite (proj2 (String.eqb_neq _ _)) by congruence; cbn [orb] ]).
  by rewrite lookup_empty.
Qed.

Lemma bucket_key_label (d : Q) : is_label (bucket_key d) = true.
Proof.
  unfold bucket_key.
  destruct (Qle_bool d 1); [reflexivity|].
  destruct (Qle_bool d 5); [reflexivity|].
  destruct (Qle_bool d 10); [reflexivity|].
  destruct (Qle_bool d 30); [reflexivity|].
  destruct (Qle_bool d 60); reflexivity.
Qed.

Lemma duration_buckets_snoc (durations : list Q) (d : Q) :
  duration_buckets (durations ++ [d]) = count_duration (duration_buckets durations) d.
Proof. unfold duration_buckets. by rewrite foldl_app. Qed.

Lemma in_bucket_snoc (k : string) (durations : list Q) (d : Q) :
  in_bucket k (durations ++ [d])
  = (in_bucket k durations + if String.eqb (bucket_key d) k then 1 else 0)%Z.
Proof.
  unfold in_bucket, len. rewrite List.filter_app, length_app. simpl.
  destruct (String.eqb (bucket_key d) k); simpl; lia.
Qed.

Lemma duration_buckets_lookup (durations : list Q) (k : string) :
  duration_buckets durations !! k
  = if is_label k then Some (in_bucket k durations) else None.
Proof.
  induction durations as [|d durations IH] using rev_ind.
  - apply empty_buckets_lookup.
  - rewrite duration_buckets_snoc, in_bucket_snoc. unfold count_duration.
    destruct (String.eqb (bucket_key d) k) eqn:E.
    + apply String.eqb_eq in E. subst k.
      rewrite lookup_insert_eq. unfold dict_get. rewrite IH.
      rewrite bucket_key_label. reflexivity.
    + apply String.eqb_neq in E. rewrite lookup_insert_ne by exact E.
      rewrite IH, Z.add_0_r. reflexivity.
Qed.

Lemma duration_buckets_total (durations : list Q) :
  map_sum (fun v => v) (duration_buckets durations) = len durations.
Proof.
  induction durations as [|d durations IH] using rev_ind.
  - unfold duration_buckets, empty_buckets. cbn [foldl list_to_map foldr fst snd].
    rewrite !map_sum_insert, map_sum_empty.
    repeat (rewrite lookup_insert; case_decide; [discriminate|]).
    rewrite !lookup_empty. reflexivity.
  - rewrite duration_buckets_snoc. unfold count_duration.
    rewrite map_sum_insert, IH. unfold dict_get.
    rewrite duration_buckets_lookup, bucket_key_label.
    unfold len. rewrite length_app. simpl. lia.
Qed.

(** The chain of comparisons, as intervals. *)
Lemma bucket_key_intervals (d : Q) :
  String.eqb (bucket_key d) "0-1s" = Qle_bool d 1
  /\ String.eqb (bucket_key d) "1-5s" = Qltb 1 d && Qle_bool d 5
  /\ String.eqb (bucket_key d) "5-10s" = Qltb 5 d && Qle_bool d 10
  /\ String.eqb (bucket_key d) "10-30s" = Qltb 10 d && Qle_bool d 30
  /\ String.eqb (bucket_key d) "30-60s" = Qltb 30 d && Qle_bool d 60
  /\ String.eqb (bucket_key d) "60s+" = Qltb 60 d.
Proof.
  unfold bucket_key, Qltb.
  destruct (Qle_bool d 1) eqn:E1; destruct (Qle_bool d 5) eqn:E5;
  destruct (Qle_bool d 10) eqn:E10; destruct (Qle_bool d 30) eqn:E30;
  destruct (Qle_bool d 60) eqn:E60;
    try (repeat split; reflexivity);
    exfalso; to_prop; lra.
Qed.

Lemma filter_ext_length {A} (p q : A -> bool) (l : list A) :
  (forall x, p x = q x) -> len (List.filter p l) = len (List.filter q l).
Proof.
  intros H. unfold len. f_equal.
  induction l as [|x l IH]; simpl; [reflexivity|].
  rewrite H. destruct (q x); simpl; by rewrite IH.
Qed.

(** X17: the histogram of durations built by
    _analyze_performance_distribution (metrics.py) and by
    _analyze_duration_distribution (analytics.py) has no bucket at all for an
    empty input; otherwise it has exactly the six buckets, every duration is
    counted in exactly one of them (the counts add up to the number of
    durations), and its bucket is the interval it lies in, upper bound
    included: at most 1, above 1 up to 5, above 5 up to 10, above 10 up to
    30, above 30 up to 60, above 60.  A missing duration counts as 0.  The
    two functions build the same histogram, and total_tests is the number
    of results. *)
Theorem duration_histogram_spec (durations : list Q) (test_results : list TestDict) :
  let count p := Some (len (List.filter p durations)) in
  let buckets := Metrics._analyze_performance_distribution durations in
  match durations with
  | [] => buckets = ∅
  | _ =>
      buckets !! "0-1s" = count (fun d => Qle_bool d 1)
      /\ buckets !! "1-5s" = count (fun d => Qltb 1 d && Qle_bool d 5)
      /\ buckets !! "5-10s" = count (fun d => Qltb 5 d && Qle_bool d 10)
      /\ buckets !! "10-30s" = count (fun d => Qltb 10 d && Qle_bool d 30)
      /\ buckets !! "30-60s" = count (fun d => Qltb 30 d && Qle_bool d 60)
      /\ buckets !! "60s+" = count (fun d => Qltb 60 d)
      /\ (forall k, is_Some (buckets !! k) <-> In k bucket_labels)
      /\ map_sum (fun v => v) buckets = len durations
  end
  /\ match Analytics._analyze_duration_distribution test_results with
     | None => test_results = []
     | Some (distribution, total_tests) =>
         distribution
         = Metrics._analyze_performance_distribution (map duration_of test_results)
         /\ total_tests = len test_results
     end.
Proof.
  cbn zeta. split.
  - destruct durations as [|d0 ds] eqn:E; [reflexivity|]. rewrite <- E.
    assert (Hb : Metrics._analyze_performance_distribution durations
                 = duration_buckets durations) by (by rewrite E).
    rewrite Hb, !duration_buckets_lookup. cbn [is_label bucket_labels existsb].
    cbn [String.eqb Ascii.eqb Bool.eqb orb andb].
    unfold in_bucket.
    repeat split.
    + f_equal. apply filter_ext_length. intros d. apply bucket_key_intervals.
    + f_equal. apply filter_ext_length. intros d. apply bucket_key_intervals.
    + f_equal. apply filter_ext_length. intros d. apply bucket_key_intervals.
    + f_equal. apply filter_ext_length. intros d. apply bucket_key_intervals.
    + f_equal. apply filter_ext_length. intros d. apply bucket_key_intervals.
    + f_equal. apply filter_ext_length. intros d. apply bucket_key_intervals.
    + rewrite duration_buckets_lookup. intros [v Hv].
      destruct (is_label k) eqn:El; [|discriminate].
      unfold is_label in El. apply existsb_exists in El as [x [Hx Hk]].
      apply String.eqb_eq in Hk. by subst x.
    + rewrite duration_buckets_lookup. intros Hk.
      assert (El : is_label k = true).
      { unfold is_label. apply existsb_exists. exists k. split; [exact Hk|].
        apply String.eqb_refl. }
      rewrite El. by eexists.
    + apply duration_buckets_total.
  - unfold Analytics._analyze_duration_distribution.
    destruct test_results as [|r rest]; [reflexivity|].
    cbn [map]. split; [reflexivity|].
    unfold len. simpl. by rewrite length_map.
Qed.

(** *** Scores *)

Definition passed_of (test_results : list TestDict) : Z :=
  len (List.filter (status_is "PASSED") test_results).

Definition failed_of (test_results : list TestDict) : Z :=
  len (List.filter (status_is "FAILED") test_results).

Lemma base_score_range (test_results : list TestDict) :
  (0 < len test_results)%Z ->
  (0 <= truediv (passed_of test_results) (len test_results) * 100)%Q
  /\ (truediv (passed_of test_results) (len test_results) * 100 <= 100)%Q.
Proof.
  intros Ht. pose proof (filter_length_le_length (status_is "PASSED") test_results).
  split.
  - apply (rate_ge_iff 0); unfold passed_of; lia.
  - apply (rate_le_iff 100); unfold passed_of; lia.
Qed.

(** X18: the reliability score of the metrics and the overall quality score
    of the analysis are the same number: 0 without results, and otherwise
    the pass rate plus a bonus of 5, capped at 100.  With results it lies
    between 5 and 100, and it is 100 exactly when at least 95% of the
    results have status 'PASSED': from 95% on, the score no longer tells
    runs apart. *)
Theorem reliability_score_range (test_results : list TestDict) :
  let score := Metrics._calculate_reliability_score test_results in
  let total := len test_results in
  let passed := passed_of test_results in
  Analytics._calculate_quality_score test_results = score
  /\ match test_results with
     | [] => score = 0%Q
     | _ =>
         (5 <= score)%Q /\ (score <= 100)%Q
         /\ ((score == 100)%Q <-> (95 * total <= 100 * passed)%Z)
         /\ ((100 * passed < 95 * total)%Z ->
             (score == truediv passed total * 100 + 5)%Q)
     end.
Proof.
  cbn zeta. destruct test_results as [|r rest] eqn:E; [split; reflexivity|].
  rewrite <- E.
  assert (Ht : (0 < len test_results)%Z) by (rewrite E; apply len_pos).
  assert (Hs : Metrics._calculate_reliability_score test_results
               = min2 100 (truediv (passed_of test_results) (len test_results) * 100 + 5)).
  { rewrite E at 1. unfold Metrics._calculate_reliability_score. rewrite <- E.
    apply Z.ltb_lt in Ht. rewrite Ht. reflexivity. }
  split.
  { rewrite Hs. rewrite E at 1. unfold Analytics._calculate_quality_score.
    rewrite <- E. reflexivity. }
  rewrite Hs.
  destruct (base_score_range test_results Ht) as [H0 H100].
  pose proof (rate_ge_iff 95 (passed_of test_results) (len test_results) Ht) as H95.
  change (inject_Z 95) with 95%Q in H95.
  set (base := (truediv (passed_of test_results) (len test_results) * 100)%Q) in *.
  destruct (min2_spec 100 (base + 5)) as [[Hlt ->]|[Hge ->]].
  - repeat split; try lra.
    intros Hz. apply H95 in Hz. exfalso. lra.
  - repeat split; try lra.
    + intros _. apply H95. lra.
    + intros Hz. exfalso. apply Z.lt_nge in Hz. apply Hz, H95. lra.
Qed.

(** X19: the test effectiveness lies between 0 and 100, and it is 0
    without results.  With results it is 100 when 5% to 15% of the results
    have status 'FAILED'; a run without any failure scores 70, a run with
    some but less than 5% failures scores strictly between 70 and 100,
    above 15% the score is below 100, and from 65% failures on it is 0. *)
Theorem test_effectiveness_range (test_results : list TestDict) :
  let score := Analytics._calculate_test_effectiveness test_results in
  let total := len test_results in
  let failed := failed_of test_results in
  (0 <= score)%Q /\ (score <= 100)%Q
  /\ match test_results with
     | [] => score = 0%Q
     | _ =>
         ((5 * total <= 100 * failed <= 15 * total)%Z -> (score == 100)%Q)
         /\ (failed = 0%Z -> (score == 70)%Q)
         /\ ((0 < 100 * failed < 5 * total)%Z -> (70 < score)%Q /\ (score < 100)%Q)
         /\ ((15 * total < 100 * failed)%Z -> (score < 100)%Q)
         /\ ((65 * total <= 100 * failed)%Z -> (score == 0)%Q)
     end.
Proof.
  cbn zeta. destruct test_results as [|r rest] eqn:E.
  { repeat split; try reflexivity; by vm_compute. }
  rewrite <- E.
  assert (Ht : (0 < len test_results)%Z) by (rewrite E; apply len_pos).
  pose proof (filter_length_le_length (status_is "FAILED") test_results) as Hf.
  fold (failed_of test_results) in Hf.
  assert (Hs : Analytics._calculate_test_effectiveness test_results
               = let failure_rate := truediv (failed_of test_results) (len test_results) in
                 min2 100
                   (if Qle_bool (5 # 100) failure_rate && Qle_bool failure_rate (15 # 100)
                    then 100%Q
                    else if Qltb failure_rate (5 # 100)
                    then (70 + (failure_rate / (5 # 100)) * 30)%Q
                    else max2 0 (100 - (failure_rate - (15 # 100)) * 200)%Q)).
  { rewrite E at 1. unfold Analytics._calculate_test_effectiveness. rewrite <- E.
    destruct (len test_results =? 0)%Z eqn:E0; [lia | reflexivity]. }
  rewrite Hs. cbn zeta. clear Hs.
  pose proof (truediv_ge 0 1 (failed_of test_results) (len test_results) Ht) as R0.
  pose proof (truediv_le 1 1 (failed_of test_results) (len test_results) Ht) as R1.
  pose proof (truediv_ge 5 100 (failed_of test_results) (len test_results) Ht) as G5.
  pose proof (truediv_le 15 100 (failed_of test_results) (len test_results) Ht) as L15.
  pose proof (truediv_ge 65 100 (failed_of test_results) (len test_results) Ht) as G65.
  pose proof (truediv_le 0 1 (failed_of test_results) (len test_results) Ht) as L0.
  set (total := len test_results) in *.
  set (failed := failed_of test_results) in *.
  set (rate := truediv failed total) in *.
  assert (Hr0 : (0 <= rate)%Q) by (apply R0; lia).
  assert (Hr1 : (rate <= 1)%Q) by (apply R1; lia).
  assert (I1 : (5 * total <= 100 * failed <= 15 * total)%Z ->
               ((5 # 100) <= rate)%Q /\ (rate <= (15 # 100))%Q).
  { intros Hz. split; [apply G5 | apply L15]; lia. }
  assert (I2 : failed = 0%Z -> (rate <= 0)%Q).
  { intros Hz. apply L0. lia. }
  assert (I3 : (0 < 100 * failed < 5 * total)%Z ->
               (0 < rate)%Q /\ (rate < (5 # 100))%Q).
  { intros Hz. split; apply Qnot_le_lt; intros Hq.
    - apply L0 in Hq. lia.
    - apply G5 in Hq. lia. }
  assert (I4 : (15 * total < 100 * failed)%Z -> ((15 # 100) < rate)%Q).
  { intros Hz. apply Qnot_le_lt. intros Hq. apply L15 in Hq. lia. }
  assert (I5 : (65 * total <= 100 * failed)%Z -> ((65 # 100) <= rate)%Q).
  { intros Hz. apply G65. lia. }
  clear R0 R1 G5 L15 G65 L0.
  unfold Qdiv. change (/ (5 # 100))%Q with (100 # 5)%Q.
  destruct (Qle_bool (5 # 100) rate) eqn:C1;
  destruct (Qle_bool rate (15 # 100)) eqn:C2;
  destruct (Qltb rate (5 # 100)) eqn:C3; cbn [andb]; to_prop;
  try (exfalso; lra).
  all: match goal with
       | |- context [min2 100 ?x] =>
           destruct (min2_spec 100 x) as [[Hm Es]|[Hm Es]]; rewrite Es; clear Es
       end.
  all: try match goal with
       | |- context [max2 0 ?y] =>
           destruct (max2_spec 0 y) as [[Hx Ey]|[Hx Ey]]; rewrite Ey in *; clear Ey
       end.
  all: try match goal with
       | H : context [max2 0 ?y] |- _ =>
           destruct (max2_spec 0 y) as [[Hx Ey]|[Hx Ey]]; rewrite Ey in *; clear Ey
       end.
  all: split; [lra|]; split; [lra|];
       split; [intros Hz; apply I1 in Hz; lra|];
       split; [intros Hz; apply I2 in Hz; lra|];
       split; [intros Hz; apply I3 in Hz; lra|];
       split; [intros Hz; apply I4 in Hz; lra | intros Hz; apply I5 in Hz; lra].
Qed.

(** *** Recommendations *)

Definition slow_of (test_results : list TestDict) : list TestDict :=
  List.filter (fun r => Qltb 30 (duration_of r)) test_results.

(** X20: _generate_quality_recommendations never returns an empty list and
    never more than three recommendations.  With results, the single
    recommendation 'Test quality is good. ...' is returned exactly when the
    pass rate is between 80 and 95 (bounds included), no test takes more
    than 30 seconds and at most 20% of the results have status 'FAILED';
    without results the list holds the one text about missing results. *)
Theorem quality_recommendations_spec (test_results : list TestDict) :
  let recommendations := Analytics._generate_quality_recommendations test_results in
  let total := len test_results in
  recommendations <> []
  /\ (length recommendations <= 3)%nat
  /\ match test_results with
     | [] => recommendations = ["No test results available for analysis"]
     | _ =>
         recommendations = [Analytics.quality_good]
         <-> (80 * total <= 100 * passed_of test_results)%Z
             /\ (100 * passed_of test_results <= 95 * total)%Z
             /\ Forall (fun r => (duration_of r <= 30)%Q) test_results
             /\ (5 * failed_of test_results <= total)%Z
     end.
Proof.
  cbn zeta. destruct test_results as [|r rest] eqn:E.
  { repeat split; [discriminate | simpl; lia]. }
  rewrite <- E.
  assert (Ht : (0 < len test_results)%Z) by (rewrite E; apply len_pos).
  assert (Hs : Analytics._generate_quality_recommendations test_results
    = let pass_rate := (truediv (passed_of test_results) (len test_results) * 100)%Q in
      let recommendations :=
        (if Qltb pass_rate 80 then
           ["Test quality is below acceptable threshold. Review failed tests and fix underlying issues."]
         else [])
        ++ (if Qltb 95 pass_rate then
              ["Test quality is excellent. Consider increasing test coverage or complexity."]
            else [])
        ++ (match slow_of test_results with
            | [] => []
            | _ =>
                [String.append "Found "
                   (String.append (str_of_Z (len (slow_of test_results)))
                      " slow tests (>30s). Consider optimization.")]
            end)
        ++ (if Qltb (inject_Z (len test_results) * (2 # 10))
                    (inject_Z (failed_of test_results)) then
              ["High failure rate detected. Review test environment and stability."]
            else []) in
      match recommendations with
      | [] => [Analytics.quality_good]
      | _ => recommendations
      end).
  { rewrite E at 1. unfold Analytics._generate_quality_recommendations.
    rewrite <- E. apply Z.ltb_lt in Ht. rewrite Ht. cbn zeta.
    fold (passed_of test_results) (failed_of test_results) (slow_of test_results).
    destruct (Qltb (truediv (passed_of test_results) (len test_results) * 100) 80);
    destruct (Qltb 95 (truediv (passed_of test_results) (len test_results) * 100));
    destruct (slow_of test_results);
    destruct (Qltb (inject_Z (len test_results) * (2 # 10))
                   (inject_Z (failed_of test_results)));
      reflexivity. }
  rewrite Hs. cbn zeta. clear Hs.
  pose proof (rate_ge_iff 80 (passed_of test_results) (len test_results) Ht) as H80.
  pose proof (rate_le_iff 95 (passed_of test_results) (len test_results) Ht) as H95.
  change (inject_Z 80) with 80%Q in H80. change (inject_Z 95) with 95%Q in H95.
  pose proof (fifth_ge (failed_of test_results) (len test_results)) as H20.
  assert (Hslow : slow_of test_results = []
                  <-> Forall (fun r => (duration_of r <= 30)%Q) test_results).
  { unfold slow_of. rewrite filter_nil_iff. apply Forall_iff. intros x.
    apply Qltb_ge. }
  set (pass_rate := (truediv (passed_of test_results) (len test_results) * 100)%Q) in *.
  destruct (Qltb pass_rate 80) eqn:C1; destruct (Qltb 95 pass_rate) eqn:C2;
  destruct (slow_of test_results) as [|s0 slow] eqn:C3;
  destruct (Qltb (inject_Z (len test_results) * (2 # 10))
                 (inject_Z (failed_of test_results))) eqn:C4;
    to_prop; try (exfalso; lra);
    cbn [app String.append];
    (split; [discriminate|]); (split; [simpl; lia|]);
    (split;
     [ first
         [ discriminate
         | intros _; repeat split;
           [ apply H80; lra | apply H95; lra | by apply Hslow | apply H20; lra ] ]
     | intros (Ha & Hb & Hc & Hd); try reflexivity; exfalso;
       try (apply H80 in Ha; lra);
       try (apply H95 in Hb; lra);
       try (apply Hslow in Hc; discriminate Hc);
       try (apply H20 in Hd; lra) ]).
Qed.

(** *** The KPI summary *)

Lemma recommendations_fold (status : list (string * string)) :
  forall acc : list string,
    foldl (fun recommendations kv =>
             recommendations ++ Metrics.recommendation_for (fst kv) (snd kv))
          acc status
    = acc ++ flat_map (fun kv => Metrics.recommendation_for (fst kv) (snd kv)) status.
Proof.
  induction status as [|kv status IH]; intros acc; simpl.
  - by rewrite app_nil_r.
  - by rewrite IH, app_assoc.
Qed.

(** Nothing is recommended for a KPI other than the pass rate, the
    performance and the coverage, whatever its status. *)
Lemma recommendation_for_other (kpi kpi_status : string) :
  kpi <> "test_pass_rate" -> kpi <> "test_performance" -> kpi <> "test_coverage" ->
  Metrics.recommendation_for kpi kpi_status = [].
Proof.
  intros H1 H2 H3. unfold Metrics.recommendation_for.
  apply String.eqb_neq in H1, H2, H3. rewrite H1, H2, H3.
  destruct (String.eqb kpi_status "critical"); [reflexivity|].
  destruct (String.eqb kpi_status "needs_improvement"); reflexivity.
Qed.

(** X21: _generate_recommendations never returns an empty list.  On the
    five KPIs of calculate_kpi_summary, _assess_kpi_status gives a status to
    each KPI in the same order, and the recommendations are the single text
    'All KPIs are performing well. ...' exactly when the pass rate is at
    least 85, the mean duration at most 10 and the coverage score at least
    60: the reliability and the execution efficiency have no part in it,
    so a reliability that 'needs_improvement' is reported as performing
    well.  There are never more than three recommendations. *)
Theorem kpi_recommendations_spec (pass_rate reliability performance coverage
    efficiency : Q) :
  (forall kpis status, Metrics._generate_recommendations kpis status <> [])
  /\ let kpis :=
       [("test_pass_rate", pass_rate); ("test_reliability", reliability);
        ("test_performance", performance); ("test_coverage", coverage);
        ("execution_efficiency", efficiency)] in
     let status := Metrics._assess_kpi_status kpis in
     let recommendations := Metrics._generate_recommendations kpis status in
     map fst status = map fst kpis
     /\ (length recommendations <= 3)%nat
     /\ (recommendations = [Metrics.all_kpis_well]
         <-> (85 <= pass_rate)%Q /\ (performance <= 10)%Q /\ (60 <= coverage)%Q)
     /\ ((reliability < 80)%Q ->
         In ("test_reliability", "needs_improvement") status).
Proof.
  split.
  { intros kpis status. unfold Metrics._generate_recommendations.
    destruct (foldl _ [] status); discriminate. }
  cbn zeta. unfold Metrics._generate_recommendations.
  rewrite recommendations_fold.
  unfold Metrics._assess_kpi_status.
  cbn [foldl dict_set fst snd String.eqb Ascii.eqb Bool.eqb flat_map app map].
  rewrite (recommendation_for_other "test_reliability") by discriminate.
  rewrite (recommendation_for_other "execution_efficiency") by discriminate.
  split; [reflexivity|].
  unfold Metrics.kpi_status.
  cbn [String.eqb Ascii.eqb Bool.eqb].
  assert (Hrel : (reliability < 80)%Q ->
                 (if Qle_bool 90 reliability then "excellent"
                  else if Qle_bool 80 reliability then "good"
                  else "needs_improvement") = "needs_improvement").
  { intros Hr.
    destruct (Qle_bool 90 reliability) eqn:R1; destruct (Qle_bool 80 reliability) eqn:R2;
      to_prop; try reflexivity; exfalso; lra. }
  destruct (Qle_bool 95 pass_rate) eqn:P1; destruct (Qle_bool 85 pass_rate) eqn:P2;
  destruct (Qle_bool 70 pass_rate) eqn:P3;
  destruct (Qle_bool performance 5) eqn:T1; destruct (Qle_bool performance 10) eqn:T2;
  destruct (Qle_bool performance 20) eqn:T3;
  destruct (Qle_bool 80 coverage) eqn:C1; destruct (Qle_bool 60 coverage) eqn:C2;
    to_prop; try (exfalso; lra);
    cbn [Metrics.recommendation_for String.eqb Ascii.eqb Bool.eqb app length];
    (split; [lia|]);
    (split;
     [ split;
       [ first [discriminate | intros _; repeat split; lra]
       | intros (Ha & Hb & Hc); try reflexivity; exfalso; lra ]
     | intros Hr; rewrite (Hrel Hr); cbn [In]; tauto ]).
Qed.

(** *** [_identify_priority_actions] *)

Definition actions_of (kpi_status : string) (status : list (string * string))
  : list Metrics.PriorityAction :=
  flat_map (fun kv => if String.eqb (snd kv) kpi_status
                      then Metrics.action_for (fst kv) (snd kv) else [])
           status.

Local Abbreviation rank_of :=
  (fun x : Metrics.PriorityAction => Metrics.priority_order (Metrics.action_priority x)).

Lemma insert_high (x : Metrics.PriorityAction) (l : list Metrics.PriorityAction) :
  rank_of x = 3%Z -> Forall (fun y => (rank_of y <= 3)%Z) l ->
  insert_sorted rank_of Z.ltb true x l = x :: l.
Proof.
  intros Hx Hl. destruct l as [|y l]; [reflexivity|].
  cbn [insert_sorted]. unfold goes_first.
  apply Forall_cons in Hl as [Hy _].
  destruct (Z.ltb_spec (rank_of x) (rank_of y)); [lia | reflexivity].
Qed.

Lemma insert_medium (x : Metrics.PriorityAction)
    (highs mediums : list Metrics.PriorityAction) :
  rank_of x = 2%Z ->
  Forall (fun y => rank_of y = 3%Z) highs ->
  Forall (fun y => rank_of y = 2%Z) mediums ->
  insert_sorted rank_of Z.ltb true x (highs ++ mediums) = highs ++ x :: mediums.
Proof.
  intros Hx Hh Hm. induction Hh as [|y highs Hy _ IH]; cbn [app].
  - destruct mediums as [|y mediums]; [reflexivity|].
    cbn [insert_sorted]. unfold goes_first.
    apply Forall_cons in Hm as [Hy _].
    destruct (Z.ltb_spec (rank_of x) (rank_of y)); [lia | reflexivity].
  - cbn [insert_sorted]. unfold goes_first at 1.
    destruct (Z.ltb_spec (rank_of x) (rank_of y)); [|lia].
    by rewrite IH.
Qed.

Definition is_high (x : Metrics.PriorityAction) : bool :=
  String.eqb (Metrics.action_priority x) "high".

Definition is_medium (x : Metrics.PriorityAction) : bool :=
  String.eqb (Metrics.action_priority x) "medium".

(** A stable descending sort of actions that are all high or medium puts
    the high ones first and keeps the order inside both groups. *)
Lemma sorted_high_medium (l : list Metrics.PriorityAction) :
  Forall (fun x => Metrics.action_priority x = "high"
                   \/ Metrics.action_priority x = "medium") l ->
  sorted rank_of Z.ltb true l = List.filter is_high l ++ List.filter is_medium l.
Proof.
  induction 1 as [|x l Hx Hl IH]; [reflexivity|].
  cbn [sorted List.filter]. rewrite IH.
  assert (Hh : Forall (fun y => rank_of y = 3%Z) (List.filter is_high l)).
  { apply List.Forall_forall. intros y Hy. apply List.filter_In in Hy as [_ Hy].
    unfold is_high in Hy. apply String.eqb_eq in Hy.
    unfold Metrics.priority_order. by rewrite Hy. }
  assert (Hm : Forall (fun y => rank_of y = 2%Z) (List.filter is_medium l)).
  { apply List.Forall_forall. intros y Hy. apply List.filter_In in Hy as [_ Hy].
    unfold is_medium in Hy. apply String.eqb_eq in Hy.
    unfold Metrics.priority_order. by rewrite Hy. }
  destruct Hx as [Hx|Hx].
  - assert (E1 : is_high x = true) by (unfold is_high; by rewrite Hx).
    assert (E2 : is_medium x = false) by (unfold is_medium; by rewrite Hx).
    rewrite E1, E2. cbn [app]. apply insert_high.
    + unfold Metrics.priority_order. by rewrite Hx.
    + apply Forall_app. split.
      * eapply List.Forall_impl; [|exact Hh]. simpl. intros y Hy. lia.
      * eapply List.Forall_impl; [|exact Hm]. simpl. intros y Hy. lia.
  - assert (E1 : is_high x = false) by (unfold is_high; by rewrite Hx).
    assert (E2 : is_medium x = true) by (unfold is_medium; by rewrite Hx).
    rewrite E1, E2. apply insert_medium; [|exact Hh|exact Hm].
    unfold Metrics.priority_order. by rewrite Hx.
Qed.

Lemma actions_fold (status : list (string * string)) :
  forall acc : list Metrics.PriorityAction,
    foldl (fun actions kv => actions ++ Metrics.action_for (fst kv) (snd kv))
          acc status
    = acc ++ flat_map (fun kv => Metrics.action_for (fst kv) (snd kv)) status.
Proof.
  induction status as [|kv status IH]; intros acc; simpl.
  - by rewrite app_nil_r.
  - by rewrite IH, app_assoc.
Qed.

Lemma all_actions_filter (status : list (string * string)) :
  let all := flat_map (fun kv => Metrics.action_for (fst kv) (snd kv)) status in
  Forall (fun x => Metrics.action_priority x = "high"
                   \/ Metrics.action_priority x = "medium") all
  /\ List.filter is_high all = actions_of "critical" status
  /\ List.filter is_medium all = actions_of "needs_improvement" status.
Proof.
  cbn zeta. unfold actions_of.
  induction status as [|[kpi st] status (IH1 & IH2 & IH3)]; cbn [flat_map fst snd].
  - repeat split. constructor.
  - rewrite Forall_app, !List.filter_app, IH2, IH3.
    unfold Metrics.action_for.
    destruct (String.eqb st "critical") eqn:E1.
    + apply String.eqb_eq in E1. subst st.
      cbn [String.eqb Ascii.eqb Bool.eqb List.filter is_high is_medium
           Metrics.action_priority app].
      repeat split; try assumption. constructor; [by left | constructor].
    + destruct (String.eqb st "needs_improvement") eqn:E2.
      * cbn [String.eqb Ascii.eqb Bool.eqb List.filter is_high is_medium
             Metrics.action_priority app].
        repeat split; try assumption. constructor; [by right | constructor].
      * cbn [List.filter app]. repeat split; try assumption. constructor.
Qed.

(** X22: _identify_priority_actions returns at most five actions: first
    the actions for the KPIs whose status is 'critical' (priority 'high'),
    then those for the KPIs that 'needs_improvement' (priority 'medium'),
    each group in the order of the status dictionary, cut after the fifth;
    a KPI with another status gets no action. *)
Theorem priority_actions_spec (kpis : list (string * Q))
    (status : list (string * string)) :
  let actions := Metrics._identify_priority_actions kpis status in
  actions
  = firstn 5 (actions_of "critical" status ++ actions_of "needs_improvement" status)
  /\ (length actions <= 5)%nat
  /\ Forall (fun x => Metrics.action_priority x = "high") (actions_of "critical" status)
  /\ Forall (fun x => Metrics.action_priority x = "medium")
            (actions_of "needs_improvement" status)
  /\ (forall kpi, In kpi (map Metrics.action_kpi actions) ->
                  In (kpi, "critical") status \/ In (kpi, "needs_improvement") status).
Proof.
  cbn zeta. unfold Metrics._identify_priority_actions.
  rewrite actions_fold. cbn [app].
  destruct (all_actions_filter status) as (Hall & Hh & Hm).
  rewrite sorted_high_medium by exact Hall. rewrite Hh, Hm.
  rewrite slice_to_firstn by lia. change (Z.to_nat 5) with 5%nat.
  assert (Hcrit : Forall (fun x => Metrics.action_priority x = "high"
                                   /\ In (Metrics.action_kpi x, "critical") status)
                         (actions_of "critical" status)).
  { unfold actions_of. apply List.Forall_forall. intros x Hx.
    apply in_flat_map in Hx as [[kpi st] [Hin Hx]]. cbn [fst snd] in Hx.
    destruct (String.eqb st "critical") eqn:E; [|destruct Hx].
    apply String.eqb_eq in E. subst st. cbn in Hx.
    destruct Hx as [<-|[]]. by split. }
  assert (Hmed : Forall (fun x => Metrics.action_priority x = "medium"
                                  /\ In (Metrics.action_kpi x, "needs_improvement") status)
                        (actions_of "needs_improvement" status)).
  { unfold actions_of. apply List.Forall_forall. intros x Hx.
    apply in_flat_map in Hx as [[kpi st] [Hin Hx]]. cbn [fst snd] in Hx.
    destruct (String.eqb st "needs_improvement") eqn:E; [|destruct Hx].
    apply String.eqb_eq in E. subst st. cbn in Hx.
    destruct Hx as [<-|[]]. by split. }
  split; [reflexivity|]. split; [apply firstn_le_length|].
  split; [eapply List.Forall_impl; [|exact Hcrit]; by intros x [? _]|].
  split; [eapply List.Forall_impl; [|exact Hmed]; by intros x [? _]|].
  intros kpi Hin. apply in_map_iff in Hin as [x [<- Hx]].
  assert (Hx' : In x (actions_of "critical" status
                      ++ actions_of "needs_improvement" status)).
  { rewrite <- (firstn_skipn 5). apply in_or_app. by left. }
  apply in_app_or in Hx' as [Hx'|Hx'].
  - left. rewrite List.Forall_forall in Hcrit. by apply Hcrit.
  - right. rewrite List.Forall_forall in Hmed. by apply Hmed.
Qed.

End ScoreFacts.

(** ** Trends and insights of the analysis *)
Module InsightFacts.
Import Py PyFacts Dicts Analytics NumFacts MapFacts RateFacts.

Section WithDatetime.
Context `{DT : Datetime}.

(** *** [_filter_by_time_period] *)

(** The record has a timestamp that is not empty and is read by
    [fromisoformat]. *)
Definition dated (r : TestDict) : Prop :=
  exists (ts : string) (t : datetime),
    d_timestamp r = Some ts /\ ts <> EmptyString
    /\ fromisoformat (replace_Z ts) = Some t.

Lemma in_period_dated (cutoff : datetime) (r : TestDict) :
  in_period cutoff r = true -> dated r.
Proof.
  unfold in_period, dated. cbv zeta.
  destruct (d_timestamp r) as [ts|]; cbn [default from_option id String.eqb];
    [|discriminate].
  destruct (String.eqb ts EmptyString) eqn:E; [discriminate|].
  apply String.eqb_neq in E.
  destruct (fromisoformat (replace_Z ts)) as [t|] eqn:Et; [|discriminate].
  intros _. by exists ts, t.
Qed.

Definition known_period (time_period : string) : bool :=
  String.eqb time_period "1d" || String.eqb time_period "7d"
  || String.eqb time_period "30d".

(** X23: _filter_by_time_period returns a sublist of the results, in their
    order.  A period other than '1d', '7d' and '30d' returns every result.
    For these three periods every result returned has a timestamp that is
    not empty and is read by fromisoformat: a result without a usable
    timestamp is left out of the trend analysis (the aggregator's
    recent results keep such a record). *)
Theorem filter_by_time_period_spec (test_results : list TestDict) (now : datetime)
    (time_period : string) :
  let filtered := _filter_by_time_period test_results now time_period in
  filtered `sublist_of` test_results
  /\ (if known_period time_period
      then Forall dated filtered
           /\ (forall r, In r test_results -> d_timestamp r = None ->
                         ~ In r filtered)
      else filtered = test_results).
Proof.
  cbn zeta. unfold _filter_by_time_period, known_period.
  destruct test_results as [|r0 rest] eqn:E.
  { split; [constructor|].
    destruct (String.eqb time_period "1d" || String.eqb time_period "7d"
              || String.eqb time_period "30d"); [|reflexivity].
    split; [constructor | intros r []]. }
  rewrite <- E.
  assert (Hf : forall cutoff,
             List.filter (in_period cutoff) test_results `sublist_of` test_results
             /\ Forall dated (List.filter (in_period cutoff) test_results)
             /\ (forall r, In r test_results -> d_timestamp r = None ->
                           ~ In r (List.filter (in_period cutoff) test_results))).
  { intros cutoff. split; [apply AggregatorExtra.filter_sublist|]. split.
    - apply List.Forall_forall. intros r Hr. apply List.filter_In in Hr as [_ Hr].
      by apply in_period_dated with cutoff.
    - intros r _ Hnone Hin. apply List.filter_In in Hin as [_ Hin].
      apply in_period_dated in Hin as (ts & t & Hts & _). congruence. }
  destruct (String.eqb time_period "1d"); cbn [orb]; [apply Hf|].
  destruct (String.eqb time_period "7d"); cbn [orb]; [apply Hf|].
  destruct (String.eqb time_period "30d"); cbn [orb]; [apply Hf|].
  split; reflexivity.
Qed.

End WithDatetime.

(** *** [_identify_critical_issues] *)

Definition names_of (test_results : list TestDict) : list string :=
  map (fun r => default EmptyString (d_name r)) test_results.

Lemma occurrences_In (k : string) (keys : list string) :
  In k keys -> (1 <= occurrences k keys)%Z.
Proof.
  induction keys as [|x keys IH]; [intros []|].
  rewrite occurrences_cons. pose proof (occurrences_nonneg k keys).
  intros [->|Hin].
  - rewrite String.eqb_refl. lia.
  - specialize (IH Hin). destruct (String.eqb k x); lia.
Qed.

Lemma occurrences_not_In (k : string) (keys : list string) :
  ~ In k keys -> occurrences k keys = 0%Z.
Proof.
  induction keys as [|x keys IH]; [reflexivity|].
  intros Hn. rewrite occurrences_cons.
  destruct (String.eqb k x) eqn:E.
  - apply String.eqb_eq in E. subst x. exfalso. apply Hn. by left.
  - rewrite IH; [reflexivity|]. intros Hin. apply Hn. by right.
Qed.

(** No key occurs twice exactly when the list has no duplicates. *)
Lemma occurrences_NoDup (keys : list string) :
  (forall k, (occurrences k keys <= 1)%Z) <-> List.NoDup keys.
Proof.
  induction keys as [|x keys IH].
  - split; [constructor | intros _ k; by vm_compute].
  - split.
    + intros H. constructor.
      * intros Hin. apply occurrences_In in Hin.
        specialize (H x). rewrite occurrences_cons, String.eqb_refl in H. lia.
      * apply IH. intros k. specialize (H k). rewrite occurrences_cons in H.
        destruct (String.eqb k x); lia.
    + intros Hnd k. inversion Hnd as [|? ? Hnotin Hnd']; subst.
      rewrite occurrences_cons. destruct (String.eqb k x) eqn:E.
      * apply String.eqb_eq in E. subst k.
        rewrite (occurrences_not_In x keys Hnotin). lia.
      * apply IH with (k := k) in Hnd'. lia.
Qed.

(** The names counted more than once. *)
Definition flaky_of (test_results : list TestDict) : list (string * Z) :=
  List.filter (fun kv : string * Z => (1 <? snd kv)%Z)
              (map_to_list (Counter (names_of test_results))).

Lemma flaky_none (test_results : list TestDict) :
  flaky_of test_results = [] <-> List.NoDup (names_of test_results).
Proof.
  unfold flaky_of. rewrite filter_nil_iff, <- occurrences_NoDup. split.
  - intros H k.
    pose proof (Counter_lookup (names_of test_results) k) as Hk.
    destruct (occurrences k (names_of test_results) =? 0)%Z eqn:E0; [lia|].
    rewrite List.Forall_forall in H.
    assert (Hin : In (k, occurrences k (names_of test_results))
                     (map_to_list (Counter (names_of test_results)))).
    { by apply list_elem_of_In, elem_of_map_to_list. }
    apply H in Hin. simpl in Hin. lia.
  - intros H. apply List.Forall_forall. intros [k v] Hin.
    apply list_elem_of_In, elem_of_map_to_list in Hin.
    rewrite Counter_lookup in Hin.
    destruct (occurrences k (names_of test_results) =? 0)%Z; [discriminate|].
    injection Hin as <-. specialize (H k). simpl. lia.
Qed.

Definition failed_or_error_of (test_results : list TestDict) : Z :=
  len (List.filter status_failed_or_error test_results).

(** X24: _identify_critical_issues never raises and reports at most three
    issues.  It reports none exactly when at most 30% of the results have
    status 'FAILED' or 'ERROR', no test takes more than 60 seconds and no
    name occurs twice among the results, where a result without a name
    counts under the empty name (two results without a name are reported as
    potentially flaky). *)
Theorem critical_issues_spec (test_results : list TestDict) :
  exists issues : list pyval,
    _identify_critical_issues test_results = Ok (PList issues)
    /\ (length issues <= 3)%nat
    /\ (issues = []
        <-> (10 * failed_or_error_of test_results <= 3 * len test_results)%Z
            /\ Forall (fun r => (duration_of r <= 60)%Q) test_results
            /\ List.NoDup (names_of test_results)).
Proof.
  unfold _identify_critical_issues. eexists. split; [reflexivity|].
  fold (names_of test_results). fold (flaky_of test_results).
  fold (failed_or_error_of test_results).
  pose proof (flaky_none test_results) as Hflaky.
  assert (Hslow : List.filter (fun r => Qltb 60 (duration_of r)) test_results = []
                  <-> Forall (fun r => (duration_of r <= 60)%Q) test_results).
  { rewrite filter_nil_iff. apply Forall_iff. intros x. apply Qltb_ge. }
  assert (Hrate : (0 <? len test_results)%Z
                  && Qltb (3 # 10) (truediv (failed_or_error_of test_results)
                                            (len test_results)) = false
                  <-> (10 * failed_or_error_of test_results <= 3 * len test_results)%Z).
  { pose proof (filter_length_le_length status_failed_or_error test_results) as Hb.
    fold (failed_or_error_of test_results) in Hb.
    destruct (0 <? len test_results)%Z eqn:E0; cbn [andb].
    - apply Z.ltb_lt in E0.
      rewrite Qltb_ge, (truediv_le 3 10 _ _ E0). lia.
    - apply Z.ltb_ge in E0. split; [lia | reflexivity]. }
  destruct ((0 <? len test_results)%Z
            && Qltb (3 # 10) (truediv (failed_or_error_of test_results)
                                      (len test_results))) eqn:C1;
  destruct (List.filter (fun r => Qltb 60 (duration_of r)) test_results)
    as [|s0 slow] eqn:C2;
  destruct (flaky_of test_results) as [|f0 flaky] eqn:C3;
    cbn [app length];
    (split; [lia|]);
    (split;
     [ first
         [ discriminate
         | intros _; repeat split;
           [ by apply Hrate | by apply Hslow | by apply Hflaky ] ]
     | intros (Ha & Hb & Hc); try reflexivity; exfalso;
       try (apply Hrate in Ha; discriminate Ha);
       try (apply Hslow in Hb; discriminate Hb);
       try (apply Hflaky in Hc; discriminate Hc) ]).
Qed.

(** *** [_identify_optimization_opportunities] and [generate_insights] *)

(** X25: _identify_optimization_opportunities raises StatisticsError
    exactly on the empty list of results (the mean of no durations), and
    returns at most three opportunities otherwise; generate_insights has no
    guard of its own, so on the empty list it raises StatisticsError instead
    of returning insights, whatever the other helpers return. *)
Theorem insights_need_results `{DT : Datetime}
    (main_path : string -> list TestDict -> result pyval)
    (format_1f : Q -> string) (test_results : list TestDict) :
  (_identify_optimization_opportunities format_1f test_results = Raise StatisticsError
   <-> test_results = [])
  /\ match test_results with
     | [] => generate_insights main_path format_1f test_results = Raise StatisticsError
     | _ =>
         exists opportunities,
           _identify_optimization_opportunities format_1f test_results
           = Ok (PList opportunities)
           /\ (length opportunities <= 3)%nat
     end.
Proof.
  destruct test_results as [|r rest].
  { split; [split; reflexivity | reflexivity]. }
  assert (Hok : exists opportunities,
             _identify_optimization_opportunities format_1f (r :: rest)
             = Ok (PList opportunities)
             /\ (length opportunities <= 3)%nat).
  { unfold _identify_optimization_opportunities.
    cbn [map mean bind].
    eexists. split; [reflexivity|].
    repeat match goal with
           | |- context [if ?c then _ else _] => destruct c
           end; simpl; lia. }
  split; [|exact Hok].
  destruct Hok as (l & -> & _). split; discriminate.
Qed.

End InsightFacts.

(** ** The further properties on concrete data *)
Module MoreExamples.
Import Py PyFacts Aggregator AggregatorFacts AggregatorExtra.
Import Dicts Notification NotificationFacts NotificationExtra.
Import Iso8601 Reference ReferenceFacts Examples.

(** The statistics of the four records of [demo]. *)
Lemma duration_stats_bounds_witness :
  let st := get_test_duration_stats demo in
  let ds := map duration (results demo) in
  let n := len (results demo) in
  In (stat_min st) ds /\ In (stat_max st) ds /\ In (stat_median st) ds
  /\ Forall (fun d => (stat_min st <= d)%Q /\ (d <= stat_max st)%Q) ds
  /\ stat_total st = float_sum (sorted (fun d : Q => d) Qltb false ds)
  /\ stat_avg st = float_div (stat_total st) (inject_Z n)
  /\ (count_below (stat_median st) (results demo) <= n / 2)%Z
  /\ (count_above (stat_median st) (results demo) < n - n / 2)%Z.
Proof. apply (duration_stats_bounds demo). discriminate. Defined.

Example demo_duration_stats :
  let st := get_test_duration_stats demo in
  (stat_min st == 3 # 2)%Q /\ (stat_max st == 3)%Q /\ (stat_median st == 3)%Q
  /\ (stat_total st == 19 # 2)%Q /\ (stat_avg st == 19 # 8)%Q.
Proof. vm_compute. repeat split; reflexivity. Qed.

Definition passed_test (nm : string) : TestDict :=
  {| d_name := Some nm; d_suite := Some "checkout"; d_category := None;
     d_status := Some "PASSED"; d_duration := Some 1%Q; d_timestamp := None |}.

(** One passed test and the rule of [start]: the rule is looked at and
    nothing is sent. *)
Lemma quiet_run_sends_nothing_witness :
  let out :=
    send_test_results_notification seconds template_name accept
      [passed_test "login"] None start in
  out.1 = Ok []
  /\ system out.2 = system start
  /\ trace out.2
     = trace start
       ++ map (fun rule => Evaluated (rule_name rule))
              (List.filter enabled (rules (system start))).
Proof.
  apply (quiet_run_sends_nothing seconds template_name accept
           [passed_test "login"] None start).
  - by vm_compute.
  - by vm_compute.
Defined.

(** Two failed tests exceed the threshold CRITICAL, and so the threshold
    LOW. *)
Lemma priority_thresholds_nested_witness :
  _priority_exceeds_threshold
    (_calculate_summary "2024-01-16T10:00:00" [failed_test "pay"; failed_test "refund"])
    LOW
  = Ok true.
Proof.
  apply (priority_thresholds_nested "2024-01-16T10:00:00"
           [failed_test "pay"; failed_test "refund"] LOW CRITICAL).
  - simpl. lia.
  - vm_compute. reflexivity.
Defined.

(** A rule that writes its notification to a file. *)
Definition failures_to_file : NotificationRule :=
  {| rule_name := "Failures"; channel := FILE; priority_threshold := LOW;
     trigger_conditions := [("min_failures", 3%Q)]; template := "failure_alert";
     enabled := true; rate_limit_minutes := 60 |}.

(** The rule, delivered and looked at again one second later: the file
    transport read the clock twice, the time stored is the sixth read. *)
Lemma rate_limit_round_trip_witness :
  let first :=
    send_loop seconds template_name accept [failures_to_file] ∅ [] start in
  let second :=
    send_loop seconds template_name accept [failures_to_file] ∅ [] first.2 in
  (exists r, first.1 = Ok [r] /\ success r = true
             /\ result_timestamp r = seconds 4)
  /\ trace first.2
     = trace start ++ [Delivery "Failures" FILE "failure_alert"]
  /\ last_notification_times (system first.2) !! "Failures" = Some (seconds 5)
  /\ ticks first.2 = 6
  /\ second.1 = Ok []
  /\ trace second.2 = trace first.2
  /\ system second.2 = system first.2.
Proof.
  apply (rate_limit_round_trip seconds template_name accept failures_to_file
           ∅ [] start "failure_alert" None 2 1000000).
  - reflexivity.
  - reflexivity.
  - reflexivity.
  - vm_compute. reflexivity.
  - by vm_compute.
Defined.

(** The same rule on the console: the transport does not read the clock,
    the time stored is the fourth read. *)
Example console_round_trip :
  let first :=
    send_loop seconds template_name accept [three_failures_rule] ∅ [] start in
  last_notification_times (system first.2) !! "Failures" = Some (seconds 3)
  /\ ticks first.2 = 4.
Proof. vm_compute. split; reflexivity. Qed.


(** Beyond ASCII the lower-case forms are those of Unicode: the suite
    'PRÜFUNG' answers the query 'prüfung'. *)
Definition pruefung_upper : string :=
  String "P" (String "R" (String "195" (String "156" "FUNG"))).

Definition pruefung_lower : string :=
  String "p" (String "r" (String "195" (String "188" "fung"))).

Example suite_query_beyond_ascii :
  let r := from_result_data "2024-01-16T10:00:00"
             {| rd_id := "t1"; rd_name := "t1"; rd_suite := pruefung_upper;
                rd_duration := 1; rd_status := "PASSED";
                rd_error_details := None; rd_message := None |} in
  get_tests_by_suite (add_results init [r]) pruefung_lower = [r].
Proof. vm_compute. reflexivity. Qed.

(** *** The helpers of the metrics and of the analysis *)

(** The bounds of the buckets belong to the lower bucket. *)
Example histogram_bounds :
  let buckets :=
    Metrics._analyze_performance_distribution [1; 3 # 2; 5; 10; 30; 60; 61; -1]%Q in
  map (fun k => buckets !! k) ["0-1s"; "1-5s"; "5-10s"; "10-30s"; "30-60s"; "60s+"; "other"]
  = [Some 2; Some 2; Some 1; Some 1; Some 1; Some 1; None]%Z.
Proof. vm_compute. reflexivity. Qed.

Example all_passed_scores :
  let run := [passed_test "login"; passed_test "pay"] in
  (Analytics._calculate_test_effectiveness run == 70)%Q
  /\ (Analytics._calculate_quality_score run == 100)%Q
  /\ (Metrics._calculate_reliability_score run == 100)%Q
  /\ Analytics._generate_quality_recommendations run
     = ["Test quality is excellent. Consider increasing test coverage or complexity."].
Proof. vm_compute. repeat split; reflexivity. Qed.

Definition nameless : TestDict :=
  {| d_name := None; d_suite := None; d_category := None;
     d_status := Some "PASSED"; d_duration := None; d_timestamp := None |}.

(** Two results without a name count as one flaky test. *)
Example nameless_results_are_flaky :
  Analytics._identify_critical_issues [nameless; nameless]
  = Ok (PList [PStr "Detected 1 potentially flaky tests"]).
Proof. vm_compute. reflexivity. Qed.

(** A reliability of 50 is assessed as in need of improvement and nothing
    is recommended for it. *)
Example low_reliability_is_performing_well :
  let kpis :=
    [("test_pass_rate", 90); ("test_reliability", 50); ("test_performance", 4);
     ("test_coverage", 70); ("execution_efficiency", 10)]%Q in
  let status := Metrics._assess_kpi_status kpis in
  status
  = [("test_pass_rate", "good"); ("test_reliability", "needs_improvement");
     ("test_performance", "excellent"); ("test_coverage", "good");
     ("execution_efficiency", "good")]
  /\ Metrics._generate_recommendations kpis status = [Metrics.all_kpis_well]
  /\ map Metrics.action_kpi (Metrics._identify_priority_actions kpis status)
     = ["test_reliability"].
Proof. vm_compute. repeat split; reflexivity. Qed.

(** *** Custom notifications *)

(** The object of [start] has an empty configuration: the override of a
    custom notification stays. *)
Example override_stays_on_empty_config :
  let out :=
    send_custom_notification seconds template_name accept CONSOLE "hello"
      (Some [("slack", [("webhook_url", "https://hooks.example/T1")])]) start in
  config (system out.2) = [("slack", [("webhook_url", "https://hooks.example/T1")])]
  /\ trace out.2 = [Delivery "Custom" CONSOLE "custom"].
Proof. vm_compute. split; reflexivity. Qed.

End MoreExamples.
